(** * hsfm: the pipeline orchestrator, the co-registration shift and the
      heading computation, embedded from the Python sources

    Sources embedded here:
    - [src/hsfm/pipeline/pipeline.py]: class [Pipeline] ([__init__],
      [run_multi], [_update_output_paths], [_set_input_images_metadata_file],
      [run] and the private stage methods);
    - [src/hsfm/utils/utils.py]: [run_command] and [dem_align_custom], which
      step 8 of the pipeline calls, and [scale_down_number];
    - [src/hsfm/batch/pipeline.py]: [__apply_nuth_transform_and_update_camera_data]
      and [__find_first_json_file_in_nested_directory];
    - [src/hsfm/batch/batch.py]: [calculate_heading_from_metadata] and
      [batch_generate_cameras].

    Python is dynamically typed and the orchestrator hands whatever a call
    returned to the next call, so values are kept as a small universe of
    Python values ([pyval]).  The [Pipeline] object, the files on disk and the
    log of the calls that leave the class are threaded through a state and
    exception monad. *)

From Stdlib Require Import ZArith List Ascii String Bool Lia QArith Qround Lqa.
From stdpp Require Import base option list strings gmap pretty.

Local Open Scope string_scope.
Local Open Scope Z_scope.

(** ** Data *)

(** One row of a camera metadata CSV.  Numeric cells are kept as integers
    (exact arithmetic); nothing below depends on rounding. *)
Record CameraRecord := mkCamera {
  image_file_name : string;
  lon : Z;
  lat : Z;
  alt : Z;
  yaw : Z;
  pitch : Z;
  roll : Z;
  focal_length : Z
}.

(** A pandas DataFrame of camera metadata: the rows in order. *)
Definition DataFrame := list CameraRecord.

(** The Python values that flow through the orchestrator. *)
#[warnings="-register-all"]
Inductive pyval :=
| PyNone
| PyBool (b : bool)
| PyInt (z : Z)
| PyStr (s : string)
| PyDataFrame (df : DataFrame)
| PyTuple (items : list pyval).

(** The Python exceptions the orchestrator's model distinguishes.
    [ExternalError] stands for any other failure, named by the collaborator
    that raised it or by its class. *)
Inductive exn :=
| UnboundLocalError
| ValueError
| TypeError
| AttributeError
| FileNotFoundError
| RasterioIOError
| ExternalError (msg : string).

Inductive outcome (A : Type) :=
| Return (a : A)
| Raise (e : exn).
Arguments Return {A} a.
Arguments Raise {A} e.

(** The exceptions of the functions outside the orchestrator: those of
    [exn], an index past the end of a list, a division by zero, and
    [sys.exit]. *)
Inductive raised :=
| Builtin (e : exn)
| IndexError
| ZeroDivisionError
| SystemExit (status : Z).

Inductive result (A : Type) :=
| Done (a : A)
| Raised (r : raised).
Arguments Done {A} a.
Arguments Raised {A} r.

(** An exception of such a function as it reaches the orchestrator. *)
Definition as_exn (r : raised) : exn :=
  match r with
  | Builtin e => e
  | IndexError => ExternalError "IndexError"
  | ZeroDivisionError => ExternalError "ZeroDivisionError"
  | SystemExit _ => ExternalError "SystemExit"
  end.

(** A file on disk: a metadata CSV, a raster with its footprint
    [(left, bottom, right, top)], or anything else (project files, point
    clouds, plots, logs).  Directories are not modelled: a path is a key. *)
Inductive file :=
| CsvFile (df : DataFrame)
| RasterFile (bounds : Z * Z * Z * Z)
| OtherFile (tag : string).

(** ** [os.path.join] (posixpath) *)

Definition startswith_sep (s : string) : bool :=
  match s with
  | String c _ => Ascii.eqb c "/"%char
  | EmptyString => false
  end.

Fixpoint endswith_sep (s : string) : bool :=
  match s with
  | EmptyString => false
  | String c EmptyString => Ascii.eqb c "/"%char
  | String _ rest => endswith_sep rest
  end.

Definition join_component (path b : string) : string :=
  if startswith_sep b then b
  else if (String.eqb path "" || endswith_sep path)%bool then path ++ b
  else path ++ "/" ++ b.

Definition os_path_join (a : string) (p : list string) : string :=
  fold_left join_component p a.

(** [str(i)] for an integer. *)
Definition str (z : Z) : string := pretty z.

(** ** The [Pipeline] object *)

Record Pipeline := mkPipeline {
  input_images_path : string;
  reference_dem : string;
  image_matching_accuracy : Z;
  densecloud_quality : Z;
  output_DEM_resolution : Z;
  project_name : string;
  output_path : string;
  input_images_metadata_file : pyval;
  license_path : string;
  verbose : bool;
  rotation_enabled : bool;
  camera_models_path : pyval;
  original_output_path : string;
  bundle_adjusted_metadata_file : string;
  bundle_adjusted_unaligned_metadata_file : string;
  aligned_bundle_adjusted_metadata_file : string;
  nuthed_aligned_bundle_adjusted_metadata_file : string;
  clipped_reference_dem_file : string
}.

(** [Pipeline.__init__] (pipeline.py, lines 63-124). *)
Definition __init__
    (images_path ref_dem : string) (matching_accuracy cloud_quality resolution : Z)
    (name out_path : string) (metadata_file : pyval)
    (models_path : pyval) (license : string) (verb rot : bool) : Pipeline :=
  {| input_images_path := images_path;
     reference_dem := ref_dem;
     image_matching_accuracy := matching_accuracy;
     densecloud_quality := cloud_quality;
     output_DEM_resolution := resolution;
     project_name := name;
     output_path := out_path;
     input_images_metadata_file := metadata_file;
     license_path := license;
     verbose := verb;
     rotation_enabled := rot;
     camera_models_path := models_path;
     original_output_path := out_path;
     bundle_adjusted_metadata_file :=
       os_path_join out_path ["metaflow_bundle_adj_metadata.csv"];
     bundle_adjusted_unaligned_metadata_file :=
       os_path_join out_path ["metaflow_bundle_adj_unaligned_metadata.csv"];
     aligned_bundle_adjusted_metadata_file :=
       os_path_join out_path ["aligned_bundle_adj_metadata.csv"];
     nuthed_aligned_bundle_adjusted_metadata_file :=
       os_path_join out_path ["nuth_aligned_bundle_adj_metadata.csv"];
     clipped_reference_dem_file :=
       os_path_join out_path ["reference_dem_clipped.tif"] |}.

(** The field updates of [Pipeline._update_output_paths]
    (pipeline.py, lines 148-170). *)
Definition update_output_paths (p : Pipeline) (new_output_path : string) : Pipeline :=
  {| input_images_path := input_images_path p;
     reference_dem := reference_dem p;
     image_matching_accuracy := image_matching_accuracy p;
     densecloud_quality := densecloud_quality p;
     output_DEM_resolution := output_DEM_resolution p;
     project_name := project_name p;
     output_path := new_output_path;
     input_images_metadata_file := input_images_metadata_file p;
     license_path := license_path p;
     verbose := verbose p;
     rotation_enabled := rotation_enabled p;
     camera_models_path := camera_models_path p;
     original_output_path := original_output_path p;
     bundle_adjusted_metadata_file :=
       os_path_join new_output_path ["metaflow_bundle_adj_metadata.csv"];
     bundle_adjusted_unaligned_metadata_file :=
       os_path_join new_output_path ["metaflow_bundle_adj_unaligned_metadata.csv"];
     aligned_bundle_adjusted_metadata_file :=
       os_path_join new_output_path ["aligned_bundle_adj_metadata.csv"];
     nuthed_aligned_bundle_adjusted_metadata_file :=
       os_path_join new_output_path ["nuth_aligned_bundle_adj_metadata.csv"];
     clipped_reference_dem_file := clipped_reference_dem_file p |}.

(** The field update of [Pipeline._set_input_images_metadata_file]
    (pipeline.py, lines 172-176). *)
Definition set_input_images_metadata_file (p : Pipeline) (updated_cameras : pyval)
    : Pipeline :=
  {| input_images_path := input_images_path p;
     reference_dem := reference_dem p;
     image_matching_accuracy := image_matching_accuracy p;
     densecloud_quality := densecloud_quality p;
     output_DEM_resolution := output_DEM_resolution p;
     project_name := project_name p;
     output_path := output_path p;
     input_images_metadata_file := updated_cameras;
     license_path := license_path p;
     verbose := verbose p;
     rotation_enabled := rotation_enabled p;
     camera_models_path := camera_models_path p;
     original_output_path := original_output_path p;
     bundle_adjusted_metadata_file := bundle_adjusted_metadata_file p;
     bundle_adjusted_unaligned_metadata_file :=
       bundle_adjusted_unaligned_metadata_file p;
     aligned_bundle_adjusted_metadata_file :=
       aligned_bundle_adjusted_metadata_file p;
     nuthed_aligned_bundle_adjusted_metadata_file :=
       nuthed_aligned_bundle_adjusted_metadata_file p;
     clipped_reference_dem_file := clipped_reference_dem_file p |}.

(** ** State, log and monad *)

(** The log has one entry for each entry into [run] (with the fields and
    arguments it starts from) and one for each call that leaves the class,
    with its arguments in source order and what it returned or raised. *)
Inductive event :=
| EvRun (input : pyval) (out : string) (rot export : bool)
| EvCall (name : string) (args : list pyval) (result : outcome pyval).

Record State := mkState {
  self : Pipeline;
  fs : gmap string file;
  trace : list event
}.

(** A computation may change the state and then return or raise; what it did
    before raising stays done. *)
Definition M (A : Type) : Type := State -> outcome A * State.

Definition ret {A} (a : A) : M A := fun s => (Return a, s).
Definition raise {A} (e : exn) : M A := fun s => (Raise e, s).
Definition bind {A B} (m : M A) (k : A -> M B) : M B :=
  fun s =>
    match m s with
    | (Return a, s') => k a s'
    | (Raise e, s') => (Raise e, s')
    end.

Notation "'let*' x ':=' m 'in' k" := (bind m (fun x => k))
  (at level 10, x pattern, m at level 100, k at level 200).
Notation "m ';;;' k" := (bind m (fun _ => k))
  (at level 100, k at level 200, right associativity).

Definition get_self : M Pipeline := fun s => (Return (self s), s).
Definition set_self (p : Pipeline) : M unit :=
  fun s => (Return tt, {| self := p; fs := fs s; trace := trace s |}).
Definition log (e : event) : M unit :=
  fun s => (Return tt, {| self := self s; fs := fs s; trace := trace s ++ [e] |}).

(** A call that leaves the class: [impl] is what the callee does to the files
    and what it returns or raises. *)
Definition call (name : string) (args : list pyval)
    (impl : gmap string file -> outcome pyval * gmap string file) : M pyval :=
  fun s =>
    let '(r, fs') := impl (fs s) in
    (r, {| self := self s; fs := fs'; trace := trace s ++ [EvCall name args r] |}).

(** The collaborators whose code is not part of these sources ([hsfm.metashape],
    [hsfm.asp], [hsfm.core], [hsfm.geospatial], [hsfm.plot], the [hsfm.utils]
    functions [clip_reference_dem] and [apply_nuth_transform_to_camera_metadata],
    and the external programs behind [subprocess.Popen] with the directory
    listing behind [glob.glob]): any behaviour on the files and any result. *)
Definition World : Type :=
  string -> list pyval -> gmap string file -> outcome pyval * gmap string file.

(** Tuple unpacking, [a, b = v] and [a, b, c = v]. *)
Definition unpack2 (v : pyval) : M (pyval * pyval) :=
  match v with
  | PyTuple [a; b] => ret (a, b)
  | PyTuple _ => raise ValueError
  | _ => raise TypeError
  end.

Definition unpack3 (v : pyval) : M (pyval * pyval * pyval) :=
  match v with
  | PyTuple [a; b; c] => ret (a, b, c)
  | PyTuple _ => raise ValueError
  | _ => raise TypeError
  end.

(** Truth value of [if v:]. *)
Definition truth (v : pyval) : M bool :=
  match v with
  | PyNone => ret false
  | PyBool b => ret b
  | PyInt z => ret (negb (z =? 0))
  | PyStr s => ret (negb (String.eqb s ""))
  | PyTuple items => ret (negb (Nat.eqb (length items) 0))
  | PyDataFrame _ => raise ValueError
  end.

(** ** pandas, rioxarray and shapely, as far as the pipeline uses them *)

(** [pd.read_csv(v)]: a path that holds a CSV gives its table; anything that
    is not a path is refused. *)
Definition pd_read_csv (v : pyval) (files : gmap string file)
    : outcome pyval * gmap string file :=
  match v with
  | PyStr path =>
      match files !! path with
      | Some (CsvFile df) => (Return (PyDataFrame df), files)
      | Some _ => (Raise ValueError, files)
      | None => (Raise FileNotFoundError, files)
      end
  | _ => (Raise ValueError, files)
  end.

(** [df.to_csv(path, index=False)]: the file at [path] is replaced. *)
Definition df_to_csv (df : pyval) (path : pyval) (files : gmap string file)
    : outcome pyval * gmap string file :=
  match df with
  | PyDataFrame d =>
      match path with
      | PyStr f => (Return PyNone, <[f := CsvFile d]> files)
      | PyNone => (Return (PyStr ""), files)
      | _ => (Raise ValueError, files)
      end
  | _ => (Raise AttributeError, files)
  end.

(** [rix.open_rasterio(v).rio.bounds()]. *)
Definition rio_bounds (v : pyval) (files : gmap string file)
    : outcome pyval * gmap string file :=
  match v with
  | PyStr path =>
      match files !! path with
      | Some (RasterFile (l, b, r, t)) =>
          (Return (PyTuple [PyInt l; PyInt b; PyInt r; PyInt t]), files)
      | _ => (Raise RasterioIOError, files)
      end
  | _ => (Raise TypeError, files)
  end.

(** [shapely.geometry.box] applied to the four unpacked bounds. *)
Definition box (bounds : pyval) : M (Z * Z * Z * Z) :=
  match bounds with
  | PyTuple [PyInt minx; PyInt miny; PyInt maxx; PyInt maxy] =>
      ret (minx, miny, maxx, maxy)
  | _ => raise TypeError
  end.

(** [a.contains(b)] for the rectangles of two raster footprints. *)
Definition contains (a b : Z * Z * Z * Z) : bool :=
  let '(aminx, aminy, amaxx, amaxy) := a in
  let '(bminx, bminy, bmaxx, bmaxy) := b in
  (aminx <=? bminx) && (aminy <=? bminy) && (bmaxx <=? amaxx) && (bmaxy <=? amaxy).

Definition read_csv (v : pyval) : M pyval :=
  call "pandas.read_csv" [v] (pd_read_csv v).

Definition to_csv (df : pyval) (path : pyval) : M unit :=
  call "DataFrame.to_csv" [df; path] (df_to_csv df path) ;;; ret tt.

Definition open_rasterio_bounds (v : pyval) : M pyval :=
  call "rioxarray.open_rasterio.rio.bounds" [v] (rio_bounds v).

(** [df["yaw"] = df["pitch"] = df["roll"] = 0] on one row. *)
Definition zero_yaw_pitch_roll (r : CameraRecord) : CameraRecord :=
  {| image_file_name := image_file_name r;
     lon := lon r; lat := lat r; alt := alt r;
     yaw := 0; pitch := 0; roll := 0;
     focal_length := focal_length r |}.

(** ** Running external commands and scaling numbers (utils/utils.py) *)
Module Utils.

(** [bytes.decode('ASCII')]: the bytes themselves when all are below 128,
    else [UnicodeDecodeError], which is a [ValueError]. *)
Definition is_ascii (c : ascii) : bool := (N_of_ascii c <? 128)%N.

Definition decode (bytes : string) : outcome string :=
  if forallb is_ascii (list_ascii_of_string bytes) then Return bytes
  else Raise ValueError.

(** [s.rstrip(c)] for a single character [c]. *)
Fixpoint rstrip (c : ascii) (s : string) : string :=
  match s with
  | EmptyString => EmptyString
  | String a rest =>
      match rstrip c rest with
      | EmptyString => if Ascii.eqb a c then EmptyString else String a EmptyString
      | kept => String a kept
      end
  end.

Definition newline : ascii := "010"%char.

(** The polling loop of [run_command] with a log file, lines 43-47, over the
    lines read while the process is alive: the text written so far, and the
    failure of a decode if there is one. *)
Fixpoint write_lines (lines : list string) (written : string)
    : outcome unit * string :=
  match lines with
  | [] => (Return tt, written)
  | line :: rest =>
      match decode line with
      | Return text => write_lines rest (written ++ rstrip newline text)%string
      | Raise e => (Raise e, written)
      end
  end.

(** The same loop without a log file, lines 51-54. *)
Fixpoint read_lines (lines : list string) : outcome unit :=
  match lines with
  | [] => Return tt
  | line :: rest =>
      match decode line with
      | Return _ => read_lines rest
      | Raise e => Raise e
      end
  end.

(** [str.split()]: the words between runs of white space. *)
Definition is_space (c : ascii) : bool :=
  let n := N_of_ascii c in
  ((9 <=? n) && (n <=? 13) || (28 <=? n) && (n <=? 32))%N.

Fixpoint split_words (s : string) (word : string) : list string :=
  match s with
  | EmptyString => if String.eqb word "" then [] else [word]
  | String c rest =>
      if is_space c then
        if String.eqb word "" then split_words rest ""
        else word :: split_words rest ""
      else split_words rest (word ++ String c "")%string
  end.

Definition split (s : string) : list string := split_words s "".

(** [l[-k]] for [k >= 1]. *)
Definition from_end {A} (l : list A) (k : nat) : option A :=
  rev l !! (k - 1)%nat.

(** [os.path.split(p)] (posixpath): [p] cut after its last "/", and the
    head without its trailing "/" unless it consists of "/" only. *)
Fixpoint cut_after_last_sep (p : string) : string * string :=
  match p with
  | EmptyString => (EmptyString, EmptyString)
  | String c rest =>
      let (head, tail) := cut_after_last_sep rest in
      if String.eqb head "" then
        if Ascii.eqb c "/"%char then (String c EmptyString, rest)
        else (EmptyString, String c rest)
      else (String c head, tail)
  end.

Definition os_path_split (p : string) : string * string :=
  let (head, tail) := cut_after_last_sep p in
  match rstrip "/"%char head with
  | EmptyString => (head, tail)
  | stripped => (stripped, tail)
  end.

(** The numbers of [scale_down_number] are kept as rationals.  That is what
    the code computes on integers below 2^53 and on finite floats as long as
    halving does not underflow: such values and their halves are floats
    exactly.  Infinities, NaN and integers beyond the range of a float are
    outside this model. *)

(** [a > b]. *)
Definition greater (a b : Q) : bool :=
  (Qnum b * QDen a <? Qnum a * QDen b)%Z.

(** [int(x)]: the integer part, rounding toward zero. *)
Definition int (x : Q) : Z := Z.quot (Qnum x) (QDen x).

(** The loop [while number > threshold: number = number / 2], lines
    157-158; [fuel] bounds the number of passes. *)
Fixpoint scale_down_loop (fuel : nat) (number threshold : Q) : option Q :=
  if greater number threshold then
    match fuel with
    | O => None
    | S fuel' => scale_down_loop fuel' (number / 2)%Q threshold
    end
  else Some number.

(** [scale_down_number], lines 156-160. *)
Definition scale_down_number (fuel : nat) (number threshold : Q) : option Z :=
  match scale_down_loop fuel number threshold with
  | Some halved => Some (int halved)
  | None => None
  end.

Section Commands.

(** [Popen(command, ...)]: the program started on the files as they are.  It
    gives the lines that [p.stdout.readline()] yields while [p.poll()] is
    [None], and the files as the program leaves them; or [Popen] raises.
    [glob.glob(pattern)] lists the matching paths among the files. *)
Variable process :
  list pyval -> bool -> gmap string file
  -> outcome (list string) * gmap string file.
Variable glob : string -> gmap string file -> list string.

(** [run_command], lines 30-54.  [hsfm.io.create_dir] makes the log
    directory; directories are not part of the file map.  The log file is
    opened for writing before the loop and closed by the [with] block
    whatever the loop does; it is written over what the program left.
    Without a log directory the function falls off its end and returns
    [None]. *)
Definition run_command (command : list pyval) (verbose : bool)
    (log_directory : option string) (shell : bool) (files : gmap string file)
    : result (option string) * gmap string file :=
  match process command shell files with
  | (Raise e, files') => (Raised (Builtin e), files')
  | (Return lines, files') =>
      match log_directory with
      | Some directory =>
          match command with
          | [] => (Raised IndexError, files')
          | PyStr program :: _ =>
              let log_file_name :=
                os_path_join directory [(program ++ "_log.txt")%string] in
              let (finished, written) := write_lines lines "" in
              let logged := <[log_file_name := OtherFile written]> files' in
              match finished with
              | Return _ => (Done (Some log_file_name), logged)
              | Raise e => (Raised (Builtin e), logged)
              end
          | _ :: _ => (Raised (Builtin TypeError), files')
          end
      | None =>
          match read_lines lines with
          | Return _ => (Done None, files')
          | Raise e => (Raised (Builtin e), files')
          end
      end
  end.

(** [open(log_file_name, 'r')] and [file.read()] on what [run_command]
    returned: [open(None)] raises [TypeError]. *)
Definition read_text (log_file_name : option string) (files : gmap string file)
    : result string :=
  match log_file_name with
  | Some path =>
      match files !! path with
      | Some (OtherFile text) => Done text
      | Some _ => Raised (Builtin ValueError)
      | None => Raised (Builtin FileNotFoundError)
      end
  | None => Raised (Builtin TypeError)
  end.

(** [dem_align_custom], lines 442-462. *)
Definition dem_align_custom (reference_dem dem_to_be_aligned mode : pyval)
    (max_offset : Z) (verbose : bool) (log_directory : option string)
    (files : gmap string file)
    : result (string * string) * gmap string file :=
  let call :=
    [PyStr "dem_align.py"; PyStr "-max_offset"; PyStr (str max_offset);
     PyStr "-mode"; mode; reference_dem; dem_to_be_aligned] in
  match run_command call verbose log_directory false files with
  | (Raised r, files') => (Raised r, files')
  | (Done log_file_name, files') =>
      match read_text log_file_name files' with
      | Raised r => (Raised r, files')
      | Done text =>
          match from_end (split text) 3 with
          | None => (Raised IndexError, files')
          | Some output_plot_file_name =>
              let directory := fst (os_path_split output_plot_file_name) in
              match glob (directory ++ "/*_align_diff.tif")%string files' with
              | [] => (Raised IndexError, files')
              | dem_difference_file_name :: _ =>
                  match glob (directory ++ "/*align.tif")%string files' with
                  | [] => (Raised IndexError, files')
                  | aligned_dem_file_name :: _ =>
                      (Done (dem_difference_file_name, aligned_dem_file_name),
                       files')
                  end
              end
          end
      end
  end.

End Commands.

End Utils.

(** A tuple of strings as the list of its items. *)
Fixpoint strings_of (items : list pyval) : option (list string) :=
  match items with
  | [] => Some []
  | PyStr s :: rest =>
      match strings_of rest with
      | Some strings => Some (s :: strings)
      | None => None
      end
  | _ :: _ => None
  end.

Definition as_strings (v : pyval) : option (list string) :=
  match v with
  | PyTuple items => strings_of items
  | _ => None
  end.

(** ** The stages of [Pipeline] (pipeline/pipeline.py) *)

Section Stages.

Variable world : World.

(** [subprocess.Popen] and [glob.glob] as the world answers them: the lines
    that the process prints while it lives, as a tuple of strings, together
    with the files it leaves; and the paths that match a pattern. *)
Definition popen (command : list pyval) (shell : bool) (files : gmap string file)
    : outcome (list string) * gmap string file :=
  match world "subprocess.Popen" [PyTuple command; PyBool shell] files with
  | (Return v, files') =>
      match as_strings v with
      | Some lines => (Return lines, files')
      | None => (Raise AttributeError, files')
      end
  | (Raise e, files') => (Raise e, files')
  end.

Definition glob_glob (pattern : string) (files : gmap string file) : list string :=
  match world "glob.glob" [PyStr pattern] files with
  | (Return v, _) => default [] (as_strings v)
  | (Raise _, _) => []
  end.

(** [hsfm.utils.dem_align_custom(reference_dem, dem_to_be_aligned, mode,
    verbose=verbose)] as the pipeline calls it: [max_offset] and
    [log_directory] keep their defaults, 1000 and [None]. *)
Definition dem_align_custom (reference_dem dem_to_be_aligned mode : pyval)
    (verbose : bool) (files : gmap string file)
    : outcome pyval * gmap string file :=
  match Utils.dem_align_custom popen glob_glob reference_dem dem_to_be_aligned
          mode 1000 verbose None files with
  | (Done (dem_difference_file_name, aligned_dem_file_name), files') =>
      (Return (PyTuple [PyStr dem_difference_file_name;
                        PyStr aligned_dem_file_name]), files')
  | (Raised r, files') => (Raise (as_exn r), files')
  end.

(** [_update_output_paths], lines 148-170. *)
Definition _update_output_paths (new_output_path : string) : M unit :=
  let* p := get_self in
  set_self (update_output_paths p new_output_path).

(** [_set_input_images_metadata_file], lines 172-176. *)
Definition _set_input_images_metadata_file (updated_cameras : pyval) : M unit :=
  let* p := get_self in
  set_self (set_input_images_metadata_file p updated_cameras).

(** [_is_metashape_activated], lines 244-251 (the import of [Metashape] is
    taken to succeed): the attribute is read once to be printed and once
    more to be returned. *)
Definition _is_metashape_activated : M pyval :=
  let* p := get_self in
  call "hsfm.metashape.authentication" [PyStr (license_path p)]
       (world "hsfm.metashape.authentication" [PyStr (license_path p)]) ;;;
  call "Metashape.app.activated" [] (world "Metashape.app.activated" []) ;;;
  call "Metashape.app.activated" [] (world "Metashape.app.activated" []).

(** [_reset_yaw_pitch_roll], lines 271-274. *)
Definition _reset_yaw_pitch_roll (camera_metadata_file_path : pyval) : M unit :=
  let* df := read_csv camera_metadata_file_path in
  match df with
  | PyDataFrame rows =>
      to_csv (PyDataFrame (map zero_yaw_pitch_roll rows)) camera_metadata_file_path
  | _ => raise TypeError
  end.

(** [_run_metashape], lines 253-269. *)
Definition _run_metashape (rot : bool) : M (pyval * pyval) :=
  let* p := get_self in
  _reset_yaw_pitch_roll (input_images_metadata_file p) ;;;
  let args :=
    [PyStr (project_name p); PyStr (input_images_path p);
     input_images_metadata_file p; PyStr (output_path p);
     PyInt (image_matching_accuracy p); PyInt (densecloud_quality p);
     PyBool rot; camera_models_path p] in
  let* r := call "hsfm.metashape.images2las" args
                 (world "hsfm.metashape.images2las" args) in
  unpack2 r.

(** [_extract_orthomosaic], lines 276-284. *)
Definition _extract_orthomosaic (split_in_blocks : bool) : M unit :=
  let* p := get_self in
  let args :=
    [PyStr (project_name p); PyStr (output_path p); PyBool true;
     PyBool split_in_blocks; PyInt 0] in
  call "hsfm.metashape.images2ortho" args
       (world "hsfm.metashape.images2ortho" args) ;;;
  ret tt.

(** [_extract_dem], lines 286-300. *)
Definition _extract_dem (point_cloud_file : pyval) : M pyval :=
  let* p := get_self in
  let* code := call "hsfm.geospatial.get_epsg_code" [PyStr (reference_dem p)]
                    (world "hsfm.geospatial.get_epsg_code" [PyStr (reference_dem p)]) in
  match code with
  | PyStr c =>
      let epsg_code := "EPSG:" ++ c in
      let args :=
        [point_cloud_file; PyStr "--nodata-value"; PyStr "-9999"; PyStr "--tr";
         PyStr (str (output_DEM_resolution p)); PyStr "--t_srs"; PyStr epsg_code;
         PyBool (verbose p)] in
      call "hsfm.asp.point2dem" args (world "hsfm.asp.point2dem" args)
  | _ => raise TypeError
  end.

(** [_update_camera_data], lines 302-311. *)
Definition _update_camera_data (project_file : pyval) : M pyval :=
  let* p := get_self in
  let args := [project_file; input_images_metadata_file p] in
  let* r := call "hsfm.metashape.update_ba_camera_metadata" args
                 (world "hsfm.metashape.update_ba_camera_metadata" args) in
  let* (ba_cameras_df, unaligned_cameras_df) := unpack2 r in
  to_csv ba_cameras_df (PyStr (bundle_adjusted_metadata_file p)) ;;;
  to_csv unaligned_cameras_df (PyStr (bundle_adjusted_unaligned_metadata_file p)) ;;;
  ret unaligned_cameras_df.

(** [_compare_camera_positions], lines 313-332. *)
Definition _compare_camera_positions
    (metadata_file_1 metadata_file_2 : pyval) (title plot_file_name : string)
    : M unit :=
  let* p := get_self in
  let* r := call "hsfm.core.compute_point_offsets" [metadata_file_1; metadata_file_2]
                 (world "hsfm.core.compute_point_offsets"
                        [metadata_file_1; metadata_file_2]) in
  let* (x_offset, y_offset, z_offset) := unpack3 r in
  let* ba_CE90 := call "hsfm.geospatial.CE90" [x_offset; y_offset]
                       (world "hsfm.geospatial.CE90" [x_offset; y_offset]) in
  let* ba_LE90 := call "hsfm.geospatial.LE90" [z_offset]
                       (world "hsfm.geospatial.LE90" [z_offset]) in
  let args :=
    [ba_LE90; ba_CE90; x_offset; y_offset; z_offset; PyStr title;
     PyStr (os_path_join (output_path p) [plot_file_name])] in
  call "hsfm.plot.plot_offsets" args (world "hsfm.plot.plot_offsets" args) ;;;
  ret tt.

(** [_pc_align_routine], lines 334-355. *)
Definition _pc_align_routine (dem : pyval) : M (pyval * pyval) :=
  let* p := get_self in
  let* reference_dem_bounds := open_rasterio_bounds (PyStr (reference_dem p)) in
  let* new_dem_bounds := open_rasterio_bounds dem in
  let* ref_box := box reference_dem_bounds in
  let* src_box := box new_dem_bounds in
  if contains ref_box src_box then
    let clip_args :=
      [dem; PyStr (reference_dem p); PyStr (clipped_reference_dem_file p);
       PyBool (verbose p)] in
    let* clipped := call "hsfm.utils.clip_reference_dem" clip_args
                         (world "hsfm.utils.clip_reference_dem" clip_args) in
    let args := [dem; clipped; PyStr (output_path p); PyBool (verbose p)] in
    let* r := call "hsfm.asp.pc_align_p2p_sp2p" args
                   (world "hsfm.asp.pc_align_p2p_sp2p" args) in
    unpack2 r
  else
    let args :=
      [dem; PyStr (reference_dem p); PyStr (output_path p); PyBool (verbose p)] in
    let* r := call "hsfm.asp.pc_align_p2p_sp2p" args
                   (world "hsfm.asp.pc_align_p2p_sp2p" args) in
    unpack2 r.

(** [_apply_transform_and_update_camera_data], lines 357-366. *)
Definition _apply_transform_and_update_camera_data (transform : pyval) : M pyval :=
  let* p := get_self in
  let args :=
    [PyStr (bundle_adjusted_metadata_file p); transform;
     PyStr (aligned_bundle_adjusted_metadata_file p)] in
  call "hsfm.core.metadata_transform" args
       (world "hsfm.core.metadata_transform" args) ;;;
  let* df := read_csv (PyStr (aligned_bundle_adjusted_metadata_file p)) in
  to_csv df (PyStr (aligned_bundle_adjusted_metadata_file p)) ;;;
  ret df.

(** [_nuth_kaab_align_routine], lines 370-389.  It calls
    [hsfm.utils.dem_align_custom] of utils.py with three positional
    arguments and [verbose]: the output path lands in the parameter [mode],
    and [log_directory] keeps its default [None]. *)
Definition _nuth_kaab_align_routine (aligned_dem_file : pyval) : M pyval :=
  let* p := get_self in
  let* reference_dem_bounds := open_rasterio_bounds (PyStr (reference_dem p)) in
  let* new_dem_bounds := open_rasterio_bounds aligned_dem_file in
  let* ref_box := box reference_dem_bounds in
  let* src_box := box new_dem_bounds in
  if contains ref_box src_box then
    let args :=
      [PyStr (clipped_reference_dem_file p); aligned_dem_file;
       PyStr (output_path p); PyBool (verbose p)] in
    call "hsfm.utils.dem_align_custom" args
         (dem_align_custom (PyStr (clipped_reference_dem_file p)) aligned_dem_file
            (PyStr (output_path p)) (verbose p))
  else
    let args :=
      [PyStr (reference_dem p); aligned_dem_file;
       PyStr (output_path p); PyBool (verbose p)] in
    call "hsfm.utils.dem_align_custom" args
         (dem_align_custom (PyStr (reference_dem p)) aligned_dem_file
            (PyStr (output_path p)) (verbose p)).

(** [_apply_nuth_transform_and_update_camera_data], lines 391-403. *)
Definition _apply_nuth_transform_and_update_camera_data (df : pyval) : M unit :=
  let* p := get_self in
  let path_to_nuth_output :=
    os_path_join (output_path p)
      ["pc_align"; "spoint2point_bareground-trans_source-DEM_dem_align"] in
  let args := [df; PyStr path_to_nuth_output] in
  call "hsfm.utils.apply_nuth_transform_to_camera_metadata" args
       (world "hsfm.utils.apply_nuth_transform_to_camera_metadata" args) ;;;
  ret tt.

(** [_export_aligned_orthomosaic], lines 405-413. *)
Definition _export_aligned_orthomosaic (dem project_file : pyval) : M unit :=
  let* p := get_self in
  let orthomosaic_file := os_path_join (output_path p) ["orthomosaic_final.tif"] in
  let args :=
    [project_file; PyStr (nuthed_aligned_bundle_adjusted_metadata_file p); dem;
     PyStr orthomosaic_file] in
  call "hsfm.metashape.export_updated_orthomosaic" args
       (world "hsfm.metashape.export_updated_orthomosaic" args) ;;;
  ret tt.

Definition when (b : bool) (m : M unit) : M unit := if b then m else ret tt.

(** The activated branch of [run], lines 194-239. *)
Definition run_stages (rot export_orthomosaic : bool) : M pyval :=
  let* p := get_self in
  read_csv (input_images_metadata_file p) ;;;
  let* (project_file, point_cloud_file) := _run_metashape rot in
  when export_orthomosaic (_extract_orthomosaic false) ;;;
  let* dem := _extract_dem point_cloud_file in
  let* unaligned_cameras_df := _update_camera_data project_file in
  _compare_camera_positions
    (input_images_metadata_file p) (PyStr (bundle_adjusted_metadata_file p))
    "Initial vs Bundle Adjusted" "initial_vs_bundle_adj_offsets.png" ;;;
  let* (aligned_dem_file, transform) := _pc_align_routine dem in
  let* df := _apply_transform_and_update_camera_data transform in
  _compare_camera_positions
    (PyStr (bundle_adjusted_metadata_file p))
    (PyStr (aligned_bundle_adjusted_metadata_file p))
    "Bundle Adjusted vs Bundle Adjusted and Aligned"
    "bundle_adj__vs_bundle_adj_and_aligned_offsets.png" ;;;
  let* r := _nuth_kaab_align_routine aligned_dem_file in
  let* (dem_difference_file, nuth_aligned_dem_file) := unpack2 r in
  _apply_nuth_transform_and_update_camera_data df ;;;
  _compare_camera_positions
    (PyStr (aligned_bundle_adjusted_metadata_file p))
    (PyStr (nuthed_aligned_bundle_adjusted_metadata_file p))
    "Bundle Adjusted + Aligned vs Bundle Adjusted + Aligned + Nuth-Aligned"
    "bundle_adj_and_aligned_vs_bundle_adj_and_aligned_and_nuthed_offsets.png" ;;;
  _compare_camera_positions
    (input_images_metadata_file p)
    (PyStr (nuthed_aligned_bundle_adjusted_metadata_file p))
    "Original vs Bundle Adjusted + Aligned + Nuth-Aligned"
    "og_vs_final_offsets.png" ;;;
  when export_orthomosaic
    (_export_aligned_orthomosaic nuth_aligned_dem_file project_file) ;;;
  ret (PyTuple [PyStr (nuthed_aligned_bundle_adjusted_metadata_file p);
                unaligned_cameras_df]).

(** [run], lines 178-242.  In the other branch the method prints and
    evaluates the bare name [exit], which calls nothing, and falls off its
    end: it returns [None]. *)
Definition run (rot export_orthomosaic : bool) : M pyval :=
  let* p := get_self in
  log (EvRun (input_images_metadata_file p) (output_path p) rot export_orthomosaic) ;;;
  let* activated := _is_metashape_activated in
  let* metashape_is_activated := truth activated in
  if metashape_is_activated then run_stages rot export_orthomosaic
  else ret PyNone.

(** The loop of [run_multi], lines 139-145, over the indices still to run;
    [updated_cameras] is unbound until the body has run once. *)
Fixpoint run_multi_loop (export_orthomosaic : bool) (indices : list nat)
    (rot : bool) (updated_cameras : option pyval) : M (option pyval) :=
  match indices with
  | [] => ret updated_cameras
  | i :: rest =>
      let* p := get_self in
      _update_output_paths
        (os_path_join (original_output_path p) [str (Z.of_nat i) ++ "/"]) ;;;
      let* r := run rot export_orthomosaic in
      _set_input_images_metadata_file r ;;;
      run_multi_loop export_orthomosaic rest false (Some r)
  end.

(** [run_multi], lines 127-146. *)
Definition run_multi (iterations : Z) (export_orthomosaic : bool) : M pyval :=
  let* p := get_self in
  let* updated_cameras :=
    run_multi_loop export_orthomosaic (seq 0 (Z.to_nat iterations))
                   (rotation_enabled p) None in
  match updated_cameras with
  | Some v => ret v
  | None => raise UnboundLocalError
  end.

End Stages.

(** ** A small concrete world

    Stand-ins for the collaborators, used to run the pipeline on explicit
    inputs: the engine is activated or not, the DEM extracted from the point
    cloud and the DEM aligned to the reference have the given footprints, all
    cameras align, the alignment transform is the identity, and the
    co-registration program refuses its arguments and writes nothing. *)
Module Sample.

Record Config := mkConfig {
  activated : bool;
  dem_bounds : Z * Z * Z * Z;
  aligned_dem_bounds : Z * Z * Z * Z
}.

Definition named (name fn : string) : bool := String.eqb name fn.

Definition world (c : Config) : World := fun name args files =>
  if named name "hsfm.metashape.authentication" then (Return PyNone, files)
  else if named name "Metashape.app.activated" then (Return (PyBool (activated c)), files)
  else if named name "hsfm.metashape.images2las" then
    match args with
    | [PyStr project; _; PyStr _; PyStr out; _; _; _; _] =>
        (Return (PyTuple [PyStr (out ++ project ++ ".psx");
                          PyStr (out ++ project ++ ".las")]),
         <[out ++ project ++ ".las" := OtherFile "point cloud"]>
           (<[out ++ project ++ ".psx" := OtherFile "project"]> files))
    | _ => (Raise (ExternalError name), files)
    end
  else if named name "hsfm.metashape.images2ortho" then (Return PyNone, files)
  else if named name "hsfm.geospatial.get_epsg_code" then (Return (PyStr "32610"), files)
  else if named name "hsfm.asp.point2dem" then
    match args with
    | PyStr point_cloud :: _ =>
        (Return (PyStr (point_cloud ++ "-DEM.tif")),
         <[point_cloud ++ "-DEM.tif" := RasterFile (dem_bounds c)]> files)
    | _ => (Raise (ExternalError name), files)
    end
  else if named name "hsfm.metashape.update_ba_camera_metadata" then
    match args with
    | [_; PyStr metadata] =>
        match files !! metadata with
        | Some (CsvFile df) => (Return (PyTuple [PyDataFrame df; PyDataFrame []]), files)
        | _ => (Raise (ExternalError name), files)
        end
    | _ => (Raise (ExternalError name), files)
    end
  else if named name "hsfm.core.compute_point_offsets" then
    (Return (PyTuple [PyTuple []; PyTuple []; PyTuple []]), files)
  else if named name "hsfm.geospatial.CE90" then (Return (PyInt 0), files)
  else if named name "hsfm.geospatial.LE90" then (Return (PyInt 0), files)
  else if named name "hsfm.plot.plot_offsets" then
    match args with
    | [_; _; _; _; _; _; PyStr plot] => (Return PyNone, <[plot := OtherFile "plot"]> files)
    | _ => (Raise (ExternalError name), files)
    end
  else if named name "hsfm.utils.clip_reference_dem" then
    match args with
    | [_; _; PyStr output_file_name; _] =>
        (Return (PyStr output_file_name),
         <[output_file_name := RasterFile (dem_bounds c)]> files)
    | _ => (Raise (ExternalError name), files)
    end
  else if named name "hsfm.asp.pc_align_p2p_sp2p" then
    match args with
    | [_; _; PyStr out; _] =>
        (Return (PyTuple [PyStr (out ++ "pc_align/aligned-DEM.tif");
                          PyStr (out ++ "pc_align/transform.txt")]),
         <[out ++ "pc_align/aligned-DEM.tif" := RasterFile (aligned_dem_bounds c)]> files)
    | _ => (Raise (ExternalError name), files)
    end
  else if named name "hsfm.core.metadata_transform" then
    match args with
    | [PyStr source; _; PyStr output_file_name] =>
        match files !! source with
        | Some (CsvFile df) => (Return PyNone, <[output_file_name := CsvFile df]> files)
        | _ => (Raise (ExternalError name), files)
        end
    | _ => (Raise (ExternalError name), files)
    end
  else if named name "subprocess.Popen" then
    (Return (PyTuple [PyStr "usage: dem_align.py [-h] [-mode MODE] ref_fn src_fn";
                      PyStr "dem_align.py: error: argument -mode: invalid choice"]),
     files)
  else if named name "glob.glob" then (Return (PyTuple []), files)
  else if named name "hsfm.utils.apply_nuth_transform_to_camera_metadata" then
    (Return PyNone, files)
  else if named name "hsfm.metashape.export_updated_orthomosaic" then
    match args with
    | [_; _; _; PyStr orthomosaic] =>
        (Return PyNone, <[orthomosaic := OtherFile "orthomosaic"]> files)
    | _ => (Raise (ExternalError name), files)
    end
  else (Raise (ExternalError name), files).

Definition camera (name : string) (x y z heading : Z) : CameraRecord :=
  {| image_file_name := name; lon := x; lat := y; alt := z;
     yaw := heading; pitch := 0; roll := 0; focal_length := 152 |}.

Definition cameras : DataFrame :=
  [camera "NAGAP_77V6_071.tif" (-121) 46 4000 90;
   camera "NAGAP_77V6_072.tif" (-121) 47 4000 90].

Definition files : gmap string file :=
  <["ref.tif" := RasterFile (0, 0, 10, 10)]>
    (<["in.csv" := CsvFile cameras]> ∅).

(** [Pipeline("images", "ref.tif", 4, 4, 2, "test", "out", "in.csv",
    rotation_enabled=rot)]. *)
Definition pipeline (rot : bool) : Pipeline :=
  __init__ "images" "ref.tif" 4 4 2 "test" "out" (PyStr "in.csv")
           PyNone "uw_agisoft.lic" true rot.

Definition start (rot : bool) : State :=
  {| self := pipeline rot; fs := files; trace := [] |}.

(** The engine is activated and both DEMs lie inside the reference DEM. *)
Definition inside : Config :=
  {| activated := true; dem_bounds := (2, 2, 8, 8); aligned_dem_bounds := (3, 3, 9, 9) |}.

(** The alignment moves the DEM across the edge of the reference DEM. *)
Definition pushed_out : Config :=
  {| activated := true; dem_bounds := (2, 2, 8, 8); aligned_dem_bounds := (7, 2, 13, 8) |}.

(** The engine is not activated. *)
Definition unlicensed : Config :=
  {| activated := false; dem_bounds := (2, 2, 8, 8); aligned_dem_bounds := (3, 3, 9, 9) |}.

End Sample.

(** ** Reading the log *)

Definition sfm : string := "hsfm.metashape.images2las".
Definition clip : string := "hsfm.utils.clip_reference_dem".
Definition pc_align : string := "hsfm.asp.pc_align_p2p_sp2p".
Definition dem_align : string := "hsfm.utils.dem_align_custom".
Definition raster_bounds : string := "rioxarray.open_rasterio.rio.bounds".

(** The arguments of the calls to [fn], in order. *)
Definition called (fn : string) (e : event) : option (list pyval) :=
  match e with
  | EvCall name args _ => if String.eqb name fn then Some args else None
  | EvRun _ _ _ _ => None
  end.

Definition calls_to (fn : string) (t : list event) : list (list pyval) :=
  omap (called fn) t.

(** The [k]-th argument of each call to [fn]. *)
Definition argument (k : nat) (fn : string) (t : list event) : list (option pyval) :=
  map (fun args => args !! k) (calls_to fn t).


(** The entries into [run]: the input snapshot reference it starts from, its
    output path and its rotation flag. *)
Definition entered (e : event) : option (pyval * string * bool) :=
  match e with
  | EvRun input out rot _ => Some (input, out, rot)
  | EvCall _ _ _ => None
  end.

Definition run_entries (t : list event) : list (pyval * string * bool) :=
  omap entered t.

(** The footprints read from rasters, in order, and the containment tests
    made on them: each test reads the reference DEM and then the new DEM. *)
Definition footprint (e : event) : option (Z * Z * Z * Z) :=
  match e with
  | EvCall name _ result =>
      if String.eqb name raster_bounds then
        match result with
        | Return (PyTuple [PyInt l; PyInt b; PyInt r; PyInt t]) => Some (l, b, r, t)
        | _ => None
        end
      else None
  | EvRun _ _ _ _ => None
  end.

Fixpoint tests (footprints : list (Z * Z * Z * Z)) : list bool :=
  match footprints with
  | reference :: new :: rest => contains reference new :: tests rest
  | _ => []
  end.

Definition footprint_tests (t : list event) : list bool :=
  tests (omap footprint t).

(** The reference DEM handed to the point-cloud aligner (step 5) and to the
    co-registration tool (step 8). *)
Definition reference_at_pc_align (t : list event) : list (option pyval) :=
  argument 1%nat pc_align t.

Definition reference_at_dem_align (t : list event) : list (option pyval) :=
  argument 0%nat dem_align t.

(** The rotation flags in a log of [run_multi]: each entry into [run] carries
    the next expected flag, and each call to the SfM collaborator carries the
    flag of the [run] it belongs to. *)
Fixpoint flags_follow (expected : list bool) (current : option bool) (t : list event)
    : Prop :=
  match t with
  | [] => True
  | EvRun _ _ rot _ :: rest =>
      match expected with
      | e :: later => rot = e /\ flags_follow later (Some rot) rest
      | [] => False
      end
  | EvCall name args _ :: rest =>
      (name = sfm -> exists b, current = Some b /\ args !! 6%nat = Some (PyBool b))
      /\ flags_follow expected current rest
  end.

(** The flags [run_multi] is written to use over [n] iterations, starting from
    [first]. *)
Definition planned_flags (first : bool) (n : nat) : list bool :=
  match n with
  | O => []
  | S k => first :: repeat false k
  end.

(** ** The co-registration shift (batch/pipeline.py) *)
Module BatchPipeline.

(** [data['shift']] of the co-registration tool's JSON output.  Coordinates,
    altitudes and shifts are kept as integers where the code has floats:
    of the laws of exact arithmetic, the statements about the shift use
    only that adding zero changes nothing, which floats share. *)
Record Shift := mkShift { dx : Z; dy : Z; dz : Z }.

Section Reprojection.

(** [GeoDataFrame.to_crs] on one point [(x, y)]: from one CRS to another. *)
Variable to_crs : string -> string -> Z * Z -> Z * Z.

(** [__apply_nuth_transform_and_update_camera_data], lines 217-235: the table
    that is then written to the nuth-aligned snapshot. *)
Definition apply_nuth_transform (data : Shift) (df : DataFrame) : DataFrame :=
  map (fun r =>
         let '(x, y) := to_crs "EPSG:4326" "EPSG:32610" (lon r, lat r) in
         let new_lat := y + dy data in
         let new_lon := x + dx data in
         let '(x', y') := to_crs "EPSG:32610" "EPSG:4326" (new_lon, new_lat) in
         {| image_file_name := image_file_name r;
            lon := x'; lat := y'; alt := alt r + dz data;
            yaw := yaw r; pitch := pitch r; roll := roll r;
            focal_length := focal_length r |}) df.

End Reprojection.

(** A stand-in reprojection: UTM zone 10N keeps the geographic axes, UTM zone
    11N has its grid turned a quarter against them. *)
Definition quarter_turn (p : Z * Z) : Z * Z := (- snd p, fst p).
Definition quarter_back (p : Z * Z) : Z * Z := (snd p, - fst p).

Definition grid_to_crs (source target : string) (p : Z * Z) : Z * Z :=
  let geographic :=
    if String.eqb source "EPSG:32611" then quarter_back p else p in
  if String.eqb target "EPSG:32611" then quarter_turn geographic else geographic.

End BatchPipeline.

(** ** The co-registration shift as specified (step 9) *)

Section ApplyShift.

(** A reprojection of one point [(x, y)] from one CRS to another. *)
Variable to_crs : string -> string -> Z * Z -> Z * Z.

(** Modelled from the spec: [hsfm.utils.apply_nuth_transform_to_camera_metadata],
    which step 9 of the pipeline calls and which is not among the sources.
    The specification gives its contract as
    [apply_shift(snapshot, shift, source_crs, shift_crs)]: it converts each
    record's (lat, lon) into [shift_crs], adds [(dx, dy)], converts back to
    [source_crs], and adds [dz] to the altitude unconditionally. *)
Definition apply_shift (snapshot : DataFrame) (shift : BatchPipeline.Shift)
    (source_crs shift_crs : string) : DataFrame :=
  map (fun r =>
         let '(x, y) := to_crs source_crs shift_crs (lon r, lat r) in
         let '(x', y') :=
           to_crs shift_crs source_crs
                  (x + BatchPipeline.dx shift, y + BatchPipeline.dy shift) in
         {| image_file_name := image_file_name r;
            lon := x'; lat := y'; alt := alt r + BatchPipeline.dz shift;
            yaw := yaw r; pitch := pitch r; roll := roll r;
            focal_length := focal_length r |}) snapshot.

End ApplyShift.

(** ** Headings from the flight line (batch/batch.py) *)
Module Batch.

(** A row of the camera positions table, as far as the heading needs it. *)
Record Position := mkPosition { Longitude : Z; Latitude : Z }.

Section Heading.

(** [hsfm.geospatial.calculate_heading(p0_lon, p0_lat, p1_lon, p1_lat)]. *)
Variable calculate_heading : Z -> Z -> Z -> Z -> outcome Z.

(** One pass of the loop body, lines 148-163, at index [i]: [heading] is the
    local variable (unbound before its first assignment), [headings] the list
    built so far.  The bare [except] catches the index error past the last
    row and any failure of the computation, and appends [heading] again. *)
Definition heading_step (lons lats : list Z) (i : nat)
    (heading : option Z) (headings : list Z) : outcome (option Z * list Z) :=
  let handler :=
    match heading with
    | Some h => Return (heading, (headings ++ [h])%list)
    | None => Raise UnboundLocalError
    end in
  match lons !! i, lats !! i, lons !! S i, lats !! S i with
  | Some p0_lon, Some p0_lat, Some p1_lon, Some p1_lat =>
      match calculate_heading p0_lon p0_lat p1_lon p1_lat with
      | Return h => Return (Some h, (headings ++ [h])%list)
      | Raise _ => handler
      end
  | _, _, _, _ => handler
  end.

(** The loop [for i, v in enumerate(lats)], over the rows still to visit. *)
Fixpoint heading_loop (lons lats : list Z) (remaining : list Z) (i : nat)
    (heading : option Z) (headings : list Z) : outcome (list Z) :=
  match remaining with
  | [] => Return headings
  | _ :: rest =>
      match heading_step lons lats i heading headings with
      | Return (heading', headings') =>
          heading_loop lons lats rest (S i) heading' headings'
      | Raise e => Raise e
      end
  end.

(** [calculate_heading_from_metadata], lines 137-167, on the table that
    [hsfm.core.select_images_for_download] returned: the table with its new
    [heading] column. *)
Definition calculate_heading_from_metadata (df : list Position)
    : outcome (list (Position * Z)) :=
  let lons := map Longitude df in
  let lats := map Latitude df in
  match heading_loop lons lats lats 0 None [] with
  | Return headings => Return (zip df headings)
  | Raise e => Raise e
  end.

End Heading.

(** A stand-in heading: the difference of the longitudes. *)
Definition eastward (p0_lon p0_lat p1_lon p1_lat : Z) : outcome Z :=
  Return (p1_lon - p0_lon).

End Batch.

(** ** Predicates on computations and on events *)

Local Open Scope list_scope.

(** [emits P m]: whatever [m] returns or raises, it leaves the [Pipeline]
    object as it was and only appends events that satisfy [P]. *)
Definition emits {A} (P : event -> Prop) (m : M A) : Prop :=
  forall s,
    self (snd (m s)) = self s
    /\ exists t, trace (snd (m s)) = trace s ++ t /\ Forall P t.

(** A Python value that is not a path string. *)
Definition not_a_path (v : pyval) : Prop := forall path, v <> PyStr path.

(** Inside one [run] with flag [rot]: no further entry into [run], and the
    SfM collaborator gets [rot]. *)
Definition within_run (rot : bool) (e : event) : Prop :=
  match e with
  | EvRun _ _ _ _ => False
  | EvCall name args _ => name = sfm -> args !! 6%nat = Some (PyBool rot)
  end.

(** Events that are neither a footprint read nor a call to the clip, the
    aligner or the co-registration tool. *)
Definition silent (e : event) : Prop :=
  footprint e = None
  /\ called clip e = None
  /\ called pc_align e = None
  /\ called dem_align e = None.

(** The clip tool returns the output file name it was given (its third
    argument). *)
Definition clip_returns_its_output (world : World) : Prop :=
  forall args files r files',
    world clip args files = (Return r, files') -> args !! 2%nat = Some r.

(** ** The stages of a run, read from the log *)

(** The processing stages of [run] in the order the method is written
    (lines 198-235): bundle adjustment, DEM extraction, bundle-adjusted
    metadata, offset report, point-cloud alignment, metadata transform,
    offset report, co-registration, co-registration shift, and the two last
    offset reports. *)
Definition stage_sequence : list string :=
  ["hsfm.metashape.images2las";
   "hsfm.asp.point2dem";
   "hsfm.metashape.update_ba_camera_metadata";
   "hsfm.core.compute_point_offsets";
   "hsfm.asp.pc_align_p2p_sp2p";
   "hsfm.core.metadata_transform";
   "hsfm.core.compute_point_offsets";
   "hsfm.utils.dem_align_custom";
   "hsfm.utils.apply_nuth_transform_to_camera_metadata";
   "hsfm.core.compute_point_offsets";
   "hsfm.core.compute_point_offsets"]%string.

(** Whether a call is the call of one of these stages. *)
Definition tracked (name : string) : bool :=
  existsb (String.eqb name) stage_sequence.

Definition stage_of (e : event) : option string :=
  match e with
  | EvCall name _ _ => if tracked name then Some name else None
  | EvRun _ _ _ _ => None
  end.

(** The stage calls of a log, in order. *)
Definition stages (t : list event) : list string := omap stage_of t.

(** The stages a run can get to: the sequence up to the co-registration
    (step 8), whose call never returns as the pipeline makes it. *)
Definition reachable_stages : list string := take 8 stage_sequence.

(** [follows key p plan i j m]: run on the [Pipeline] object [p], [m] leaves
    the object as it is and appends to the log events whose keys are the
    items number [i] to [j - 1] of [plan] when it returns, and the first few
    of them from number [i] on when it raises. *)
Definition follows {X A} (key : event -> option X) (p : Pipeline) (plan : list X)
    (i j : nat) (m : M A) : Prop :=
  forall s,
    self s = p ->
    exists t,
      trace (snd (m s)) = trace s ++ t
      /\ self (snd (m s)) = p
      /\ match fst (m s) with
         | Return _ =>
             (i <= j <= length plan)%nat
             /\ omap key t = take (j - i) (drop i plan)
         | Raise _ => exists k, omap key t = take k (drop i plan)
         end.

(** [begins key p plan m]: the keys of what [m] appends to the log are a
    beginning of [plan], whatever [m] returns or raises. *)
Definition begins {X A} (key : event -> option X) (p : Pipeline) (plan : list X)
    (m : M A) : Prop :=
  forall s,
    self s = p ->
    exists t k,
      trace (snd (m s)) = trace s ++ t /\ omap key t = take k plan.

(** A call that returned, or an entry into [run]. *)
Definition succeeded (e : event) : Prop :=
  match e with
  | EvCall _ _ (Raise _) => False
  | _ => True
  end.

(** [orderly m]: in what [m] appends to the log, a call that raised is the
    last event: nothing is called after it. *)
Definition orderly {A} (m : M A) : Prop :=
  forall s,
  exists t,
    trace (snd (m s)) = trace s ++ t
    /\ match fst (m s) with
       | Return _ => Forall succeeded t
       | Raise _ => Forall succeeded (removelast t)
       end.

(** Whether an event is a read of a footprint, successful or not. *)
Definition bounds_read (e : event) : option unit :=
  match called raster_bounds e with
  | Some _ => Some tt
  | None => None
  end.

(** The path a [to_csv] call writes to. *)
Definition csv_write : string := "DataFrame.to_csv".
Definition csv_read : string := "pandas.read_csv".

Definition written_path (e : event) : option pyval :=
  match e with
  | EvCall name args _ =>
      if String.eqb name csv_write then args !! 1%nat else None
  | EvRun _ _ _ _ => None
  end.

(** Events that are not a [to_csv] call. *)
Definition writes_nothing (e : event) : Prop := called csv_write e = None.

(** The snapshot files the orchestrator writes itself, in the order of the
    stages: the input snapshot ([_reset_yaw_pitch_roll]), the bundle-adjusted
    and the unaligned cameras ([_update_camera_data]), and the aligned
    snapshot ([_apply_transform_and_update_camera_data]). *)
Definition snapshot_writes (p : Pipeline) : list pyval :=
  [input_images_metadata_file p;
   PyStr (bundle_adjusted_metadata_file p);
   PyStr (bundle_adjusted_unaligned_metadata_file p);
   PyStr (aligned_bundle_adjusted_metadata_file p)].

(** The output directory of iteration [i] of [run_multi] (line 141). *)
Definition iteration_directory (original : string) (i : nat) : string :=
  os_path_join original [(str (Z.of_nat i) ++ "/")%string].

(** The fields of the [Pipeline] object that [run_multi] does not assign. *)
Definition same_configuration (p q : Pipeline) : Prop :=
  input_images_path p = input_images_path q
  /\ reference_dem p = reference_dem q
  /\ image_matching_accuracy p = image_matching_accuracy q
  /\ densecloud_quality p = densecloud_quality q
  /\ output_DEM_resolution p = output_DEM_resolution q
  /\ project_name p = project_name q
  /\ license_path p = license_path q
  /\ verbose p = verbose q
  /\ rotation_enabled p = rotation_enabled q
  /\ camera_models_path p = camera_models_path q
  /\ original_output_path p = original_output_path q
  /\ clipped_reference_dem_file p = clipped_reference_dem_file q.

(** What [run] may leave in the log: nothing of the stages when it returns,
    which it does with [None] only, and a beginning of the stages up to the
    co-registration when it raises. *)
Definition run_outcome (r : outcome pyval) (done : list string) : Prop :=
  match r with
  | Return v => v = PyNone /\ done = []
  | Raise _ => exists k, (k <= 8)%nat /\ done = take k stage_sequence
  end.


(** Events that are not a call to the SfM collaborator. *)
Definition not_sfm (e : event) : Prop := called sfm e = None.


(** ** Finding the co-registration output (batch/pipeline.py) *)
Module BatchPipelineFiles.

(** A directory on disk: its name, its subdirectories and its files, in the
    order the operating system lists them. *)
#[warnings="-register-all"]
Inductive tree :=
| Directory (name : string) (dirs : list tree) (files : list string).

Definition name_of (t : tree) : string :=
  match t with
  | Directory name _ _ => name
  end.

(** [os.walk(directory)], top-down: for each directory the names of its
    subdirectories and of its files. *)
Fixpoint os_walk (t : tree) : list (list string * list string) :=
  match t with
  | Directory _ dirs files => (map name_of dirs, files) :: flat_map os_walk dirs
  end.

(** [needle in s] on strings. *)
Fixpoint contains_text (needle s : string) : bool :=
  String.prefix needle s
  || match s with
     | EmptyString => false
     | String _ rest => contains_text needle rest
     end.

Definition is_json (file : string) : bool := contains_text "json" file.

(** [__find_first_json_file_in_nested_directory], lines 239-249; [None]
    stands for a directory that does not exist, which [os.walk] passes over
    in silence. *)
Definition find_first_json_file_in_nested_directory (directory : option tree)
    : result pyval :=
  let walk := match directory with Some t => os_walk t | None => [] end in
  let dir_list := omap (fun level => head (fst level)) walk in
  let file_list := omap (fun level => head (List.filter is_json (snd level))) walk in
  match file_list with
  | [] => Done PyNone
  | file :: _ =>
      match dir_list with
      | [] => Raised IndexError
      | dir :: _ => Done (PyStr (os_path_join dir [file]))
      end
  end.

(** All files of a tree whose name contains "json", in walk order. *)
Definition json_files (t : tree) : list string :=
  flat_map (fun level => List.filter is_json (snd level)) (os_walk t).

End BatchPipelineFiles.

(** ** Generating cameras in batch (batch/batch.py) *)
Module BatchCameras.

Import Batch.

(** The calls that generate something, with the arguments that vary:
    [hsfm.core.prep_and_generate_gcp], [hsfm.core.initialize_cameras] and
    [hsfm.asp.generate_ba_cameras]. *)
Inductive generation :=
| PrepAndGenerateGcp (image_file_name : string) (lat_lon : Z * Z) (heading : Z)
| InitializeCameras (focal_length_px : Q) (principal_point_px : Q * Q)
| GenerateBaCameras (gcp_directory initial_cameras_directory : string).

Definition lift {A} (o : outcome A) : result A :=
  match o with
  | Return a => Done a
  | Raise e => Raised (Builtin e)
  end.

Section Cameras.

(** The collaborators, for the fixed image directory, camera positions
    file, reference DEM, focal length and subset of one call. *)
Variable calculate_heading : Z -> Z -> Z -> Z -> outcome Z.
Variable subset_input_image_list : list string -> outcome (list string).
Variable select_images_for_download : outcome (list Position).
Variable pick_headings : outcome (list (Position * Z)).
Variable prep_and_generate_gcp : string -> Z * Z -> Z -> outcome string.
(** [gdal.Open(image).RasterXSize] and [RasterYSize]. *)
Variable raster_size : string -> outcome (Z * Z).
Variable initialize_cameras : Q -> Q * Q -> outcome string.
Variable generate_ba_cameras : string -> string -> outcome string.

(** Lines 95-98: the table with its headings, calculated or picked. *)
Definition camera_table (manual_heading_selection : bool)
    : outcome (list (Position * Z)) :=
  if manual_heading_selection then pick_headings
  else
    match select_images_for_download with
    | Return df => calculate_heading_from_metadata calculate_heading df
    | Raise e => Raise e
    end.

(** The loop of lines 105-121 from index [i] on: the local variables
    [gcp_directory] and [principal_point_px], unbound before the first pass,
    and the calls made. *)
Fixpoint gcp_loop (df : list (Position * Z)) (images : list string) (i : nat)
    (gcp_directory : option string) (principal_point_px : option (Q * Q))
    (made : list generation)
    : result (option string * option (Q * Q)) * list generation :=
  match images with
  | [] => (Done (gcp_directory, principal_point_px), made)
  | image_file_name :: rest =>
      match df !! i with
      | None => (Raised IndexError, made)
      | Some (row, heading) =>
          let lat_lon := (Latitude row, Longitude row) in
          let made' :=
            made ++ [PrepAndGenerateGcp image_file_name lat_lon heading] in
          match prep_and_generate_gcp image_file_name lat_lon heading with
          | Raise e => (Raised (Builtin e), made')
          | Return directory =>
              match raster_size image_file_name with
              | Raise e => (Raised (Builtin e), made')
              | Return (image_width_px, image_height_px) =>
                  gcp_loop df rest (S i) (Some directory)
                    (Some ((inject_Z image_width_px / 2)%Q,
                           (inject_Z image_height_px / 2)%Q))
                    made'
              end
          end
      end
  end.

(** [batch_generate_cameras], lines 68-134, on the sorted list [tifs] of
    the images in the directory. *)
Definition batch_generate_cameras (tifs : list string)
    (focal_length_mm pixel_pitch_mm : Q) (manual_heading_selection : bool)
    : result string * list generation :=
  match subset_input_image_list tifs with
  | Raise e => (Raised (Builtin e), [])
  | Return image_list =>
      match camera_table manual_heading_selection with
      | Raise e => (Raised (Builtin e), [])
      | Return df =>
          if negb (length image_list =? length df)%nat then
            (Raised (SystemExit 1), [])
          else
            match gcp_loop df image_list 0 None None [] with
            | (Raised r, made) => (Raised r, made)
            | (Done (gcp_directory, principal_point_px), made) =>
                if Qeq_bool pixel_pitch_mm 0 then (Raised ZeroDivisionError, made)
                else
                  let focal_length_px := (focal_length_mm / pixel_pitch_mm)%Q in
                  match principal_point_px with
                  | None => (Raised (Builtin UnboundLocalError), made)
                  | Some principal =>
                      let made' :=
                        made ++ [InitializeCameras focal_length_px principal] in
                      match initialize_cameras focal_length_px principal with
                      | Raise e => (Raised (Builtin e), made')
                      | Return initial_cameras_directory =>
                          match gcp_directory with
                          | None => (Raised (Builtin UnboundLocalError), made')
                          | Some directory =>
                              let made'' :=
                                made' ++ [GenerateBaCameras directory
                                            initial_cameras_directory] in
                              (lift (generate_ba_cameras directory
                                       initial_cameras_directory),
                               made'')
                          end
                      end
                  end
          end
      end
  end.

(** The GCP generations for the images and their rows, in order. *)
Definition gcp_generations (images : list string) (df : list (Position * Z))
    : list generation :=
  zip_with
    (fun image row =>
       PrepAndGenerateGcp image (Latitude (fst row), Longitude (fst row)) (snd row))
    images df.

End Cameras.

(** A flight for the examples: stand-in collaborators that succeed, images
    of 100 by 80 pixels, headings from [eastward]. *)
Definition flight_table : list Position := [mkPosition 0 0; mkPosition 3 0].

Definition flight_gcp (image_file_name : string) (lat_lon : Z * Z) (heading : Z)
    : outcome string :=
  Return ("gcp/" ++ image_file_name)%string.

Definition flight_size (image_file_name : string) : outcome (Z * Z) :=
  Return (100, 80).

Definition flight (table : list Position) (tifs : list string)
    : result string * list generation :=
  batch_generate_cameras eastward (fun images => Return images) (Return table)
    (Raise (ExternalError "no display")) flight_gcp flight_size
    (fun _ _ => Return "cameras"%string)
    (fun _ _ => Return "ba_cameras"%string)
    tifs 150 (1 # 50) false.

End BatchCameras.

(** * Properties *)

(** ** The monad *)

Lemma bind_Return {A B} (m : M A) (k : A -> M B) s b s' :
  bind m k s = (Return b, s') ->
  exists a s1, m s = (Return a, s1) /\ k a s1 = (Return b, s').
Proof.
  unfold bind. destruct (m s) as [[a | e] s1]; intros H.
  - exists a, s1. split; [reflexivity | exact H].
  - discriminate H.
Qed.

Lemma bind_Raise_now {A B} (m : M A) (k : A -> M B) s e s' :
  m s = (Raise e, s') -> bind m k s = (Raise e, s').
Proof. unfold bind. intros ->. reflexivity. Qed.

Lemma bind_Return_then {A B} (m : M A) (k : A -> M B) s a s' :
  m s = (Return a, s') -> bind m k s = k a s'.
Proof. unfold bind. intros ->. reflexivity. Qed.

(** Whatever a sequence ends with, its first part raised and ended it, or
    returned and the rest ran. *)
Lemma bind_outcome {A B} (m : M A) (k : A -> M B) s r s' :
  bind m k s = (r, s') ->
  (exists e, m s = (Raise e, s') /\ r = Raise e)
  \/ (exists a s1, m s = (Return a, s1) /\ k a s1 = (r, s')).
Proof.
  unfold bind. destruct (m s) as [[a | e] s1]; intros H.
  - right. exists a, s1. split; [reflexivity | exact H].
  - left. injection H as <- <-. exists e. split; reflexivity.
Qed.

Lemma call_outcome name args impl s r s' :
  call name args impl s = (r, s') ->
  exists files',
    impl (fs s) = (r, files')
    /\ s' = {| self := self s; fs := files';
               trace := trace s ++ [EvCall name args r] |}.
Proof.
  unfold call. destruct (impl (fs s)) as [r0 files'] eqn:Himpl.
  intros H. injection H as -> <-. exists files'. split; reflexivity.
Qed.

Lemma call_Return name args impl s v s' :
  call name args impl s = (Return v, s') ->
  exists files',
    impl (fs s) = (Return v, files')
    /\ s' = {| self := self s; fs := files';
               trace := trace s ++ [EvCall name args (Return v)] |}.
Proof. apply call_outcome. Qed.

Lemma unpack2_Return v s a b s' :
  unpack2 v s = (Return (a, b), s') -> v = PyTuple [a; b] /\ s' = s.
Proof.
  destruct v as [| | | | | [| x [| y [| z rest]]]]; cbn; intros H;
    try discriminate H.
  injection H as <- <- <-. split; reflexivity.
Qed.

(** ** [run_multi] without iterations *)

Section NoIterations.

Variable world : World.

Lemma run_multi_nothing_to_run (iterations : Z) (export_orthomosaic : bool) (s : State) :
  iterations <= 0 ->
  run_multi world iterations export_orthomosaic s = (Raise UnboundLocalError, s).
Proof.
  intros Hle. unfold run_multi.
  replace (Z.to_nat iterations) with 0%nat by lia.
  reflexivity.
Qed.

(** C10: [run_multi] with [iterations = 0] never enters the loop body, so
    [updated_cameras] is still unbound at the [return]: the call raises an
    unbound-local error instead of returning a metadata path, and it has
    touched neither the object, the files nor any collaborator. *)
Theorem run_multi_zero_iterations_unbound (export_orthomosaic : bool) (s : State) :
  run_multi world 0 export_orthomosaic s = (Raise UnboundLocalError, s).
Proof. apply run_multi_nothing_to_run. lia. Qed.

(** With at least one iteration the [return] itself never fails that way: if
    the loop ends normally, [updated_cameras] is bound. *)
Lemma run_multi_loop_binds (export_orthomosaic : bool) (indices : list nat) :
  forall rot bound s r s',
    run_multi_loop world export_orthomosaic indices rot bound s = (Return r, s') ->
    (indices <> [] \/ is_Some bound) -> is_Some r.
Proof.
  induction indices as [| i rest IH]; intros rot bound s r s' Hrun Hwhy.
  - cbn in Hrun. injection Hrun as <- _.
    destruct Hwhy as [Hne | Hb]; [congruence | exact Hb].
  - cbn [run_multi_loop] in Hrun.
    apply bind_Return in Hrun as (p & s1 & _ & Hrun).
    apply bind_Return in Hrun as (u & s2 & _ & Hrun).
    apply bind_Return in Hrun as (v & s3 & _ & Hrun).
    apply bind_Return in Hrun as (u' & s4 & _ & Hrun).
    apply IH in Hrun; [exact Hrun | right; eexists; reflexivity].
Qed.

End NoIterations.

(** ** The heading of the last image *)

Section LastHeading.

Variable calculate_heading : Z -> Z -> Z -> Z -> outcome Z.
Variable df : list Batch.Position.

Let lons := map Batch.Longitude df.
Let lats := map Batch.Latitude df.

Hypothesis two_records : (2 <= length df)%nat.
Hypothesis pairs_succeed :
  forall i p0 p1, df !! i = Some p0 -> df !! S i = Some p1 ->
    exists h, calculate_heading (Batch.Longitude p0) (Batch.Latitude p0)
                                (Batch.Longitude p1) (Batch.Latitude p1) = Return h.

(** Before the last row the body computes a heading and keeps it. *)
Lemma heading_step_inner (i : nat) heading headings :
  (S i < length df)%nat ->
  exists h, Batch.heading_step calculate_heading lons lats i heading headings
            = Return (Some h, headings ++ [h]).
Proof.
  intros Hi.
  destruct (lookup_lt_is_Some_2 df i ltac:(lia)) as [p0 Hp0].
  destruct (lookup_lt_is_Some_2 df (S i) Hi) as [p1 Hp1].
  destruct (pairs_succeed i p0 p1 Hp0 Hp1) as [h Hh].
  exists h. unfold Batch.heading_step, lons, lats.
  rewrite !list_lookup_fmap, Hp0, Hp1. cbn. rewrite Hh. reflexivity.
Qed.

(** At the last row the lookup of the next row fails and the handler appends
    the heading still held by the local variable. *)
Lemma heading_step_last (i : nat) h headings :
  S i = length df ->
  Batch.heading_step calculate_heading lons lats i (Some h) headings
  = Return (Some h, headings ++ [h]).
Proof.
  intros Hi. unfold Batch.heading_step, lons, lats.
  rewrite !list_lookup_fmap.
  rewrite (lookup_ge_None_2 df (S i)) by lia. cbn.
  destruct (df !! i); reflexivity.
Qed.

Lemma heading_loop_total (remaining : list Z) :
  forall i heading headings,
    remaining <> [] ->
    (i + length remaining = length df)%nat ->
    length headings = i ->
    ((0 < i)%nat -> exists h, heading = Some h /\ last headings = Some h) ->
    exists hs h,
      Batch.heading_loop calculate_heading lons lats remaining i heading headings
      = Return hs
      /\ length hs = length df
      /\ hs !! (length df - 1)%nat = Some h
      /\ hs !! (length df - 2)%nat = Some h.
Proof.
  induction remaining as [| v rest IH]; intros i heading headings Hne Hlen Hhs Hheld;
    [congruence |].
  cbn [length] in Hlen. cbn [Batch.heading_loop].
  destruct rest as [| v' rest'].
  - (* the last row *)
    cbn [length] in Hlen.
    destruct (Hheld ltac:(lia)) as (h & -> & Hlast).
    rewrite heading_step_last by lia. cbn [Batch.heading_loop].
    exists (headings ++ [h]), h. repeat split.
    + rewrite length_app. cbn. lia.
    + replace (length df - 1)%nat with (length headings + 0)%nat by lia.
      rewrite lookup_app_r by lia.
      replace (length headings + 0 - length headings)%nat with 0%nat by lia.
      reflexivity.
    + rewrite lookup_app_l by lia.
      rewrite last_lookup in Hlast.
      replace (length df - 2)%nat with (pred (length headings)) by lia.
      exact Hlast.
  - (* an inner row *)
    cbn [length] in Hlen.
    destruct (heading_step_inner i heading headings ltac:(lia)) as [h Hstep].
    rewrite Hstep.
    apply IH.
    + discriminate.
    + cbn [length]. lia.
    + rewrite length_app. cbn. lia.
    + intros _. exists h. split; [reflexivity |]. apply last_snoc.
Qed.

(** C9: on a table with at least two records whose pairwise heading
    computations succeed, [calculate_heading_from_metadata] returns the table
    with one heading per record, and the heading of the last record equals
    the heading of the record before it. *)
Theorem last_heading_equals_previous :
  exists rows previous final,
    Batch.calculate_heading_from_metadata calculate_heading df = Return rows
    /\ map fst rows = df
    /\ rows !! (length df - 2)%nat = Some previous
    /\ rows !! (length df - 1)%nat = Some final
    /\ snd final = snd previous.
Proof.
  unfold Batch.calculate_heading_from_metadata. fold lons lats.
  destruct (heading_loop_total lats 0 None [] ) as (hs & h & Hrun & Hlen & Hlast & Hprev).
  - unfold lats. destruct df; [cbn in two_records; lia | discriminate].
  - unfold lats. rewrite length_map. lia.
  - reflexivity.
  - lia.
  - rewrite Hrun.
    destruct (lookup_lt_is_Some_2 df (length df - 2) ltac:(lia)) as [p0 Hp0].
    destruct (lookup_lt_is_Some_2 df (length df - 1) ltac:(lia)) as [p1 Hp1].
    exists (zip df hs), (p0, h), (p1, h). repeat split.
    + apply fst_zip. lia.
    + apply lookup_zip_Some. split; assumption.
    + apply lookup_zip_Some. split; assumption.
Qed.

End LastHeading.

Lemma last_heading_equals_previous_witness :
  exists rows previous final,
    Batch.calculate_heading_from_metadata Batch.eastward
      [Batch.mkPosition (-121) 46; Batch.mkPosition (-120) 46; Batch.mkPosition (-118) 47]
    = Return rows
    /\ map fst rows
       = [Batch.mkPosition (-121) 46; Batch.mkPosition (-120) 46; Batch.mkPosition (-118) 47]
    /\ rows !! 1%nat = Some previous
    /\ rows !! 2%nat = Some final
    /\ snd final = snd previous.
Proof.
  apply (last_heading_equals_previous Batch.eastward
           [Batch.mkPosition (-121) 46; Batch.mkPosition (-120) 46;
            Batch.mkPosition (-118) 47]).
  - simpl. lia.
  - intros i p0 p1 _ _. eexists. reflexivity.
Defined.

(** ** The co-registration shift and its CRS *)


(** The text of the batch pipeline is that shift for a shift expressed in
    UTM zone 10N, the CRS written into it. *)
Lemma apply_nuth_transform_in_zone_10 to_crs data df :
  BatchPipeline.apply_nuth_transform to_crs data df
  = apply_shift to_crs df data "EPSG:4326" "EPSG:32610".
Proof. reflexivity. Qed.

(** ** Output paths per iteration *)

(** [_update_output_paths] moves the four metadata CSV paths and leaves the
    path of the clipped reference DEM where the constructor put it. *)
Lemma update_output_paths_keeps_clipped_path (p : Pipeline) (new_output_path : string) :
  clipped_reference_dem_file (update_output_paths p new_output_path)
  = clipped_reference_dem_file p.
Proof. reflexivity. Qed.

(** C5, at [run_multi(iterations=1)] on a pipeline with output path ["out"]
    and a reference DEM that contains the extracted DEM: the iteration runs
    with output path ["out/0/"], yet its clipped reference DEM is written to
    ["out/reference_dem_clipped.tif"], outside the directory of the
    iteration. *)
Theorem clipped_reference_dem_outside_iteration_directory :
  let s := snd (run_multi (Sample.world Sample.inside) 1 true (Sample.start true)) in
  map (fun entry => snd (fst entry)) (run_entries (trace s)) = ["out/0/"%string]
  /\ argument 2 clip (trace s) = [Some (PyStr "out/reference_dem_clipped.tif")]
  /\ fs s !! "out/reference_dem_clipped.tif"%string = Some (RasterFile (2, 2, 8, 8))
  /\ fs s !! "out/0/reference_dem_clipped.tif"%string = None.
Proof. vm_compute. repeat split; reflexivity. Qed.

(** ** What one iteration hands to the next *)


(** ** An engine that is not activated *)

(** C3, at [run_multi(iterations=2)] on an engine that is not activated: the
    first [run] returns [None] without failing, the second iteration is
    entered and asks for the licence again, and the call returns [None]
    normally. *)
Theorem unlicensed_run_multi_goes_on :
  let '(r, s) := run_multi (Sample.world Sample.unlicensed) 2 true (Sample.start true) in
  r = Return PyNone
  /\ run_entries (trace s)
     = [(PyStr "in.csv", "out/0/"%string, true); (PyNone, "out/1/"%string, false)]
  /\ calls_to "hsfm.metashape.authentication" (trace s)
     = [[PyStr "uw_agisoft.lic"]; [PyStr "uw_agisoft.lic"]]
  /\ input_images_metadata_file (self s) = PyNone.
Proof. vm_compute. repeat split; reflexivity. Qed.

(** A single [run] on such an engine calls nothing but the licence check,
    leaves the files as they were and returns [None]. *)
Lemma unlicensed_run_does_nothing :
  let '(r, s) := run (Sample.world Sample.unlicensed) true true (Sample.start true) in
  r = Return PyNone
  /\ fs s = Sample.files
  /\ map (fun e => match e with EvCall name _ _ => name | EvRun _ _ _ _ => "run"%string end)
         (trace s)
     = ["run"; "hsfm.metashape.authentication"; "Metashape.app.activated";
        "Metashape.app.activated"]%string.
Proof. vm_compute. repeat split; reflexivity. Qed.

(** ** Counterexamples on the sample world *)

(** Against C2: the run leaves the input snapshot file changed (its yaw
    column is set to 0). *)
Lemma run_changes_input_snapshot :
  fs (snd (run (Sample.world Sample.inside) true true (Sample.start true)))
     !! "in.csv"%string
  <> Sample.files !! "in.csv"%string.
Proof. vm_compute. discriminate. Qed.

(** Against C4: the extracted DEM lies inside the reference DEM, so step 5
    clips and aligns against the clipped file; the aligned DEM crosses the
    edge, so step 8 uses the full reference DEM. *)
Lemma clip_decision_differs_between_stages :
  let t := trace (snd (run (Sample.world Sample.pushed_out) true true
                           (Sample.start true))) in
  footprint_tests t = [true; false]
  /\ reference_at_pc_align t = [Some (PyStr "out/reference_dem_clipped.tif")]
  /\ reference_at_dem_align t = [Some (PyStr "ref.tif")]
  /\ reference_at_pc_align t <> reference_at_dem_align t.
Proof. vm_compute. repeat split; try reflexivity. discriminate. Qed.

(** Against C6: a pipeline constructed with [rotation_enabled=False] invokes
    the SfM collaborator with rotation disabled on iteration 0. *)
Lemma first_iteration_without_rotation :
  let t := trace (snd (run_multi (Sample.world Sample.inside) 1 true
                                 (Sample.start false))) in
  argument 6 sfm t = [Some (PyBool false)]
  /\ argument 6 sfm t <> [Some (PyBool true)].
Proof. vm_compute. split; [reflexivity | discriminate]. Qed.

(** Against C7: [run_multi(iterations=1)] writes its files elsewhere than
    [run(rotation_enabled=True)]: the aligned snapshot is under ["out/0/"]
    for the one and under ["out"] for the other. *)
Lemma run_multi_once_is_not_run :
  let s_multi :=
    snd (run_multi (Sample.world Sample.inside) 1 true (Sample.start true)) in
  let s_run := snd (run (Sample.world Sample.inside) true true (Sample.start true)) in
  fs s_multi <> fs s_run
  /\ fs s_multi !! "out/aligned_bundle_adj_metadata.csv"%string = None
  /\ fs s_run !! "out/aligned_bundle_adj_metadata.csv"%string
     = Some (CsvFile (map zero_yaw_pitch_roll Sample.cameras))
  /\ fs s_multi !! "out/0/aligned_bundle_adj_metadata.csv"%string
     = Some (CsvFile (map zero_yaw_pitch_roll Sample.cameras))
  /\ fs s_run !! "out/0/aligned_bundle_adj_metadata.csv"%string = None.
Proof.
  cbv zeta. split.
  - intros Hsame.
    apply (f_equal (fun files => files !! "out/aligned_bundle_adj_metadata.csv"%string))
      in Hsame.
    vm_compute in Hsame. discriminate Hsame.
  - vm_compute. repeat split; reflexivity.
Qed.

(** ** What a computation adds to the log *)

Section Emits.

Context (P : event -> Prop).

Lemma emits_ret {A} (a : A) : emits P (ret a).
Proof.
  intros s. split; [reflexivity |]. exists []. cbn.
  rewrite app_nil_r. split; [reflexivity | constructor].
Qed.

Lemma emits_raise {A} (e : exn) : emits P (@raise A e).
Proof.
  intros s. split; [reflexivity |]. exists []. cbn.
  rewrite app_nil_r. split; [reflexivity | constructor].
Qed.

Lemma emits_get_self : emits P get_self.
Proof.
  intros s. split; [reflexivity |]. exists []. cbn.
  rewrite app_nil_r. split; [reflexivity | constructor].
Qed.

Lemma emits_bind {A B} (m : M A) (k : A -> M B) :
  emits P m -> (forall a, emits P (k a)) -> emits P (bind m k).
Proof.
  intros Hm Hk s. unfold bind.
  destruct (Hm s) as (Hself & t & Htrace & Ht).
  destruct (m s) as [[a | e] s1]; cbn in *.
  - destruct (Hk a s1) as (Hself' & t' & Htrace' & Ht').
    split; [congruence |].
    exists (t ++ t'). rewrite Htrace', Htrace, app_assoc.
    split; [reflexivity | apply Forall_app; split; assumption].
  - split; [assumption |]. exists t. split; assumption.
Qed.

Lemma emits_call name args impl :
  (forall r, P (EvCall name args r)) -> emits P (call name args impl).
Proof.
  intros HP s. unfold call. destruct (impl (fs s)) as [r files]. cbn.
  split; [reflexivity |]. exists [EvCall name args r].
  split; [reflexivity | repeat constructor; apply HP].
Qed.

Lemma emits_log (e : event) : P e -> emits P (log e).
Proof.
  intros He s. split; [reflexivity |]. exists [e].
  split; [reflexivity | repeat constructor; exact He].
Qed.

Lemma emits_outcome {A} (m : M A) s r s' :
  emits P m -> m s = (r, s') ->
  self s' = self s /\ exists t, trace s' = trace s ++ t /\ Forall P t.
Proof. intros Hm Hrun. specialize (Hm s). rewrite Hrun in Hm. exact Hm. Qed.

End Emits.

(** One step of a proof that a stage only emits events satisfying a
    predicate; [event_tac] settles the predicate on each call. *)
Ltac emits_step event_tac :=
  first
    [ apply emits_ret
    | apply emits_raise
    | apply emits_get_self
    | apply emits_bind; [| intros ?]
    | apply emits_call; intros ?; event_tac
    | apply emits_log; event_tac
    | match goal with
      | |- emits _ (match ?x with _ => _ end) => destruct x
      | |- emits _ (let (_, _) := ?x in _) => destruct x
      end ].

Ltac emits_with event_tac :=
  unfold run_stages, _run_metashape, _reset_yaw_pitch_roll, _extract_orthomosaic,
    _extract_dem, _update_camera_data, _compare_camera_positions,
    _pc_align_routine, _apply_transform_and_update_camera_data,
    _nuth_kaab_align_routine, _apply_nuth_transform_and_update_camera_data,
    _export_aligned_orthomosaic, _is_metashape_activated, when, read_csv, to_csv,
    open_rasterio_bounds, box, unpack2, unpack3, truth;
  repeat emits_step event_tac.

(** ** What a computation adds to the log, in order *)

Section Follows.

Context {X : Type} (key : event -> option X) (p : Pipeline) (plan : list X).

Lemma follows_ret {A} (a : A) i :
  (i <= length plan)%nat -> follows key p plan i i (ret a).
Proof.
  intros Hi s Hs. exists []. cbn in *. rewrite app_nil_r, Nat.sub_diag.
  split; [reflexivity |]. split; [exact Hs |]. split; [lia | reflexivity].
Qed.

Lemma follows_raise {A} (e : exn) i j : follows key p plan i j (@raise A e).
Proof.
  intros s Hs. exists []. cbn. rewrite app_nil_r.
  split; [reflexivity |]. split; [exact Hs |]. exists 0%nat. reflexivity.
Qed.

Lemma follows_self i :
  (i <= length plan)%nat -> follows key p plan i i get_self.
Proof.
  intros Hi s Hs. exists []. cbn in *. rewrite app_nil_r, Nat.sub_diag.
  split; [reflexivity |]. split; [exact Hs |]. split; [lia | reflexivity].
Qed.

Lemma follows_get_self {B} (k : Pipeline -> M B) i j :
  follows key p plan i j (k p) -> follows key p plan i j (bind get_self k).
Proof. intros Hk s Hs. unfold bind, get_self. rewrite Hs. apply Hk, Hs. Qed.

Lemma take_drop_chain {A} (l : list A) (i j k : nat) :
  (i <= j)%nat ->
  take (j - i) (drop i l) ++ take k (drop j l) = take (j - i + k) (drop i l).
Proof.
  intros Hij.
  replace (drop j l) with (drop (j - i) (drop i l))
    by (rewrite drop_drop; f_equal; lia).
  apply take_take_drop.
Qed.

Lemma follows_bind {A B} (m : M A) (k : A -> M B) i j l :
  follows key p plan i j m -> (forall a, follows key p plan j l (k a)) ->
  follows key p plan i l (bind m k).
Proof.
  intros Hm Hk s Hs. unfold bind.
  destruct (Hm s Hs) as (t & Htrace & Hself & Hkeys).
  destruct (m s) as [[a | e] s1]; cbn [fst snd] in *.
  - destruct Hkeys as (Hij & Ht).
    destruct (Hk a s1 Hself) as (t' & Htrace' & Hself' & Hkeys').
    exists (t ++ t'). rewrite Htrace', Htrace, app_assoc.
    split; [reflexivity |]. split; [exact Hself' |].
    rewrite omap_app, Ht.
    destruct (fst (k a s1)).
    + destruct Hkeys' as (Hjl & ->). split; [lia |].
      rewrite take_drop_chain by lia. f_equal. lia.
    + destruct Hkeys' as (n & ->). exists (j - i + n)%nat.
      apply take_drop_chain. lia.
  - exists t. split; [exact Htrace |]. split; [exact Hself | exact Hkeys].
Qed.

(** After a computation that never returns, what follows it is never run. *)
Lemma follows_bind_stop {A B} (m : M A) (k : A -> M B) i j l :
  follows key p plan i j m ->
  (forall s a s', m s <> (Return a, s')) ->
  follows key p plan i l (bind m k).
Proof.
  intros Hm Hnever s Hs. unfold bind.
  destruct (Hm s Hs) as (t & Htrace & Hself & Hkeys).
  destruct (m s) as [[a | e] s1] eqn:Hrun; cbn [fst snd] in *.
  - exfalso. exact (Hnever _ _ _ Hrun).
  - exists t. split; [exact Htrace |]. split; [exact Hself | exact Hkeys].
Qed.

Lemma follows_item name args impl i x :
  (forall r, key (EvCall name args r) = Some x) ->
  plan !! i = Some x ->
  follows key p plan i (S i) (call name args impl).
Proof.
  intros Hkey Hitem s Hs. unfold call. destruct (impl (fs s)) as [r files].
  cbn [fst snd trace self].
  exists [EvCall name args r]. split; [reflexivity |]. split; [exact Hs |].
  assert (Hone : omap key [EvCall name args r] = take 1 (drop i plan)).
  { cbn [omap list_omap]. rewrite Hkey.
    rewrite <- (take_drop_middle _ _ _ Hitem) at 1.
    rewrite drop_app_length'
      by (rewrite length_take; apply lookup_lt_Some in Hitem; lia).
    reflexivity. }
  destruct r.
  - split; [apply lookup_lt_Some in Hitem; lia |].
    replace (S i - i)%nat with 1%nat by lia. exact Hone.
  - exists 1%nat. exact Hone.
Qed.

Lemma follows_other name args impl i :
  (forall r, key (EvCall name args r) = None) ->
  (i <= length plan)%nat ->
  follows key p plan i i (call name args impl).
Proof.
  intros Hkey Hi s Hs. unfold call. destruct (impl (fs s)) as [r files].
  cbn [fst snd trace self].
  exists [EvCall name args r]. split; [reflexivity |]. split; [exact Hs |].
  cbn [omap list_omap]. rewrite Hkey.
  destruct r.
  - split; [lia |]. rewrite Nat.sub_diag. reflexivity.
  - exists 0%nat. reflexivity.
Qed.

Lemma follows_log (e : event) i :
  key e = None -> (i <= length plan)%nat -> follows key p plan i i (log e).
Proof.
  intros Hkey Hi s Hs. exists [e]. cbn [log fst snd trace self omap list_omap].
  rewrite Hkey, Nat.sub_diag.
  split; [reflexivity |]. split; [exact Hs |]. split; [lia | reflexivity].
Qed.

Lemma follows_begins {A} (m : M A) j :
  follows key p plan 0 j m -> begins key p plan m.
Proof.
  intros Hm s Hs. destruct (Hm s Hs) as (t & Htrace & _ & Hkeys).
  exists t. destruct (fst (m s)).
  - destruct Hkeys as (_ & Ht). exists j. split; [exact Htrace |].
    rewrite Ht, Nat.sub_0_r. reflexivity.
  - destruct Hkeys as (k & Ht). exists k. split; [exact Htrace | exact Ht].
Qed.

Lemma begins_after {A B} (m : M A) (k : A -> M B) :
  follows key p plan 0 0 m -> (forall a, begins key p plan (k a)) ->
  begins key p plan (bind m k).
Proof.
  intros Hm Hk s Hs. unfold bind.
  destruct (Hm s Hs) as (t & Htrace & Hself & Hkeys).
  destruct (m s) as [[a | e] s1]; cbn [fst snd] in *.
  - destruct Hkeys as (_ & Ht). cbn in Ht.
    destruct (Hk a s1 Hself) as (t' & n & Htrace' & Ht').
    exists (t ++ t'), n. rewrite Htrace', Htrace, app_assoc.
    split; [reflexivity |]. rewrite omap_app, Ht. exact Ht'.
  - destruct Hkeys as (n & Ht). exists t, n. split; [exact Htrace | exact Ht].
Qed.

End Follows.

Section Orderly.

Lemma succeeded_removelast (t : list event) :
  Forall succeeded t -> Forall succeeded (removelast t).
Proof.
  induction 1 as [| e t He Ht IH]; [constructor |].
  destruct t as [| e' t']; [constructor |].
  cbn [removelast]. constructor; [exact He | exact IH].
Qed.

Lemma orderly_ret {A} (a : A) : orderly (ret a).
Proof. intros s. exists []. cbn. rewrite app_nil_r. split; [reflexivity | constructor]. Qed.

Lemma orderly_raise {A} (e : exn) : orderly (@raise A e).
Proof. intros s. exists []. cbn. rewrite app_nil_r. split; [reflexivity | constructor]. Qed.

Lemma orderly_get_self : orderly get_self.
Proof. intros s. exists []. cbn. rewrite app_nil_r. split; [reflexivity | constructor]. Qed.

Lemma orderly_log (e : event) : succeeded e -> orderly (log e).
Proof.
  intros He s. exists [e]. cbn. split; [reflexivity |].
  constructor; [exact He | constructor].
Qed.

Lemma orderly_call name args impl : orderly (call name args impl).
Proof.
  intros s. unfold call. destruct (impl (fs s)) as [r files].
  exists [EvCall name args r]. cbn [fst snd trace]. split; [reflexivity |].
  destruct r; cbn [removelast]; repeat constructor.
Qed.

Lemma orderly_bind {A B} (m : M A) (k : A -> M B) :
  orderly m -> (forall a, orderly (k a)) -> orderly (bind m k).
Proof.
  intros Hm Hk s. unfold bind.
  destruct (Hm s) as (t & Htrace & Ht).
  destruct (m s) as [[a | e] s1]; cbn [fst snd] in *.
  - destruct (Hk a s1) as (t' & Htrace' & Ht').
    exists (t ++ t'). rewrite Htrace', Htrace, app_assoc.
    split; [reflexivity |].
    destruct (fst (k a s1)).
    + apply Forall_app. split; assumption.
    + destruct t' as [| e' t''].
      * rewrite app_nil_r. apply succeeded_removelast, Ht.
      * rewrite removelast_app by discriminate.
        apply Forall_app. split; assumption.
  - exists t. split; [exact Htrace | exact Ht].
Qed.

End Orderly.

Ltac unfold_stages :=
  unfold run_stages, _run_metashape, _reset_yaw_pitch_roll, _extract_orthomosaic,
    _extract_dem, _update_camera_data, _compare_camera_positions,
    _pc_align_routine, _apply_transform_and_update_camera_data,
    _nuth_kaab_align_routine, _apply_nuth_transform_and_update_camera_data,
    _export_aligned_orthomosaic, _is_metashape_activated, when, read_csv, to_csv,
    open_rasterio_bounds, box, unpack2, unpack3, truth.

Ltac small_bound := cbn; lia.

Ltac follows_step :=
  first
    [ apply follows_raise
    | apply follows_ret; small_bound
    | apply follows_get_self
    | eapply follows_bind; [| intros ?]
    | eapply follows_item; [intros ?; reflexivity | reflexivity]
    | apply follows_other; [intros ?; reflexivity | small_bound]
    | apply follows_log; [reflexivity | small_bound]
    | match goal with
      | |- follows _ _ _ _ _ (match ?x with _ => _ end) => destruct x
      | |- follows _ _ _ _ _ (let (_, _) := ?x in _) => destruct x
      end ].

Ltac orderly_step :=
  first
    [ apply orderly_ret
    | apply orderly_raise
    | apply orderly_get_self
    | apply orderly_call
    | apply orderly_log; exact I
    | apply orderly_bind; [| intros ?]
    | match goal with
      | |- orderly (match ?x with _ => _ end) => destruct x
      | |- orderly (let (_, _) := ?x in _) => destruct x
      end ].

Ltac orderly_tac := unfold_stages; repeat orderly_step.

(** ** The co-registration call of step 8 *)

Section Coregistration.

Variable world : World.

(** As the pipeline calls it, [dem_align_custom] never returns:
    [run_command] is given no log directory and returns [None], which
    [open] refuses. *)
Lemma dem_align_custom_raises (reference dem mode : pyval) (verb : bool)
    (files : gmap string file) :
  exists e files',
    dem_align_custom world reference dem mode verb files = (Raise e, files').
Proof.
  unfold dem_align_custom, Utils.dem_align_custom, Utils.run_command.
  destruct (popen world _ false files) as [[lines | e] files'].
  - destruct (Utils.read_lines lines) as [[] | e]; cbn; eexists _, _; reflexivity.
  - cbn. eexists _, _. reflexivity.
Qed.

Lemma nuth_kaab_never_returns (aligned : pyval) (s : State) (v : pyval) (s' : State) :
  _nuth_kaab_align_routine world aligned s <> (Return v, s').
Proof.
  unfold _nuth_kaab_align_routine. intros H.
  do 5 apply bind_Return in H as (? & ? & _ & H).
  match type of H with
  | (if ?b then _ else _) _ = _ => destruct b
  end;
    apply call_Return in H as (files' & Himpl & _);
    match type of Himpl with
    | dem_align_custom world ?r ?d ?m ?v ?f = _ =>
        destruct (dem_align_custom_raises r d m v f) as (e & f' & Hraise)
    end;
    rewrite Hraise in Himpl; discriminate Himpl.
Qed.

End Coregistration.

(** ** The rotation flag over the iterations *)

Ltac within_run_tac :=
  cbn; unfold sfm; intros Hname; first [discriminate Hname | reflexivity].

Lemma within_run_no_entries (rot : bool) (t : list event) :
  Forall (within_run rot) t -> run_entries t = [].
Proof.
  induction 1 as [| e t He _ IH]; [reflexivity |].
  destruct e; [contradiction | exact IH].
Qed.

Section Rotation.

Variable world : World.

Lemma run_stages_within_run (rot export_orthomosaic : bool) :
  emits (within_run rot) (run_stages world rot export_orthomosaic).
Proof. emits_with within_run_tac. Qed.

Lemma licence_check_within_run (rot : bool) :
  emits (within_run rot)
        (let* activated := _is_metashape_activated world in truth activated).
Proof. emits_with within_run_tac. Qed.

(** The log of one [run]: its entry, then events of that run only. *)
Lemma run_log (rot export_orthomosaic : bool) (s : State) :
  exists t,
    trace (snd (run world rot export_orthomosaic s))
    = trace s
      ++ EvRun (input_images_metadata_file (self s)) (output_path (self s))
               rot export_orthomosaic :: t
    /\ Forall (within_run rot) t.
Proof.
  assert (Hrest : emits (within_run rot)
            (let* activated := _is_metashape_activated world in
             let* metashape_is_activated := truth activated in
             if metashape_is_activated then run_stages world rot export_orthomosaic
             else ret PyNone)).
  { apply emits_bind; [emits_with within_run_tac | intros activated].
    apply emits_bind; [emits_with within_run_tac | intros [|]].
    - apply run_stages_within_run.
    - apply emits_ret. }
  unfold run, bind at 1 2. cbn [get_self log].
  match goal with
  | |- context [bind ?m ?k ?s0] =>
      destruct (Hrest s0) as (_ & t & Htrace & Ht)
  end.
  exists t. cbn [trace] in Htrace. rewrite <- app_assoc in Htrace. cbn in Htrace.
  split; [exact Htrace | exact Ht].
Qed.

Lemma flags_follow_within_run (expected : list bool) (rot : bool) (t rest : list event) :
  Forall (within_run rot) t ->
  flags_follow expected (Some rot) rest ->
  flags_follow expected (Some rot) (t ++ rest).
Proof.
  induction 1 as [| e t He _ IH]; intros Hrest; [exact Hrest |].
  destruct e as [input out r ex | name args result]; cbn in *; [contradiction |].
  split; [| apply IH, Hrest].
  intros Hname. exists rot. split; [reflexivity | apply He, Hname].
Qed.

Lemma planned_flags_false (n : nat) : planned_flags false n = repeat false n.
Proof. destruct n; reflexivity. Qed.

Lemma run_multi_loop_flags (export_orthomosaic : bool) (indices : list nat) :
  forall rot bound s,
  exists t,
    trace (snd (run_multi_loop world export_orthomosaic indices rot bound s))
    = trace s ++ t
    /\ forall current, flags_follow (planned_flags rot (length indices)) current t.
Proof.
  induction indices as [| i rest IH]; intros rot bound s.
  - exists []. cbn. rewrite app_nil_r. split; [reflexivity | intros; exact I].
  - cbn [run_multi_loop].
    unfold bind at 1 2, _update_output_paths, bind at 1. cbn [get_self set_self].
    match goal with
    | |- context [bind (run world rot export_orthomosaic) ?k ?s0] =>
        set (s1 := s0); set (k1 := k)
    end.
    destruct (run_log rot export_orthomosaic s1) as (t1 & Htrace1 & Ht1).
    unfold bind at 1.
    destruct (run world rot export_orthomosaic s1) as [[v | e] s2]; cbn [snd] in *.
    + subst k1. unfold bind at 1, _set_input_images_metadata_file, bind at 1.
      cbn [get_self set_self].
      match goal with
      | |- context [run_multi_loop world export_orthomosaic rest false ?b ?s0] =>
          destruct (IH false b s0) as (t2 & Htrace2 & Ht2)
      end.
      cbn [trace] in Htrace2. rewrite Htrace2, Htrace1. cbn [trace s1].
      eexists. split; [rewrite <- app_assoc; reflexivity |].
      intros current. cbn [length planned_flags flags_follow app].
      split; [reflexivity |].
      apply flags_follow_within_run; [exact Ht1 |].
      rewrite <- planned_flags_false. apply Ht2.
    + rewrite Htrace1. cbn [trace s1].
      eexists. split; [reflexivity |].
      intros current. cbn [length planned_flags flags_follow].
      split; [reflexivity |].
      rewrite <- (app_nil_r t1).
      apply flags_follow_within_run; [exact Ht1 | exact I].
Qed.

(** The flags of the entries into [run] that the loop makes: all the
    planned ones when it ends, the first few, and at least one, when it
    raises. *)
Lemma run_multi_loop_entry_flags (export_orthomosaic : bool) (indices : list nat) :
  forall rot bound s r s',
    run_multi_loop world export_orthomosaic indices rot bound s = (r, s') ->
    exists t,
      trace s' = trace s ++ t
      /\ match r with
         | Return _ =>
             map snd (run_entries t) = planned_flags rot (length indices)
         | Raise _ =>
             exists k,
               (0 < k)%nat
               /\ map snd (run_entries t)
                  = take k (planned_flags rot (length indices))
         end.
Proof.
  induction indices as [| i rest IH]; intros rot bound s r s' H.
  - injection H as <- <-. exists []. rewrite app_nil_r. split; reflexivity.
  - cbn [run_multi_loop] in H.
    unfold bind at 1 2, _update_output_paths, bind at 1 in H.
    cbn [get_self set_self] in H.
    match type of H with
    | bind (run world rot export_orthomosaic) _ ?s0 = _ => set (s1 := s0) in *
    end.
    destruct (run_log rot export_orthomosaic s1) as (t1 & Htrace1 & Ht1).
    apply within_run_no_entries in Ht1.
    unfold bind at 1 in H.
    destruct (run world rot export_orthomosaic s1) as [[v | e] s2];
      cbn [fst snd] in *.
    + unfold bind at 1, _set_input_images_metadata_file, bind at 1 in H.
      cbn [get_self set_self] in H.
      apply IH in H as (t2 & Htrace2 & Hflags2).
      cbn [trace] in Htrace2.
      eexists. rewrite Htrace2, Htrace1. cbn [trace s1].
      split; [rewrite <- app_assoc; reflexivity |].
      unfold run_entries in *. cbn [app omap list_omap entered].
      rewrite omap_app, Ht1. cbn [app map snd length planned_flags].
      rewrite planned_flags_false in Hflags2.
      destruct r.
      * rewrite Hflags2. reflexivity.
      * destruct Hflags2 as (k & Hk & ->). exists (S k). split; [lia | reflexivity].
    + injection H as <- <-.
      eexists. rewrite Htrace1. cbn [trace s1].
      split; [reflexivity |].
      exists 1%nat. split; [lia |].
      unfold run_entries in *. cbn [omap list_omap entered].
      rewrite Ht1. reflexivity.
Qed.

(** C6, amended: [run_multi] enters [run] with the [rotation_enabled] the
    pipeline was constructed with on iteration 0 and with [False] on every
    later iteration: once per iteration when it returns, and for the first
    few iterations (at least for iteration 0, when one is asked for) when it
    raises.  Every call to the SfM collaborator carries the flag of the
    [run] it is made in. *)
Theorem rotation_flag_per_iteration
    (p : Pipeline) (files : gmap string file) (iterations : Z)
    (export_orthomosaic : bool) :
  let r := run_multi world iterations export_orthomosaic
                     {| self := p; fs := files; trace := [] |} in
  let flags := planned_flags (rotation_enabled p) (Z.to_nat iterations) in
  match fst r with
  | Return _ => map snd (run_entries (trace (snd r))) = flags
  | Raise _ =>
      exists k,
        (0 < iterations -> (0 < k)%nat)
        /\ map snd (run_entries (trace (snd r))) = take k flags
  end
  /\ flags_follow flags None (trace (snd r)).
Proof.
  cbv zeta. unfold run_multi, bind. cbn [get_self self].
  match goal with
  | |- context [run_multi_loop world export_orthomosaic ?idx ?rot ?b ?s0] =>
      destruct (run_multi_loop_flags export_orthomosaic idx rot b s0)
        as (t & Htrace & Ht);
      destruct (run_multi_loop world export_orthomosaic idx rot b s0)
        as [[[v |] | e] s1] eqn:Hloop
  end;
    pose proof Hloop as Hentries;
    apply run_multi_loop_entry_flags in Hentries as (t' & Htrace' & Hentries);
    cbn [fst snd trace ret raise app] in *;
    rewrite Htrace' in Htrace; subst t';
    rewrite Htrace';
    specialize (Ht None); rewrite length_seq in Ht, Hentries;
    (split; [| exact Ht]).
  - exact Hentries.
  - assert (Hn : Z.to_nat iterations = 0%nat).
    { destruct (Z.to_nat iterations) eqn:Hn; [reflexivity |].
      apply (run_multi_loop_binds world) in Hloop as [x Hx];
        [discriminate Hx | left; discriminate]. }
    exists 0%nat. split; [intros Hpos; lia |].
    rewrite Hentries, Hn. reflexivity.
  - destruct Hentries as (k & Hk & Hentries). exists k.
    split; [intros _; exact Hk | exact Hentries].
Qed.

End Rotation.

(** ** What later iterations start from, whatever the collaborators do *)

Section LaterIterations.

Variable world : World.

Lemma run_keeps_self (rot export_orthomosaic : bool) (s : State) :
  self (snd (run world rot export_orthomosaic s)) = self s.
Proof.
  assert (H : emits (fun _ => True) (run world rot export_orthomosaic)).
  { unfold run. emits_with ltac:(exact I). }
  apply H.
Qed.

(** The activated branch of [run] never returns: it stops at step 8 at the
    latest. *)
Lemma run_stages_never_return (rot export_orthomosaic : bool) (s : State) v s' :
  run_stages world rot export_orthomosaic s <> (Return v, s').
Proof.
  unfold run_stages. intros H.
  do 10 (apply bind_Return in H as (? & ? & _ & H);
        try match type of H with
            | (let (_, _) := ?x in _) _ = _ => destruct x
            end).
  apply bind_Return in H as (? & ? & Hstep & _).
  exact (nuth_kaab_never_returns world _ _ _ _ Hstep).
Qed.

(** [run] returns [None] only. *)
Lemma run_result (rot export_orthomosaic : bool) (s : State) v s' :
  run world rot export_orthomosaic s = (Return v, s') -> v = PyNone.
Proof.
  unfold run. intros H.
  do 4 apply bind_Return in H as (? & ? & _ & H).
  match type of H with
  | (if ?b then _ else _) _ = _ => destruct b
  end; [| injection H as <- _; reflexivity].
  exfalso. exact (run_stages_never_return _ _ _ _ _ H).
Qed.

Lemma run_multi_loop_inputs (export_orthomosaic : bool) (indices : list nat) :
  forall rot bound s,
  exists t,
    trace (snd (run_multi_loop world export_orthomosaic indices rot bound s))
    = trace s ++ t
    /\ (run_entries t = []
        \/ exists out later,
             run_entries t = (input_images_metadata_file (self s), out, rot) :: later
             /\ Forall (fun entry => not_a_path (fst (fst entry))) later).
Proof.
  induction indices as [| i rest IH]; intros rot bound s.
  - exists []. cbn. rewrite app_nil_r. split; [reflexivity | left; reflexivity].
  - cbn [run_multi_loop].
    unfold bind at 1 2, _update_output_paths, bind at 1. cbn [get_self set_self].
    match goal with
    | |- context [bind (run world rot export_orthomosaic) ?k ?s0] =>
        set (s1 := s0); set (k1 := k)
    end.
    destruct (run_log world rot export_orthomosaic s1) as (t1 & Htrace1 & Ht1).
    pose proof (run_keeps_self rot export_orthomosaic s1) as Hself1.
    apply within_run_no_entries in Ht1.
    unfold bind at 1.
    destruct (run world rot export_orthomosaic s1) as [[v | e] s2] eqn:Hrun;
      cbn [snd] in *.
    + subst k1. unfold bind at 1, _set_input_images_metadata_file, bind at 1.
      cbn [get_self set_self].
      match goal with
      | |- context [run_multi_loop world export_orthomosaic rest false ?b ?s0] =>
          destruct (IH false b s0) as (t2 & Htrace2 & Ht2)
      end.
      cbn [trace self input_images_metadata_file set_input_images_metadata_file]
        in Htrace2, Ht2.
      rewrite Htrace2, Htrace1. cbn [trace s1].
      eexists. split; [rewrite <- app_assoc; reflexivity |].
      right. unfold run_entries in *. cbn [omap list_omap app entered].
      rewrite omap_app, Ht1. cbn [app].
      cbn [self s1 update_output_paths input_images_metadata_file output_path].
      eexists _, _. split; [reflexivity |].
      destruct Ht2 as [-> | (out & later & -> & Hlater)]; [constructor |].
      constructor; [| exact Hlater].
      cbn [fst]. intros path ->.
      apply run_result in Hrun. discriminate Hrun.
    + rewrite Htrace1. cbn [trace s1].
      eexists. split; [reflexivity |].
      right. unfold run_entries in *. cbn [omap list_omap entered].
      rewrite Ht1.
      cbn [self s1 update_output_paths input_images_metadata_file output_path].
      eexists _, _. split; [reflexivity | constructor].
Qed.

(** Every iteration of [run_multi] after the first starts from what [run]
    returned, which is never a path: the input metadata reference recorded at
    its entry is [None] or a pair. *)
Lemma later_iterations_never_start_from_a_path
    (p : Pipeline) (files : gmap string file) (iterations : Z)
    (export_orthomosaic : bool) :
  Forall (fun entry => not_a_path (fst (fst entry)))
    (tail (run_entries
             (trace (snd (run_multi world iterations export_orthomosaic
                                    {| self := p; fs := files; trace := [] |}))))).
Proof.
  unfold run_multi, bind. cbn [get_self self].
  match goal with
  | |- context [run_multi_loop world export_orthomosaic ?idx ?rot ?b ?s0] =>
      destruct (run_multi_loop_inputs export_orthomosaic idx rot b s0)
        as (t & Htrace & Ht);
      destruct (run_multi_loop world export_orthomosaic idx rot b s0)
        as [[[v |] | e] s1]
  end; cbn [snd trace ret raise] in *; rewrite Htrace; cbn [app];
    (destruct Ht as [-> | (out & later & -> & Hlater)];
     [constructor | exact Hlater]).
Qed.

End LaterIterations.

(** ** One iteration of [run_multi] against a single [run] *)

Section SingleIteration.

Variable world : World.

(** C7, amended: [run_multi(iterations=1)] is one [run] with the
    [rotation_enabled] the pipeline was constructed with ([True] by default),
    made after the output paths have been moved to
    [<original_output_path>/0/]: same result, same files, same calls; the
    result is then stored as the pipeline's input metadata reference. *)
Theorem run_multi_once_is_run_in_iteration_directory
    (export_orthomosaic : bool) (s : State) :
  run_multi world 1 export_orthomosaic s
  = match run world (rotation_enabled (self s)) export_orthomosaic
              {| self := update_output_paths (self s)
                           (os_path_join (original_output_path (self s)) ["0/"%string]);
                 fs := fs s;
                 trace := trace s |} with
    | (Return v, s') =>
        (Return v,
         {| self := set_input_images_metadata_file (self s') v;
            fs := fs s';
            trace := trace s' |})
    | (Raise e, s') => (Raise e, s')
    end.
Proof.
  unfold run_multi. change (Z.to_nat 1) with 1%nat.
  cbn [seq run_multi_loop].
  change (str (Z.of_nat 0) ++ "/")%string with "0/"%string.
  unfold _update_output_paths, _set_input_images_metadata_file, bind, get_self,
    set_self, ret, raise.
  cbn [self fs trace].
  destruct (run world (rotation_enabled (self s)) export_orthomosaic _)
    as [[v | e] s']; reflexivity.
Qed.

End SingleIteration.

(** ** The snapshot files a run writes *)

Ltac writes_nothing_tac := reflexivity.

Ltac follows_stages :=
  unfold run_stages, _run_metashape, _reset_yaw_pitch_roll, _extract_orthomosaic,
    _extract_dem, _update_camera_data, _compare_camera_positions,
    _pc_align_routine, _apply_transform_and_update_camera_data,
    _apply_nuth_transform_and_update_camera_data,
    _export_aligned_orthomosaic, _is_metashape_activated, when, read_csv, to_csv,
    open_rasterio_bounds, box, unpack2, unpack3, truth;
  repeat
    first
      [ match goal with
        | |- follows _ _ _ _ _ (bind (_nuth_kaab_align_routine _ _) _) =>
            eapply follows_bind_stop;
            [ unfold_stages; repeat follows_step
            | intros ? ? ?; apply nuth_kaab_never_returns ]
        end
      | follows_step ].

Lemma writes_nothing_calls (t : list event) :
  Forall writes_nothing t -> calls_to csv_write t = [].
Proof.
  unfold calls_to.
  induction 1 as [| e t He _ IH]; [reflexivity |].
  cbn [omap list_omap]. rewrite He. exact IH.
Qed.

Lemma zero_yaw_pitch_roll_columns (rows : DataFrame) :
  Forall2 (fun before after =>
             yaw after = 0 /\ pitch after = 0 /\ roll after = 0
             /\ image_file_name after = image_file_name before
             /\ lon after = lon before /\ lat after = lat before
             /\ alt after = alt before
             /\ focal_length after = focal_length before)
          rows (map zero_yaw_pitch_roll rows).
Proof.
  induction rows as [| r rest IH]; cbn; constructor; [| exact IH].
  repeat split; reflexivity.
Qed.

(** [_reset_yaw_pitch_roll] on its own: either the read fails and nothing is
    written, or the path holds a table and the file is rewritten in place
    with the orientation columns zeroed, no other file being touched. *)
Lemma reset_yaw_pitch_roll_log (v : pyval) (s : State) (x : outcome unit) (s' : State) :
  _reset_yaw_pitch_roll v s = (x, s') ->
  (exists e,
     x = Raise e
     /\ s' = {| self := self s; fs := fs s;
                trace := trace s ++ [EvCall csv_read [v] (Raise e)] |})
  \/ (exists path rows,
        v = PyStr path
        /\ x = Return tt
        /\ fs s !! path = Some (CsvFile rows)
        /\ s' = {| self := self s;
                   fs := <[path := CsvFile (map zero_yaw_pitch_roll rows)]> (fs s);
                   trace :=
                     trace s
                     ++ [EvCall csv_read [v] (Return (PyDataFrame rows));
                         EvCall csv_write
                                [PyDataFrame (map zero_yaw_pitch_roll rows); v]
                                (Return PyNone)] |}).
Proof.
  unfold _reset_yaw_pitch_roll, read_csv, to_csv, bind, call, pd_read_csv, df_to_csv,
    ret.
  destruct v as [| b | z | path | df | items]; cbn [fs self trace];
    try (intros H; injection H as <- <-; left; eexists; split; reflexivity).
  destruct (fs s !! path) as [[rows | bounds | tag] |] eqn:Hfile; cbn [fs self trace];
    intros H; injection H as <- <-;
    try (left; eexists; split; reflexivity).
  right. exists path, rows. rewrite <- app_assoc.
  repeat split; try reflexivity. exact Hfile.
Qed.

Section SnapshotWrites.

Variable world : World.

Lemma run_stages_writes (p : Pipeline) (rot export_orthomosaic : bool) :
  follows written_path p (snapshot_writes p) 0 4
          (run_stages world rot export_orthomosaic).
Proof. follows_stages. Qed.

Lemma run_writes (p : Pipeline) (rot export_orthomosaic : bool) :
  begins written_path p (snapshot_writes p) (run world rot export_orthomosaic).
Proof.
  unfold run.
  apply begins_after; [apply follows_self; cbn; lia |].
  intros p0.
  apply begins_after; [follows_stages |]. intros _.
  apply begins_after; [follows_stages |]. intros activated.
  apply begins_after; [follows_stages |]. intros [|].
  - eapply follows_begins, run_stages_writes.
  - eapply follows_begins. apply follows_ret. cbn. lia.
Qed.

(** [_run_metashape] on its own: it raises before anything is written, or
    it begins by rewriting the input snapshot and writes nothing more. *)
Lemma run_metashape_log (rot : bool) (s : State) x s' :
  _run_metashape world rot s = (x, s') ->
  exists t,
    trace s' = trace s ++ t
    /\ ((exists e, x = Raise e /\ calls_to csv_write t = [])
        \/ exists path rows after,
             input_images_metadata_file (self s) = PyStr path
             /\ t = EvCall csv_read [PyStr path] (Return (PyDataFrame rows))
                    :: EvCall csv_write
                         [PyDataFrame (map zero_yaw_pitch_roll rows); PyStr path]
                         (Return PyNone)
                    :: after
             /\ calls_to csv_write after = []).
Proof.
  unfold _run_metashape. unfold bind at 1, get_self at 1. intros H.
  apply bind_outcome in H as [(e & Hreset & ->) | ([] & s1 & Hreset & H)];
    apply reset_yaw_pitch_roll_log in Hreset
      as [(e' & Hx & ->) | (path & rows & Hpath & Hx & Hfile & ->)];
    try discriminate Hx.
  - eexists. cbn [trace]. split; [reflexivity |].
    left. exists e. split; reflexivity.
  - apply (emits_outcome writes_nothing) in H as (_ & after & Htrace & Hafter);
      [| emits_with writes_nothing_tac].
    cbn [trace] in Htrace. rewrite <- app_assoc in Htrace.
    eexists. split; [exact Htrace |].
    right. exists path, rows, after. rewrite Hpath.
    split; [reflexivity |]. split; [reflexivity |].
    apply writes_nothing_calls, Hafter.
Qed.

(** C2, amended: the CSV files that a run writes itself are, in this order,
    the input snapshot, the bundle-adjusted cameras, the unaligned cameras
    and the aligned snapshot (the first few of them when the run stops
    early).  The first of these writes is the first stage rewriting the
    input snapshot file in place: it writes back the table it has just read
    from that file, with yaw, pitch and roll set to 0 and every other column
    kept.  Every later write goes to the file named after its stage. *)
Theorem run_rewrites_input_then_writes_named_snapshots
    (p : Pipeline) (files : gmap string file) (rot export_orthomosaic : bool) :
  let t := trace (snd (run world rot export_orthomosaic
                           {| self := p; fs := files; trace := [] |})) in
  (exists k, omap written_path t = take k (snapshot_writes p))
  /\ forall written,
       calls_to csv_write t !! 0%nat = Some written ->
       exists path rows before after,
         input_images_metadata_file p = PyStr path
         /\ written = [PyDataFrame (map zero_yaw_pitch_roll rows); PyStr path]
         /\ t = before
                ++ EvCall csv_read [PyStr path] (Return (PyDataFrame rows))
                   :: EvCall csv_write written (Return PyNone) :: after
         /\ calls_to csv_write before = []
         /\ Forall2 (fun old new =>
                       yaw new = 0 /\ pitch new = 0 /\ roll new = 0
                       /\ image_file_name new = image_file_name old
                       /\ lon new = lon old /\ lat new = lat old
                       /\ alt new = alt old
                       /\ focal_length new = focal_length old)
                    rows (map zero_yaw_pitch_roll rows).
Proof.
  cbv zeta. split.
  { destruct (run_writes p rot export_orthomosaic
                {| self := p; fs := files; trace := [] |} eq_refl)
      as (t & k & Htrace & Hkeys).
    cbn [trace app] in Htrace. rewrite Htrace. exists k. exact Hkeys. }
  intros written Hfirst.
  destruct (run world rot export_orthomosaic {| self := p; fs := files; trace := [] |})
    as [r s'] eqn:Hrun.
  cbn [snd] in *. unfold run in Hrun.
  unfold bind at 1, get_self at 1 in Hrun. cbn [self] in Hrun.
  unfold bind at 1, log at 1 in Hrun. cbn [self fs trace app] in Hrun.
  assert (Hquiet : forall (t : list event) l,
            Forall writes_nothing t -> calls_to csv_write (l ++ t) = calls_to csv_write l).
  { intros t l Ht. unfold calls_to. rewrite omap_app.
    fold (calls_to csv_write t). rewrite (writes_nothing_calls t Ht).
    apply app_nil_r. }
  (* the licence check *)
  apply bind_outcome in Hrun as [(e & Hstage & ->) | (activated & s1 & Hstage & Hrun)];
    (apply (emits_outcome writes_nothing) in Hstage as (Hself1 & t1 & Htrace1 & Hquiet1);
     [| emits_with writes_nothing_tac]);
    cbn [trace self] in Htrace1, Hself1;
    [ rewrite Htrace1, (Hquiet t1 [_] Hquiet1) in Hfirst; discriminate Hfirst |].
  apply bind_outcome in Hrun as [(e & Hstage & ->) | (b & s2 & Hstage & Hrun)];
    (apply (emits_outcome writes_nothing) in Hstage as (Hself2 & t2 & Htrace2 & Hquiet2);
     [| emits_with writes_nothing_tac]);
    [ rewrite Htrace2, Htrace1, (Hquiet t2 _ Hquiet2), (Hquiet t1 [_] Hquiet1) in Hfirst;
      discriminate Hfirst |].
  destruct b;
    [| injection Hrun as <- <-;
       rewrite Htrace2, Htrace1, (Hquiet t2 _ Hquiet2), (Hquiet t1 [_] Hquiet1) in Hfirst;
       discriminate Hfirst ].
  (* the stages *)
  unfold run_stages in Hrun.
  unfold bind at 1, get_self at 1 in Hrun.
  apply bind_outcome in Hrun as [(e & Hstage & ->) | (df & s3 & Hstage & Hrun)];
    (apply (emits_outcome writes_nothing) in Hstage as (Hself3 & t3 & Htrace3 & Hquiet3);
     [| emits_with writes_nothing_tac]);
    [ rewrite Htrace3, Htrace2, Htrace1, (Hquiet t3 _ Hquiet3), (Hquiet t2 _ Hquiet2),
        (Hquiet t1 [_] Hquiet1) in Hfirst;
      discriminate Hfirst |].
  assert (Hinput : input_images_metadata_file (self s3) = input_images_metadata_file p)
    by (rewrite Hself3, Hself2, Hself1; reflexivity).
  assert (Hbefore : calls_to csv_write (trace s3) = []).
  { rewrite Htrace3, Htrace2, Htrace1, (Hquiet t3 _ Hquiet3), (Hquiet t2 _ Hquiet2),
      (Hquiet t1 [_] Hquiet1). reflexivity. }
  assert (Hrest : exists x s4 rest,
            _run_metashape world rot s3 = (x, s4) /\ trace s' = trace s4 ++ rest
            /\ (forall e, x = Raise e -> rest = [])).
  { apply bind_outcome in Hrun as [(e & Hstage & ->) | (x & s4 & Hstage & Hrun)].
    - exists (Raise e), s', []. rewrite app_nil_r.
      split; [exact Hstage |]. split; [reflexivity |]. intros; reflexivity.
    - apply (emits_outcome (fun _ => True)) in Hrun as (_ & rest & Hrest & _).
      + exists (Return x), s4, rest.
        split; [exact Hstage |]. split; [exact Hrest |].
        intros e He. discriminate He.
      + destruct x. emits_with ltac:(exact I). }
  destruct Hrest as (x & s4 & rest & Hstage & Htrace' & Hstop).
  apply run_metashape_log in Hstage as (t4 & Htrace4 & Hcases).
  rewrite Hinput in Hcases.
  destruct Hcases as [(e & -> & Hnone) | (path & rows & after & Hpath & -> & Hafter)].
  - rewrite (Hstop e eq_refl), app_nil_r in Htrace'.
    rewrite Htrace', Htrace4 in Hfirst.
    unfold calls_to in Hfirst, Hbefore, Hnone. rewrite omap_app in Hfirst.
    rewrite Hbefore, Hnone in Hfirst. discriminate Hfirst.
  - rewrite Htrace', Htrace4 in Hfirst |- *.
    unfold calls_to in Hfirst, Hbefore. rewrite <- app_assoc, omap_app in Hfirst.
    rewrite Hbefore in Hfirst. cbn in Hfirst. injection Hfirst as <-.
    exists path, rows, (trace s3), (after ++ rest).
    split; [exact Hpath |]. split; [reflexivity |].
    split; [rewrite <- app_assoc; reflexivity |].
    split; [exact Hbefore | apply zero_yaw_pitch_roll_columns].
Qed.

End SnapshotWrites.

Lemma run_rewrites_input_then_writes_named_snapshots_witness :
  let t := trace (snd (run (Sample.world Sample.inside) true true (Sample.start true))) in
  exists path rows before after,
    input_images_metadata_file (Sample.pipeline true) = PyStr path
    /\ [PyDataFrame (map zero_yaw_pitch_roll Sample.cameras); PyStr "in.csv"]
       = [PyDataFrame (map zero_yaw_pitch_roll rows); PyStr path]
    /\ t = before
           ++ EvCall csv_read [PyStr path] (Return (PyDataFrame rows))
              :: EvCall csv_write
                   [PyDataFrame (map zero_yaw_pitch_roll Sample.cameras); PyStr "in.csv"]
                   (Return PyNone)
              :: after
    /\ calls_to csv_write before = []
    /\ Forall2 (fun old new =>
                  yaw new = 0 /\ pitch new = 0 /\ roll new = 0
                  /\ image_file_name new = image_file_name old
                  /\ lon new = lon old /\ lat new = lat old
                  /\ alt new = alt old
                  /\ focal_length new = focal_length old)
               rows (map zero_yaw_pitch_roll rows).
Proof.
  apply (proj2 (run_rewrites_input_then_writes_named_snapshots
                  (Sample.world Sample.inside) (Sample.pipeline true) Sample.files
                  true true)
               [PyDataFrame (map zero_yaw_pitch_roll Sample.cameras); PyStr "in.csv"]).
  vm_compute. reflexivity.
Defined.

(** ** The reference DEM at steps 5 and 8 *)

Ltac silent_tac := vm_compute; repeat split; reflexivity.

Lemma silent_footprints t : Forall silent t -> omap footprint t = [].
Proof.
  induction 1 as [| e t (He & _) _ IH]; [reflexivity |].
  cbn. rewrite He. exact IH.
Qed.

Lemma silent_calls fn t :
  fn = clip \/ fn = pc_align \/ fn = dem_align ->
  Forall silent t -> omap (called fn) t = [].
Proof.
  intros Hfn. induction 1 as [| e t (_ & Hc & Hp & Hd) _ IH]; [reflexivity |].
  cbn. destruct Hfn as [-> | [-> | ->]];
    rewrite ?Hc, ?Hp, ?Hd; exact IH.
Qed.

(** Reading a footprint, whatever comes of it. *)
Lemma open_rasterio_bounds_outcome v s r s' :
  open_rasterio_bounds v s = (r, s') ->
  s' = {| self := self s; fs := fs s;
          trace := trace s ++ [EvCall raster_bounds [v] r] |}
  /\ match r with
     | Return x =>
         exists b, box x = ret b
                   /\ footprint (EvCall raster_bounds [v] r) = Some b
     | Raise _ => footprint (EvCall raster_bounds [v] r) = None
     end.
Proof.
  intros H. apply call_outcome in H as (files' & Himpl & ->).
  unfold rio_bounds in Himpl.
  destruct v as [| | | path | |];
    try (injection Himpl as <- <-; split; reflexivity).
  destruct (fs s !! path) as [[| [[[l b] r0] t] |] |];
    injection Himpl as <- <-; split; try reflexivity.
  exists (l, b, r0, t). split; reflexivity.
Qed.

Lemma open_rasterio_bounds_Return v s x s' :
  open_rasterio_bounds v s = (Return x, s') ->
  exists b,
    box x = ret b
    /\ footprint (EvCall raster_bounds [v] (Return x)) = Some b
    /\ s' = {| self := self s; fs := fs s;
               trace := trace s ++ [EvCall raster_bounds [v] (Return x)] |}.
Proof.
  intros H. apply open_rasterio_bounds_outcome in H as (-> & b & Hbox & Hf).
  exists b. repeat split; assumption.
Qed.

Lemma footprint_is_read (e : event) b :
  footprint e = Some b -> bounds_read e = Some tt.
Proof.
  destruct e as [input out rot ex | name args r]; [discriminate |].
  unfold footprint, bounds_read, called.
  destruct (String.eqb name raster_bounds); [reflexivity | discriminate].
Qed.

Lemma footprints_are_reads (t : list event) :
  (length (omap footprint t) <= length (omap bounds_read t))%nat.
Proof.
  induction t as [| e t IH]; [reflexivity |].
  cbn [omap list_omap].
  destruct (footprint e) eqn:Hf.
  - rewrite (footprint_is_read _ _ Hf). cbn [length]. lia.
  - destruct (bounds_read e); cbn [length]; lia.
Qed.

Section ReferenceDem.

Variable world : World.
Hypothesis clip_contract : clip_returns_its_output world.

(** Step 5 on its own, when it returns: it reads the two footprints, clips
    when the reference footprint contains the extracted DEM's, and aligns
    against the file it chose. *)
Lemma pc_align_routine_log dem s r s' :
  _pc_align_routine world dem s = (Return r, s') ->
  self s' = self s
  /\ exists t reference new,
       trace s' = trace s ++ t
       /\ omap footprint t = [reference; new]
       /\ omap (called clip) t
          = (if contains reference new
             then [[dem; PyStr (reference_dem (self s));
                    PyStr (clipped_reference_dem_file (self s));
                    PyBool (verbose (self s))]]
             else [])
       /\ omap (called pc_align) t
          = [[dem;
              PyStr (if contains reference new
                     then clipped_reference_dem_file (self s)
                     else reference_dem (self s));
              PyStr (output_path (self s)); PyBool (verbose (self s))]]
       /\ omap (called dem_align) t = [].
Proof.
  unfold _pc_align_routine. intros H.
  apply bind_Return in H as (p & s0 & Hp & H). injection Hp as <- <-.
  apply bind_Return in H as (x1 & s1 & H1 & H).
  apply open_rasterio_bounds_Return in H1 as (b1 & Hbox1 & Hf1 & ->).
  apply bind_Return in H as (x2 & s2 & H2 & H).
  apply open_rasterio_bounds_Return in H2 as (b2 & Hbox2 & Hf2 & ->).
  rewrite Hbox1 in H. apply bind_Return in H as (b1' & s3 & Hb1 & H).
  injection Hb1 as <- <-.
  rewrite Hbox2 in H. apply bind_Return in H as (b2' & s4 & Hb2 & H).
  injection Hb2 as <- <-.
  cbn [self fs trace] in *.
  destruct (contains b1 b2) eqn:Hcontains.
  - apply bind_Return in H as (c & s5 & Hclip & H).
    apply call_Return in Hclip as (files5 & Hworld & ->).
    apply clip_contract in Hworld. cbn in Hworld. injection Hworld as <-.
    apply bind_Return in H as (v & s6 & Halign & H).
    apply call_Return in Halign as (files6 & _ & ->).
    destruct r as [a b]. apply unpack2_Return in H as (_ & ->).
    cbn [self fs trace]. split; [reflexivity |].
    eexists _, b1, b2. rewrite <- !app_assoc. split; [reflexivity |].
    cbn [app]. rewrite Hcontains. split; [| repeat split; vm_compute; reflexivity].
    cbn [omap list_omap]. rewrite Hf1, Hf2. reflexivity.
  - apply bind_Return in H as (v & s6 & Halign & H).
    apply call_Return in Halign as (files6 & _ & ->).
    destruct r as [a b]. apply unpack2_Return in H as (_ & ->).
    cbn [self fs trace]. split; [reflexivity |].
    eexists _, b1, b2. rewrite <- !app_assoc. split; [reflexivity |].
    cbn [app]. rewrite Hcontains. split; [| repeat split; vm_compute; reflexivity].
    cbn [omap list_omap]. rewrite Hf1, Hf2. reflexivity.
Qed.

(** Step 5, whatever comes of it, reads at most two footprints. *)
Lemma pc_align_routine_reads dem s r s' :
  _pc_align_routine world dem s = (r, s') ->
  exists t,
    trace s' = trace s ++ t /\ (length (omap footprint t) <= 2)%nat.
Proof.
  intros H.
  assert (Hreads : follows bounds_read (self s) [tt; tt] 0 2
                           (_pc_align_routine world dem)).
  { unfold_stages. repeat follows_step. }
  destruct (Hreads s eq_refl) as (t & Htrace & _ & Hkeys).
  rewrite H in Htrace, Hkeys. cbn [fst snd] in *.
  exists t. split; [exact Htrace |].
  pose proof (footprints_are_reads t) as Hle.
  assert (Hlen : (length (omap bounds_read t) <= 2)%nat).
  { destruct r.
    - destruct Hkeys as (_ & ->). cbn. lia.
    - destruct Hkeys as (k & ->). rewrite length_take. cbn. lia. }
  lia.
Qed.

(** Step 8 on its own, whatever comes of it: it clips nothing; when it has
    read the footprints of the reference DEM and of the aligned DEM, it
    hands the co-registration tool the path kept for the clipped file or the
    full reference DEM, and else it does not call the tool. *)
Lemma nuth_kaab_align_routine_log aligned s r s' :
  _nuth_kaab_align_routine world aligned s = (r, s') ->
  exists t,
    trace s' = trace s ++ t
    /\ omap (called clip) t = []
    /\ omap (called pc_align) t = []
    /\ (((length (omap footprint t) < 2)%nat /\ omap (called dem_align) t = [])
        \/ exists reference new,
             omap footprint t = [reference; new]
             /\ omap (called dem_align) t
                = [[PyStr (if contains reference new
                           then clipped_reference_dem_file (self s)
                           else reference_dem (self s));
                    aligned; PyStr (output_path (self s));
                    PyBool (verbose (self s))]]).
Proof.
  unfold _nuth_kaab_align_routine. unfold bind at 1, get_self at 1. intros H.
  apply bind_outcome in H as [(e & H1 & ->) | (x1 & s1 & H1 & H)];
    apply open_rasterio_bounds_outcome in H1 as (-> & Hf1).
  { eexists. cbn [trace]. split; [reflexivity |].
    cbn [omap list_omap]. rewrite Hf1.
    repeat split; try reflexivity. left. split; [cbn; lia | reflexivity]. }
  destruct Hf1 as (b1 & Hbox1 & Hf1).
  apply bind_outcome in H as [(e & H2 & ->) | (x2 & s2 & H2 & H)];
    apply open_rasterio_bounds_outcome in H2 as (-> & Hf2).
  { eexists. cbn [trace]. rewrite <- app_assoc. split; [reflexivity |].
    cbn [app omap list_omap]. rewrite Hf1, Hf2.
    repeat split; try reflexivity. left. split; [cbn; lia | reflexivity]. }
  destruct Hf2 as (b2 & Hbox2 & Hf2).
  rewrite Hbox1 in H. unfold bind at 1, ret at 1 in H.
  rewrite Hbox2 in H. unfold bind at 1, ret at 1 in H.
  cbn [self fs trace] in H.
  destruct (contains b1 b2) eqn:Hcontains;
    apply call_outcome in H as (files' & _ & ->);
    (eexists; cbn [trace]; rewrite <- !app_assoc; split; [reflexivity |]);
    cbn [app omap list_omap]; rewrite Hf1, Hf2;
    (split; [reflexivity |]); (split; [reflexivity |]);
    right; exists b1, b2; rewrite Hcontains; split; reflexivity.
Qed.

(** A stage that is neither step 5 nor step 8: it raises and ends the run,
    or the run goes on; either way it reads no footprint and calls none of
    the three tools. *)
Tactic Notation "silent_stage" hyp(H) "as" simple_intropattern(result)
    "else" tactic3(stop) :=
  let e := fresh "e" in
  let s := fresh "s" in
  let Hstage := fresh "Hstage" in
  let Hself := fresh "Hself" in
  let t := fresh "t" in
  let Htrace := fresh "Htrace" in
  let Hsilent := fresh "Hsilent" in
  apply bind_outcome in H as [(e & Hstage & ->) | (result & s & Hstage & H)];
  (apply (emits_outcome silent) in Hstage as (Hself & t & Htrace & Hsilent);
   [| emits_with silent_tac]);
  [ stop | ].

(** What the log of a run says once all its parts are known: [H] is rewritten
    with the log of each part. *)
Ltac read_log H :=
  repeat (cbn [trace] in H;
          match goal with
          | Ht : trace ?x = _ |- _ => rewrite Ht in H
          end);
  cbn [trace app] in H;
  repeat first [ rewrite omap_app in H
               | progress cbn [omap list_omap footprint called app] in H ];
  repeat match goal with
         | Hs : Forall silent ?t |- _ =>
             progress
               rewrite ?(silent_footprints t Hs),
                 ?(silent_calls clip t (or_introl eq_refl) Hs),
                 ?(silent_calls pc_align t (or_intror (or_introl eq_refl)) Hs),
                 ?(silent_calls dem_align t (or_intror (or_intror eq_refl)) Hs) in H
         end.

(** A run that stopped before the second test was made. *)
Ltac too_few_tests Htests :=
  exfalso; unfold footprint_tests in Htests; read_log Htests;
  repeat match goal with
         | Hf : omap footprint ?t = _ |- _ => rewrite Hf in Htests
         end;
  cbn in Htests;
  repeat match goal with
         | Hlen : (length ?l <= 2)%nat |- _ =>
             destruct l as [| ? [| ? [| ? ?]]]; cbn in Hlen, Htests; try lia
         | Hlen : (length ?l < 2)%nat |- _ =>
             destruct l as [| ? [| ? ?]]; cbn in Hlen, Htests; try lia
         end;
  discriminate Htests.

(** The footprints read and the calls made by a [run] in which both
    containment tests are made. *)
Lemma run_reference_dem_log p files rot export_orthomosaic r s' (first second : bool) :
  run world rot export_orthomosaic {| self := p; fs := files; trace := [] |}
  = (r, s') ->
  footprint_tests (trace s') = [first; second] ->
  length (omap (called clip) (trace s')) = (if first then 1 else 0)%nat
  /\ map (fun args => args !! 1%nat) (omap (called pc_align) (trace s'))
     = [Some (PyStr (if first then clipped_reference_dem_file p else reference_dem p))]
  /\ map (fun args => args !! 0%nat) (omap (called dem_align) (trace s'))
     = [Some (PyStr (if second then clipped_reference_dem_file p else reference_dem p))].
Proof.
  intros H Htests. unfold run in H.
  unfold bind at 1, get_self at 1 in H. cbn [self] in H.
  unfold bind at 1, log at 1 in H. cbn [self fs trace app] in H.
  silent_stage H as activated else (too_few_tests Htests).
  silent_stage H as metashape_is_activated else (too_few_tests Htests).
  destruct metashape_is_activated;
    [| injection H as <- <-; too_few_tests Htests].
  unfold run_stages in H.
  unfold bind at 1, get_self at 1 in H.
  silent_stage H as ? else (too_few_tests Htests).
  silent_stage H as [project_file point_cloud_file] else (too_few_tests Htests).
  silent_stage H as ? else (too_few_tests Htests).
  silent_stage H as dem else (too_few_tests Htests).
  silent_stage H as unaligned_cameras_df else (too_few_tests Htests).
  silent_stage H as ? else (too_few_tests Htests).
  apply bind_outcome in H
    as [(e5 & H5 & ->) | ([aligned_dem_file transform] & s10 & H5 & H)].
  { apply pc_align_routine_reads in H5 as (log5 & Hlog5 & Hlen5).
    too_few_tests Htests. }
  apply pc_align_routine_log in H5
    as (Hkeep5 & log5 & reference5 & new5 & Hlog5 & Hf5 & Hclip5 & Hpc5 & Hdem5).
  silent_stage H as df else (too_few_tests Htests).
  silent_stage H as ? else (too_few_tests Htests).
  apply bind_outcome in H as [(e8 & H8 & ->) | (r8 & s13 & H8 & _)];
    [| exfalso; exact (nuth_kaab_never_returns world _ _ _ _ H8)].
  apply nuth_kaab_align_routine_log in H8
    as (log8 & Hlog8 & Hclip8 & Hpc8
        & [(Hlen8 & Hdem8) | (reference8 & new8 & Hf8 & Hdem8)]).
  { too_few_tests Htests. }
  cbn [self trace] in *.
  repeat match goal with
         | Hs : self ?x = _ |- _ => try rewrite Hs in *; clear Hs
         end.
  unfold footprint_tests in Htests.
  remember (omap footprint (trace s')) as footprints eqn:Hfs.
  remember (omap (called clip) (trace s')) as clips eqn:Hclips.
  remember (omap (called pc_align) (trace s')) as pcs eqn:Hpcs.
  remember (omap (called dem_align) (trace s')) as dems eqn:Hdems.
  read_log Hfs. read_log Hclips. read_log Hpcs. read_log Hdems.
  rewrite Hf5, Hf8 in Hfs. rewrite Hclip5, Hclip8 in Hclips.
  rewrite Hpc5, Hpc8 in Hpcs. rewrite Hdem5, Hdem8 in Hdems.
  cbn [app] in Hfs, Hclips, Hpcs, Hdems. subst footprints clips pcs dems.
  cbn in Htests. injection Htests as <- <-.
  repeat split; try reflexivity.
  destruct (contains reference5 new5); reflexivity.
Qed.

(** C4, amended: in a [run] in which both containment tests are made, step
    5 decides on the footprint of the extracted DEM and step 8 decides again
    on the footprint of the aligned DEM.  When the two tests agree (and the
    clip tool returns the name of the output file it was given), both
    stages are handed the same reference DEM: the clipped file, clipped once
    at step 5 and reused by path at step 8, when the reference footprint
    contains both DEMs, and the full reference DEM when it contains
    neither.  Whether the run then returns or raises does not matter. *)
Theorem same_reference_dem_when_tests_agree
    p files rot export_orthomosaic r s' (agreed : bool) :
  run world rot export_orthomosaic {| self := p; fs := files; trace := [] |}
  = (r, s') ->
  footprint_tests (trace s') = [agreed; agreed] ->
  reference_at_pc_align (trace s')
  = [Some (PyStr (if agreed then clipped_reference_dem_file p else reference_dem p))]
  /\ reference_at_dem_align (trace s') = reference_at_pc_align (trace s')
  /\ length (calls_to clip (trace s')) = (if agreed then 1 else 0)%nat.
Proof.
  intros Hrun Htests.
  destruct (run_reference_dem_log _ _ _ _ _ _ _ _ Hrun Htests)
    as (Hclip & Hpc & Hdem).
  unfold reference_at_pc_align, reference_at_dem_align, argument, calls_to.
  rewrite Hpc, Hdem, Hclip. repeat split; reflexivity.
Qed.

End ReferenceDem.

Lemma sample_clip_returns_its_output (c : Sample.Config) :
  clip_returns_its_output (Sample.world c).
Proof.
  intros args files r files' H.
  assert (Hclip :
    Sample.world c clip args files
    = match args with
      | [_; _; PyStr output_file_name; _] =>
          (Return (PyStr output_file_name),
           <[output_file_name := RasterFile (Sample.dem_bounds c)]> files)
      | _ => (Raise (ExternalError clip), files)
      end) by reflexivity.
  rewrite Hclip in H. clear Hclip.
  destruct args as [| a0 [| a1 [| a2 [| a3 [| a4 rest]]]]];
    try discriminate H; destruct a2; try discriminate H.
  injection H as <- _. reflexivity.
Qed.

Lemma same_reference_dem_when_tests_agree_witness :
  let s' := snd (run (Sample.world Sample.inside) true true (Sample.start true)) in
  reference_at_pc_align (trace s')
  = [Some (PyStr (clipped_reference_dem_file (Sample.pipeline true)))]
  /\ reference_at_dem_align (trace s') = reference_at_pc_align (trace s')
  /\ length (calls_to clip (trace s')) = 1%nat.
Proof.
  apply (same_reference_dem_when_tests_agree (Sample.world Sample.inside)
           (sample_clip_returns_its_output Sample.inside)
           (Sample.pipeline true) Sample.files true true
           (Raise TypeError)
           (snd (run (Sample.world Sample.inside) true true (Sample.start true)))
           true).
  - vm_compute. reflexivity.
  - vm_compute. reflexivity.
Defined.
(** ** The order of the stages *)

Section StageOrder.

Variable world : World.

Lemma run_stages_follow (p : Pipeline) (rot export_orthomosaic : bool) :
  follows stage_of p reachable_stages 0 8 (run_stages world rot export_orthomosaic).
Proof. follows_stages. Qed.

Lemma reachable_beginning (n : nat) :
  exists k, (k <= 8)%nat /\ take n reachable_stages = take k stage_sequence.
Proof.
  exists (n `min` 8)%nat. split; [lia |]. unfold reachable_stages. apply take_take.
Qed.

Lemma quiet_then {A} (p : Pipeline) (m : M A) (k : A -> M pyval) :
  follows stage_of p reachable_stages 0 0 m ->
  (forall a s, self s = p ->
     exists t, trace (snd (k a s)) = trace s ++ t
               /\ run_outcome (fst (k a s)) (stages t)) ->
  forall s, self s = p ->
    exists t, trace (snd (bind m k s)) = trace s ++ t
              /\ run_outcome (fst (bind m k s)) (stages t).
Proof.
  intros Hm Hk s Hs. unfold bind.
  destruct (Hm s Hs) as (t & Htrace & Hself & Hstages).
  destruct (m s) as [[a | e] s1]; cbn [fst snd] in *.
  - destruct Hstages as (_ & Ht). cbn in Ht.
    destruct (Hk a s1 Hself) as (t' & Htrace' & Hout).
    exists (t ++ t'). rewrite Htrace', Htrace, app_assoc.
    split; [reflexivity |].
    unfold stages in *. rewrite omap_app, Ht. exact Hout.
  - exists t. split; [exact Htrace |].
    destruct Hstages as (n & Ht). unfold stages. rewrite Ht.
    apply reachable_beginning.
Qed.

Lemma run_outcome_holds (rot export_orthomosaic : bool) (s : State) :
  exists t,
    trace (snd (run world rot export_orthomosaic s)) = trace s ++ t
    /\ run_outcome (fst (run world rot export_orthomosaic s)) (stages t).
Proof.
  unfold run.
  apply (quiet_then (self s)); [apply follows_self; cbn; lia | | reflexivity].
  intros p s0 Hs0.
  apply (quiet_then (self s)); [follows_stages | | exact Hs0]. intros _ s1 Hs1.
  apply (quiet_then (self s)); [follows_stages | | exact Hs1].
  intros activated s2 Hs2.
  apply (quiet_then (self s)); [follows_stages | | exact Hs2].
  intros [|] s3 Hs3.
  - destruct (run_stages_follow (self s) rot export_orthomosaic s3 Hs3)
      as (t & Htrace & _ & Ht).
    exists t. split; [exact Htrace |].
    destruct (run_stages world rot export_orthomosaic s3) as [[v | e] s4] eqn:Hrun;
      cbn [fst snd] in *.
    + exfalso. exact (run_stages_never_return world _ _ _ _ _ Hrun).
    + destruct Ht as (n & Ht). unfold stages. rewrite Ht.
      apply reachable_beginning.
  - exists []. cbn. rewrite app_nil_r. split; [reflexivity |].
    split; reflexivity.
Qed.

Lemma run_orderly (rot export_orthomosaic : bool) :
  orderly (run world rot export_orthomosaic).
Proof. unfold run. orderly_tac. Qed.

(** X1: The stages of a [run] are called in the order of the sequence, and
    nothing is called after a call that failed. A [run] that returns has
    called no stage and returns [None] (the engine is not activated): no
    call of its log raised. A [run] that raises has called a beginning of
    the sequence that ends at the co-registration (step 8) at the latest,
    and a call that raised is the last event of its log. *)
Theorem run_calls_stages_in_order
    (p : Pipeline) (files : gmap string file) (rot export_orthomosaic : bool) :
  let r := run world rot export_orthomosaic {| self := p; fs := files; trace := [] |} in
  match fst r with
  | Return v =>
      v = PyNone
      /\ stages (trace (snd r)) = []
      /\ Forall succeeded (trace (snd r))
  | Raise _ =>
      (exists k, (k <= 8)%nat /\ stages (trace (snd r)) = take k stage_sequence)
      /\ Forall succeeded (removelast (trace (snd r)))
  end.
Proof.
  cbv zeta.
  destruct (run_outcome_holds rot export_orthomosaic
              {| self := p; fs := files; trace := [] |}) as (t & Htrace & Hout).
  destruct (run_orderly rot export_orthomosaic
              {| self := p; fs := files; trace := [] |}) as (t' & Htrace' & Hord).
  cbn [trace app] in Htrace, Htrace'. rewrite Htrace in *. subst t'.
  unfold run_outcome in Hout.
  destruct (fst (run world rot export_orthomosaic
                     {| self := p; fs := files; trace := [] |})).
  - destruct Hout as (Hv & Hstages). repeat split; assumption.
  - split; assumption.
Qed.

End StageOrder.

(** ** How often the SfM collaborator is invoked *)

Section SfmOnce.

Variable world : World.

Lemma calls_to_sfm_are_stages (t : list event) :
  length (calls_to sfm t) = length (filter (fun name => name = sfm) (stages t)).
Proof.
  unfold calls_to, stages.
  induction t as [| e t IH]; [reflexivity |].
  destruct e as [input out rot ex | name args r]; cbn [omap list_omap called stage_of];
    [exact IH |].
  destruct (String.eqb_spec name sfm) as [-> | Hne].
  - change (tracked sfm) with true. cbn [length].
    rewrite filter_cons_True by reflexivity. cbn [length]. f_equal. exact IH.
  - destruct (tracked name); [| exact IH].
    rewrite filter_cons_False by exact Hne. exact IH.
Qed.

Lemma filter_take_length (l : list string) :
  forall k,
    (length (filter (fun name => name = sfm) (take k l))
     <= length (filter (fun name => name = sfm) l))%nat.
Proof.
  induction l as [| x l IH]; intros [| k]; cbn [take]; try (cbn; lia).
  destruct (decide (x = sfm)) as [Hx | Hx].
  - rewrite !filter_cons_True by exact Hx. cbn [length]. specialize (IH k). lia.
  - rewrite !filter_cons_False by exact Hx. apply IH.
Qed.

Lemma sfm_once_in_a_beginning (k : nat) :
  (length (filter (fun name => name = sfm) (take k stage_sequence)) <= 1)%nat.
Proof.
  transitivity (length (filter (fun name => name = sfm) stage_sequence));
    [apply filter_take_length | vm_compute; lia].
Qed.

(** One [run] invokes the SfM collaborator at most once. *)
Lemma run_invokes_sfm_at_most_once (rot export_orthomosaic : bool) (s : State) :
  exists t,
    trace (snd (run world rot export_orthomosaic s)) = trace s ++ t
    /\ (length (calls_to sfm t) <= 1)%nat.
Proof.
  destruct (run_outcome_holds world rot export_orthomosaic s) as (t & Htrace & Hout).
  exists t. split; [exact Htrace |].
  rewrite calls_to_sfm_are_stages.
  unfold run_outcome in Hout.
  destruct (fst (run world rot export_orthomosaic s)).
  - destruct Hout as (_ & ->). cbn. lia.
  - destruct Hout as (k & _ & ->). apply sfm_once_in_a_beginning.
Qed.

Lemma not_sfm_calls (t : list event) : Forall not_sfm t -> calls_to sfm t = [].
Proof.
  unfold calls_to. induction 1 as [| e t He _ IH]; [reflexivity |].
  cbn. unfold not_sfm in He. rewrite He. exact IH.
Qed.

(** The stages started from something that is not a path stop at once:
    reading the input as a CSV raises. *)
Lemma run_stages_without_a_path (rot export_orthomosaic : bool) (s : State) :
  not_a_path (input_images_metadata_file (self s)) ->
  exists ev,
    snd (run_stages world rot export_orthomosaic s)
    = {| self := self s; fs := fs s; trace := trace s ++ [ev] |}
    /\ called sfm ev = None.
Proof.
  intros Hinput.
  unfold run_stages, bind at 1. cbn [get_self].
  unfold bind at 1, read_csv, call, pd_read_csv.
  destruct (input_images_metadata_file (self s)) as [| | | path | |];
    try (eexists; split; reflexivity).
  exfalso. exact (Hinput path eq_refl).
Qed.

(** A [run] that starts from something that is not a path never reaches the
    SfM collaborator. *)
Lemma run_without_a_path (rot export_orthomosaic : bool) (s : State) :
  not_a_path (input_images_metadata_file (self s)) ->
  exists t,
    trace (snd (run world rot export_orthomosaic s)) = trace s ++ t
    /\ calls_to sfm t = [].
Proof.
  intros Hinput. unfold run, bind at 1 2. cbn [get_self log].
  set (entry := EvRun _ _ _ _).
  set (s0 := {| self := self s; fs := fs s; trace := trace s ++ [entry] |}).
  assert (Hdone : forall s1 t1,
            trace s1 = trace s0 ++ t1 -> calls_to sfm t1 = [] ->
            trace s1 = trace s ++ entry :: t1 /\ calls_to sfm (entry :: t1) = []).
  { intros s1 t1 -> Ht1. subst s0. cbn [trace]. rewrite <- app_assoc.
    split; [reflexivity | exact Ht1]. }
  unfold bind at 1.
  destruct (_is_metashape_activated world s0) as [[activated | e] s1] eqn:Hact;
    (apply (emits_outcome not_sfm) in Hact as (Hself1 & t1 & Htrace1 & Ht1);
     [| emits_with ltac:(reflexivity)]); apply not_sfm_calls in Ht1.
  2: { exists (entry :: t1). apply Hdone; assumption. }
  unfold bind at 1.
  destruct (truth activated s1) as [[b | e] s2] eqn:Htruth;
    (apply (emits_outcome not_sfm) in Htruth as (Hself2 & t2 & Htrace2 & Ht2);
     [| emits_with ltac:(reflexivity)]); apply not_sfm_calls in Ht2.
  2: { exists (entry :: t1 ++ t2). apply Hdone.
       - cbn [snd]. rewrite Htrace2, Htrace1, app_assoc. reflexivity.
       - unfold calls_to in *. rewrite omap_app, Ht1, Ht2. reflexivity. }
  destruct b.
  - destruct (run_stages_without_a_path rot export_orthomosaic s2) as (ev & -> & Hev).
    { rewrite Hself2, Hself1. exact Hinput. }
    exists (entry :: t1 ++ t2 ++ [ev]). apply Hdone.
    + cbn [trace]. rewrite Htrace2, Htrace1, <- !app_assoc. reflexivity.
    + unfold calls_to in *. rewrite !omap_app, Ht1, Ht2. cbn. rewrite Hev. reflexivity.
  - exists (entry :: t1 ++ t2). apply Hdone.
    + cbn [snd ret]. rewrite Htrace2, Htrace1, app_assoc. reflexivity.
    + unfold calls_to in *. rewrite omap_app, Ht1, Ht2. reflexivity.
Qed.

Lemma later_iterations_skip_sfm (export_orthomosaic : bool) (indices : list nat) :
  forall rot bound s,
    not_a_path (input_images_metadata_file (self s)) ->
    exists t,
      trace (snd (run_multi_loop world export_orthomosaic indices rot bound s))
      = trace s ++ t
      /\ calls_to sfm t = [].
Proof.
  induction indices as [| i rest IH]; intros rot bound s Hinput.
  - exists []. cbn. rewrite app_nil_r. split; reflexivity.
  - cbn [run_multi_loop].
    unfold bind at 1 2, _update_output_paths, bind at 1. cbn [get_self set_self].
    match goal with
    | |- context [bind (run world rot export_orthomosaic) ?k ?s0] =>
        set (s1 := s0); set (k1 := k)
    end.
    destruct (run_without_a_path rot export_orthomosaic s1 Hinput)
      as (t1 & Htrace1 & Ht1).
    unfold bind at 1.
    destruct (run world rot export_orthomosaic s1) as [[v | e] s2] eqn:Hrun;
      cbn [snd] in *.
    + subst k1. unfold bind at 1, _set_input_images_metadata_file, bind at 1.
      cbn [get_self set_self].
      match goal with
      | |- context [run_multi_loop world export_orthomosaic rest false ?b ?s0] =>
          destruct (IH false b s0) as (t2 & Htrace2 & Ht2)
      end.
      { cbn [self set_input_images_metadata_file input_images_metadata_file].
        intros path Hv. rewrite Hv in Hrun.
        apply run_result in Hrun. discriminate Hrun. }
      exists (t1 ++ t2). rewrite Htrace2. cbn [trace]. rewrite Htrace1.
      cbn [trace s1]. rewrite app_assoc. split; [reflexivity |].
      unfold calls_to in *. rewrite omap_app, Ht1, Ht2. reflexivity.
    + exists t1. split; [exact Htrace1 | exact Ht1].
Qed.

(** X2: Whatever the collaborators do and however many iterations are asked for,
    [run_multi] invokes the SfM collaborator at most once: every iteration
    after the first starts from what [run] returned, which is not a path, and
    stops before bundle adjustment. *)
Theorem run_multi_invokes_sfm_at_most_once
    (p : Pipeline) (files : gmap string file) (iterations : Z)
    (export_orthomosaic : bool) :
  (length (calls_to sfm
             (trace (snd (run_multi world iterations export_orthomosaic
                                    {| self := p; fs := files; trace := [] |}))))
   <= 1)%nat.
Proof.
  assert (Hloop : forall indices rot bound s,
            exists t,
              trace (snd (run_multi_loop world export_orthomosaic indices rot bound s))
              = trace s ++ t
              /\ (length (calls_to sfm t) <= 1)%nat).
  { intros [| i rest] rot bound s.
    - exists []. cbn. rewrite app_nil_r. split; [reflexivity | lia].
    - cbn [run_multi_loop].
      unfold bind at 1 2, _update_output_paths, bind at 1. cbn [get_self set_self].
      match goal with
      | |- context [bind (run world rot export_orthomosaic) ?k ?s0] =>
          set (s1 := s0); set (k1 := k)
      end.
      destruct (run_invokes_sfm_at_most_once rot export_orthomosaic s1)
        as (t1 & Htrace1 & Ht1).
      unfold bind at 1.
      destruct (run world rot export_orthomosaic s1) as [[v | e] s2] eqn:Hrun;
        cbn [snd] in *.
      + subst k1. unfold bind at 1, _set_input_images_metadata_file, bind at 1.
        cbn [get_self set_self].
        match goal with
        | |- context [run_multi_loop world export_orthomosaic rest false ?b ?s0] =>
            destruct (later_iterations_skip_sfm export_orthomosaic rest false b s0)
              as (t2 & Htrace2 & Ht2)
        end.
        { cbn [self set_input_images_metadata_file input_images_metadata_file].
          intros path Hv. rewrite Hv in Hrun.
          apply run_result in Hrun. discriminate Hrun. }
        exists (t1 ++ t2). rewrite Htrace2. cbn [trace]. rewrite Htrace1.
        cbn [trace s1]. rewrite app_assoc. split; [reflexivity |].
        unfold calls_to in *. rewrite omap_app, length_app, Ht2. cbn. lia.
      + exists t1. split; [exact Htrace1 | exact Ht1]. }
  unfold run_multi, bind. cbn [get_self self].
  match goal with
  | |- context [run_multi_loop world export_orthomosaic ?idx ?rot ?b ?s0] =>
      destruct (Hloop idx rot b s0) as (t & Htrace & Ht);
      destruct (run_multi_loop world export_orthomosaic idx rot b s0)
        as [[[v |] | e] s1]
  end; cbn [snd trace ret raise] in *; rewrite Htrace; exact Ht.
Qed.

End SfmOnce.

(** ** The directories of the iterations *)

Lemma same_configuration_refl (p : Pipeline) : same_configuration p p.
Proof. repeat split. Qed.

Lemma same_configuration_trans (p q r : Pipeline) :
  same_configuration p q -> same_configuration q r -> same_configuration p r.
Proof.
  unfold same_configuration. intros Hpq Hqr.
  repeat match goal with
         | H : _ /\ _ |- _ => destruct H
         end.
  repeat split; congruence.
Qed.

Section Directories.

Variable world : World.

Lemma run_multi_loop_directories (export_orthomosaic : bool) (indices : list nat) :
  forall rot bound s r s',
    run_multi_loop world export_orthomosaic indices rot bound s = (r, s') ->
    exists t,
      trace s' = trace s ++ t
      /\ same_configuration (self s) (self s')
      /\ match r with
         | Return _ =>
             map (fun entry => snd (fst entry)) (run_entries t)
             = map (iteration_directory (original_output_path (self s))) indices
         | Raise _ =>
             exists k,
               map (fun entry => snd (fst entry)) (run_entries t)
               = take k (map (iteration_directory (original_output_path (self s)))
                             indices)
         end.
Proof.
  induction indices as [| i rest IH]; intros rot bound s r s' H.
  - injection H as <- <-. exists []. rewrite app_nil_r.
    split; [reflexivity |]. split; [apply same_configuration_refl | reflexivity].
  - cbn [run_multi_loop] in H.
    unfold bind at 1 2, _update_output_paths, bind at 1 in H.
    cbn [get_self set_self] in H.
    match type of H with
    | bind (run world rot export_orthomosaic) _ ?s0 = _ => set (s1 := s0) in *
    end.
    destruct (run_log world rot export_orthomosaic s1) as (t1 & Htrace1 & Ht1).
    pose proof (run_keeps_self world rot export_orthomosaic s1) as Hself1.
    apply within_run_no_entries in Ht1.
    assert (Hs1 : same_configuration (self s) (self s1)) by (repeat split).
    unfold bind at 1 in H.
    destruct (run world rot export_orthomosaic s1) as [[v | e] s2] eqn:Hrun;
      cbn [fst snd] in *.
    + unfold bind at 1, _set_input_images_metadata_file, bind at 1 in H.
      cbn [get_self set_self] in H.
      apply IH in H as (t2 & Htrace2 & Hconf2 & Hdirs2).
      cbn [trace self] in Htrace2, Hconf2, Hdirs2.
      assert (Hs3 : same_configuration
                      (self s1) (set_input_images_metadata_file (self s2) v))
        by (rewrite Hself1; repeat split).
      assert (Horig : original_output_path (set_input_images_metadata_file (self s2) v)
                      = original_output_path (self s))
        by (rewrite Hself1; reflexivity).
      rewrite Horig in Hdirs2.
      eexists. rewrite Htrace2, Htrace1. cbn [trace s1].
      split; [rewrite <- app_assoc; reflexivity |].
      split.
      { eapply same_configuration_trans; [exact Hs1 |].
        eapply same_configuration_trans; [exact Hs3 | exact Hconf2]. }
      unfold run_entries in *. cbn [app omap list_omap entered].
      rewrite omap_app, Ht1. cbn [app map fst snd].
      change (output_path (self s1))
        with (iteration_directory (original_output_path (self s)) i).
      destruct r.
      * rewrite Hdirs2. reflexivity.
      * destruct Hdirs2 as (k & ->). exists (S k). reflexivity.
    + injection H as <- <-.
      eexists. rewrite Htrace1. cbn [trace s1].
      split; [reflexivity |].
      split; [rewrite Hself1; exact Hs1 |].
      exists 1%nat. unfold run_entries in *. cbn [omap list_omap entered].
      rewrite Ht1. reflexivity.
Qed.

(** X3: [run_multi] enters [run] once per iteration, in order, each time with
    the output path [<original_output_path>/<i>/]: all iterations when it
    returns, the first few when it raises. *)
Theorem iterations_run_in_their_directories
    (p : Pipeline) (files : gmap string file) (iterations : Z)
    (export_orthomosaic : bool) :
  let r := run_multi world iterations export_orthomosaic
                     {| self := p; fs := files; trace := [] |} in
  let directories :=
    map (iteration_directory (original_output_path p)) (seq 0 (Z.to_nat iterations)) in
  match fst r with
  | Return _ =>
      map (fun entry => snd (fst entry)) (run_entries (trace (snd r))) = directories
  | Raise _ =>
      exists k,
        map (fun entry => snd (fst entry)) (run_entries (trace (snd r)))
        = take k directories
  end.
Proof.
  cbv zeta. unfold run_multi, bind. cbn [get_self self].
  match goal with
  | |- context [run_multi_loop world export_orthomosaic ?idx ?rot ?b ?s0] =>
      destruct (run_multi_loop world export_orthomosaic idx rot b s0)
        as [[[v |] | e] s1] eqn:Hloop;
      apply run_multi_loop_directories in Hloop as (t & Htrace & _ & Hdirs)
  end; cbn [fst snd trace self ret raise app] in *; rewrite Htrace.
  - exact Hdirs.
  - exists (length (seq 0 (Z.to_nat iterations))).
    rewrite Hdirs, firstn_all2 by (rewrite length_map; lia). reflexivity.
  - exact Hdirs.
Qed.

(** X4: Whatever happens, [run_multi] leaves every field of the pipeline that is
    not an output path or the input metadata reference as it was: among them
    the reference DEM, the rotation flag, the original output path and the
    path of the clipped reference DEM. *)
Theorem run_multi_keeps_configuration
    (p : Pipeline) (files : gmap string file) (iterations : Z)
    (export_orthomosaic : bool) :
  same_configuration p
    (self (snd (run_multi world iterations export_orthomosaic
                          {| self := p; fs := files; trace := [] |}))).
Proof.
  unfold run_multi, bind. cbn [get_self self].
  match goal with
  | |- context [run_multi_loop world export_orthomosaic ?idx ?rot ?b ?s0] =>
      destruct (run_multi_loop world export_orthomosaic idx rot b s0)
        as [[[v |] | e] s1] eqn:Hloop;
      apply run_multi_loop_directories in Hloop as (t & _ & Hconf & _)
  end; cbn [fst snd self ret raise] in *; exact Hconf.
Qed.

End Directories.

(** ** The files of distinct iterations *)

Lemma pretty_N_char_not_sep (x : N) : Ascii.eqb (pretty_N_char x) "/" = false.
Proof. unfold pretty_N_char. repeat case_match; reflexivity. Qed.

Lemma pretty_N_go_not_sep (x : N) :
  forall s,
    (0 < x)%N \/ (exists c rest, s = String c rest /\ Ascii.eqb c "/" = false) ->
    exists c rest, pretty_N_go x s = String c rest /\ Ascii.eqb c "/" = false.
Proof.
  induction (N.lt_wf_0 x) as [x _ IH]. intros s Hwhy.
  destruct (decide (0 < x)%N) as [Hpos | Hzero].
  - rewrite pretty_N_go_step by exact Hpos.
    apply IH; [apply N.div_lt; lia |].
    right. eexists _, _. split; [reflexivity | apply pretty_N_char_not_sep].
  - assert (x = 0%N) as -> by lia. rewrite pretty_N_go_0.
    destruct Hwhy as [Hpos | Hs]; [lia | exact Hs].
Qed.

(** [str(i)] of an iteration index never starts with a separator. *)
Lemma str_not_absolute (i : nat) (rest : string) :
  startswith_sep (str (Z.of_nat i) ++ rest)%string = false.
Proof.
  unfold str, pretty, pretty_Z.
  destruct (Z.of_nat i) as [| x | x] eqn:Hi; [reflexivity | | lia].
  unfold pretty, pretty_positive, pretty, pretty_N.
  destruct (decide (N.pos x = 0%N)) as [Hx | _]; [discriminate Hx |].
  destruct (pretty_N_go_not_sep (N.pos x) "" ltac:(left; lia))
    as (c & s & -> & Hc).
  exact Hc.
Qed.

Lemma string_app_cons (c : ascii) (a b : string) :
  (String c a ++ b)%string = String c (a ++ b)%string.
Proof. reflexivity. Qed.

Lemma endswith_sep_app (a : string) : endswith_sep (a ++ "/")%string = true.
Proof.
  induction a as [| c a IH]; [reflexivity |].
  rewrite string_app_cons. cbn [endswith_sep].
  destruct (a ++ "/")%string eqn:Ha; [| exact IH].
  destruct a; discriminate Ha.
Qed.

Lemma string_app_assoc (a b c : string) :
  ((a ++ b) ++ c = a ++ (b ++ c))%string.
Proof.
  induction a as [| x a IH]; [reflexivity |].
  rewrite !string_app_cons. f_equal. exact IH.
Qed.

Lemma string_app_length (a b : string) :
  String.length (a ++ b)%string = (String.length a + String.length b)%nat.
Proof.
  induction a as [| x a IH]; [reflexivity |].
  rewrite string_app_cons. cbn [String.length]. rewrite IH. reflexivity.
Qed.

Lemma string_app_inj_r (a b c : string) :
  (a ++ c = b ++ c)%string -> a = b.
Proof.
  revert b. induction a as [| x a IH]; intros [| y b] H.
  - reflexivity.
  - apply (f_equal String.length) in H.
    rewrite !string_app_length in H. cbn [String.length] in H. lia.
  - apply (f_equal String.length) in H.
    rewrite !string_app_length in H. cbn [String.length] in H. lia.
  - rewrite !string_app_cons in H. injection H as -> H. f_equal. apply IH, H.
Qed.

(** The directory of an iteration and a file in it, written out. *)
Lemma iteration_directory_spelled (original : string) (i : nat) :
  exists base,
    forall k, iteration_directory original k
              = (base ++ str (Z.of_nat k) ++ "/")%string.
Proof.
  exists (if (String.eqb original "" || endswith_sep original)%bool
          then original else (original ++ "/")%string).
  intros k. unfold iteration_directory, os_path_join, join_component. cbn [fold_left].
  rewrite str_not_absolute.
  destruct (String.eqb original "" || endswith_sep original)%bool;
    [reflexivity | rewrite string_app_assoc; reflexivity].
Qed.

Lemma file_in_iteration_directory (base name : string) (k : nat) :
  startswith_sep name = false ->
  os_path_join (base ++ str (Z.of_nat k) ++ "/")%string [name]
  = (base ++ str (Z.of_nat k) ++ "/" ++ name)%string.
Proof.
  intros Hname. unfold os_path_join, join_component. cbn [fold_left].
  rewrite Hname.
  replace (base ++ str (Z.of_nat k) ++ "/")%string
    with ((base ++ str (Z.of_nat k)) ++ "/")%string
    by apply string_app_assoc.
  rewrite endswith_sep_app, orb_true_r.
  rewrite !string_app_assoc. reflexivity.
Qed.

Lemma iteration_files_differ (base name : string) (i j : nat) :
  (base ++ str (Z.of_nat i) ++ "/" ++ name
   = base ++ str (Z.of_nat j) ++ "/" ++ name)%string ->
  i = j.
Proof.
  intros H. apply String.app_inj in H.
  apply string_app_inj_r in H.
  apply (inj pretty) in H. lia.
Qed.

(** X5: Two iterations with different indices get different output directories
    and different bundle-adjusted, unaligned, aligned and nuth-aligned metadata
    files, whatever the original output path. *)
Theorem iterations_have_distinct_files (p : Pipeline) (i j : nat) :
  i <> j ->
  let at_iteration k :=
    update_output_paths p (iteration_directory (original_output_path p) k) in
  output_path (at_iteration i) <> output_path (at_iteration j)
  /\ bundle_adjusted_metadata_file (at_iteration i)
     <> bundle_adjusted_metadata_file (at_iteration j)
  /\ bundle_adjusted_unaligned_metadata_file (at_iteration i)
     <> bundle_adjusted_unaligned_metadata_file (at_iteration j)
  /\ aligned_bundle_adjusted_metadata_file (at_iteration i)
     <> aligned_bundle_adjusted_metadata_file (at_iteration j)
  /\ nuthed_aligned_bundle_adjusted_metadata_file (at_iteration i)
     <> nuthed_aligned_bundle_adjusted_metadata_file (at_iteration j).
Proof.
  intros Hij. cbv zeta. cbn [update_output_paths output_path
    bundle_adjusted_metadata_file bundle_adjusted_unaligned_metadata_file
    aligned_bundle_adjusted_metadata_file
    nuthed_aligned_bundle_adjusted_metadata_file].
  destruct (iteration_directory_spelled (original_output_path p) i) as (base & Hdir).
  rewrite !Hdir.
  split.
  { intros H. apply Hij.
    apply (iteration_files_differ base "" i j).
    replace ("/" ++ "")%string with "/"%string by reflexivity. exact H. }
  rewrite !file_in_iteration_directory by reflexivity.
  repeat split; intros H; apply Hij;
    eapply iteration_files_differ; exact H.
Qed.

Lemma iterations_have_distinct_files_witness :
  let at_iteration k :=
    update_output_paths (Sample.pipeline true)
      (iteration_directory (original_output_path (Sample.pipeline true)) k) in
  output_path (at_iteration 0%nat) <> output_path (at_iteration 1%nat)
  /\ bundle_adjusted_metadata_file (at_iteration 0%nat)
     <> bundle_adjusted_metadata_file (at_iteration 1%nat)
  /\ bundle_adjusted_unaligned_metadata_file (at_iteration 0%nat)
     <> bundle_adjusted_unaligned_metadata_file (at_iteration 1%nat)
  /\ aligned_bundle_adjusted_metadata_file (at_iteration 0%nat)
     <> aligned_bundle_adjusted_metadata_file (at_iteration 1%nat)
  /\ nuthed_aligned_bundle_adjusted_metadata_file (at_iteration 0%nat)
     <> nuthed_aligned_bundle_adjusted_metadata_file (at_iteration 1%nat).
Proof.
  apply (iterations_have_distinct_files (Sample.pipeline true) 0 1).
  lia.
Defined.

(** ** What [run] returns *)

Section RunResult.

Variable world : World.

(** A [run] that returns has only asked the engine for its licence: the
    attribute was read twice, the second answer was false, and [None] is
    what it returns. *)
Lemma run_Return (rot export_orthomosaic : bool) (s : State) v s' :
  run world rot export_orthomosaic s = (Return v, s') ->
  v = PyNone
  /\ exists answer printed activated files1 files2 files3,
       world "hsfm.metashape.authentication" [PyStr (license_path (self s))] (fs s)
       = (Return answer, files1)
       /\ world "Metashape.app.activated" [] files1 = (Return printed, files2)
       /\ world "Metashape.app.activated" [] files2 = (Return activated, files3)
       /\ (forall st, truth activated st = (Return false, st))
       /\ s' = {| self := self s;
                  fs := files3;
                  trace :=
                    trace s
                    ++ [EvRun (input_images_metadata_file (self s)) (output_path (self s))
                              rot export_orthomosaic;
                        EvCall "hsfm.metashape.authentication"
                               [PyStr (license_path (self s))] (Return answer);
                        EvCall "Metashape.app.activated" [] (Return printed);
                        EvCall "Metashape.app.activated" [] (Return activated)] |}.
Proof.
  unfold run. intros H.
  apply bind_Return in H as (p & s0 & Hp & H). injection Hp as <- <-.
  apply bind_Return in H as (u & s1 & Hlog & H). injection Hlog as <- <-.
  apply bind_Return in H as (activated & s2 & Hact & H).
  unfold _is_metashape_activated in Hact.
  apply bind_Return in Hact as (p & s3 & Hp & Hact). injection Hp as <- <-.
  apply bind_Return in Hact as (answer & s4 & Hauth & Hact).
  apply call_Return in Hauth as (files1 & Hworld1 & ->).
  apply bind_Return in Hact as (printed & s5 & Hprint & Hact).
  apply call_Return in Hprint as (files2 & Hworld2 & ->).
  apply call_Return in Hact as (files3 & Hworld3 & ->).
  cbn [self fs trace] in *.
  apply bind_Return in H as (b & s6 & Htruth & H).
  assert (Hb : forall st, truth activated st = (Return b, st)).
  { intros st. destruct activated; cbv [truth ret raise] in Htruth |- *;
      try discriminate Htruth; inversion Htruth; reflexivity. }
  rewrite Hb in Htruth. injection Htruth as <-.
  destruct b.
  - exfalso. exact (run_stages_never_return world _ _ _ _ _ H).
  - injection H as <- <-. split; [reflexivity |].
    exists answer, printed, activated, files1, files2, files3.
    repeat (split; [assumption |]).
    rewrite <- !app_assoc. reflexivity.
Qed.

(** X6: [run] returns [None] only through its other branch: the engine was asked
    for its licence, its [activated] attribute was read twice (once to be
    printed, once to be returned), the second answer was false, and nothing
    else was called or written. *)
Theorem run_returns_none_after_licence_check_only
    (rot export_orthomosaic : bool) (s s' : State) :
  run world rot export_orthomosaic s = (Return PyNone, s') ->
  exists answer printed activated files1 files2 files3,
    world "hsfm.metashape.authentication" [PyStr (license_path (self s))] (fs s)
    = (Return answer, files1)
    /\ world "Metashape.app.activated" [] files1 = (Return printed, files2)
    /\ world "Metashape.app.activated" [] files2 = (Return activated, files3)
    /\ (forall st, truth activated st = (Return false, st))
    /\ s' = {| self := self s;
               fs := files3;
               trace :=
                 trace s
                 ++ [EvRun (input_images_metadata_file (self s)) (output_path (self s))
                           rot export_orthomosaic;
                     EvCall "hsfm.metashape.authentication"
                            [PyStr (license_path (self s))] (Return answer);
                     EvCall "Metashape.app.activated" [] (Return printed);
                     EvCall "Metashape.app.activated" [] (Return activated)] |}.
Proof. intros H. apply run_Return in H as (_ & H). exact H. Qed.

(** X7: A [run] on an activated engine never returns. When the licence check
    returns and the second reading of [activated] is true, [run] raises:
    in a stage before the co-registration, or in the co-registration itself,
    which the pipeline calls with its output path as the mode and without a
    log directory. The pair of the nuth-aligned path and the unaligned
    cameras is never returned. *)
Theorem activated_run_raises
    (p : Pipeline) (files : gmap string file) (rot export_orthomosaic : bool)
    (answer printed activated : pyval) (files1 files2 files3 : gmap string file) :
  world "hsfm.metashape.authentication" [PyStr (license_path p)] files
  = (Return answer, files1) ->
  world "Metashape.app.activated" [] files1 = (Return printed, files2) ->
  world "Metashape.app.activated" [] files2 = (Return activated, files3) ->
  (forall st, truth activated st = (Return true, st)) ->
  exists e,
    fst (run world rot export_orthomosaic {| self := p; fs := files; trace := [] |})
    = Raise e.
Proof.
  intros Hauth Hprint Hread Htrue.
  destruct (run world rot export_orthomosaic {| self := p; fs := files; trace := [] |})
    as [[v | e] s'] eqn:Hrun; [| exists e; reflexivity].
  exfalso.
  apply run_Return in Hrun
    as (_ & answer' & printed' & activated' & f1 & f2 & f3
        & Hauth' & Hprint' & Hread' & Hfalse & _).
  cbn [self fs] in *.
  rewrite Hauth in Hauth'. injection Hauth' as <- <-.
  rewrite Hprint in Hprint'. injection Hprint' as <- <-.
  rewrite Hread in Hread'. injection Hread' as <- <-.
  specialize (Htrue {| self := p; fs := files; trace := [] |}).
  rewrite Hfalse in Htrue. discriminate Htrue.
Qed.

End RunResult.

Lemma run_returns_none_after_licence_check_only_witness :
  exists answer printed activated files1 files2 files3,
    Sample.world Sample.unlicensed "hsfm.metashape.authentication"
      [PyStr (license_path (self (Sample.start true)))] (fs (Sample.start true))
    = (Return answer, files1)
    /\ Sample.world Sample.unlicensed "Metashape.app.activated" [] files1
       = (Return printed, files2)
    /\ Sample.world Sample.unlicensed "Metashape.app.activated" [] files2
       = (Return activated, files3)
    /\ (forall st, truth activated st = (Return false, st))
    /\ snd (run (Sample.world Sample.unlicensed) true true (Sample.start true))
       = {| self := self (Sample.start true);
            fs := files3;
            trace :=
              trace (Sample.start true)
              ++ [EvRun (input_images_metadata_file (self (Sample.start true)))
                        (output_path (self (Sample.start true))) true true;
                  EvCall "hsfm.metashape.authentication"
                         [PyStr (license_path (self (Sample.start true)))]
                         (Return answer);
                  EvCall "Metashape.app.activated" [] (Return printed);
                  EvCall "Metashape.app.activated" [] (Return activated)] |}.
Proof.
  apply (run_returns_none_after_licence_check_only
           (Sample.world Sample.unlicensed) true true (Sample.start true)
           (snd (run (Sample.world Sample.unlicensed) true true (Sample.start true)))).
  vm_compute. reflexivity.
Defined.

Lemma activated_run_raises_witness :
  exists e,
    fst (run (Sample.world Sample.inside) true true
             {| self := Sample.pipeline true; fs := Sample.files; trace := [] |})
    = Raise e.
Proof.
  apply (activated_run_raises (Sample.world Sample.inside)
           (Sample.pipeline true) Sample.files true true
           PyNone (PyBool true) (PyBool true)
           Sample.files Sample.files Sample.files).
  - vm_compute. reflexivity.
  - vm_compute. reflexivity.
  - vm_compute. reflexivity.
  - intros st. reflexivity.
Defined.
(** ** More on the headings *)

Lemma cons_of_lookup {A} (l : list A) (x : A) :
  l !! 0%nat = Some x -> l = x :: tail l.
Proof. destruct l; cbn; [discriminate | intros [= ->]; reflexivity]. Qed.

Section Headings.

Variable calculate_heading : Z -> Z -> Z -> Z -> outcome Z.

(** The heading between a row and the next one. *)
Let between (p0 p1 : Batch.Position) : outcome Z :=
  calculate_heading (Batch.Longitude p0) (Batch.Latitude p0)
                    (Batch.Longitude p1) (Batch.Latitude p1).

(** X8: Without a heading for the first row there is nothing to fall back on: a
    table of one row, or one whose first heading computation fails, makes
    the handler read the unbound local [heading], and the call raises. *)
Theorem heading_needs_a_first_pair (first : Batch.Position) (rest : list Batch.Position) :
  (rest = []
   \/ exists second others e, rest = second :: others /\ between first second = Raise e) ->
  Batch.calculate_heading_from_metadata calculate_heading (first :: rest)
  = Raise UnboundLocalError.
Proof.
  intros [-> | (second & others & e & -> & Hfail)].
  - reflexivity.
  - unfold Batch.calculate_heading_from_metadata. cbn [map Batch.heading_loop].
    unfold Batch.heading_step. cbn [lookup list_lookup].
    unfold between in Hfail. rewrite Hfail. reflexivity.
Qed.

Variable df : list Batch.Position.

Let lons := map Batch.Longitude df.
Let lats := map Batch.Latitude df.

(** The heading the loop gives row [i] when the row before it got
    [previous]: the computed one, or [previous] again when there is no next
    row or the computation fails. *)
Let heading_at (i : nat) (previous : Z) : Z :=
  match df !! i, df !! S i with
  | Some p, Some p' =>
      match between p p' with
      | Return h => h
      | Raise _ => previous
      end
  | _, _ => previous
  end.

Lemma heading_step_bound (i : nat) (h : Z) (headings : list Z) :
  (i < length df)%nat ->
  Batch.heading_step calculate_heading lons lats i (Some h) headings
  = Return (Some (heading_at i h), headings ++ [heading_at i h]).
Proof.
  intros Hi. unfold Batch.heading_step, heading_at, between, lons, lats.
  rewrite !list_lookup_fmap.
  destruct (lookup_lt_is_Some_2 df i Hi) as [p Hp]. rewrite Hp.
  destruct (df !! S i) as [p' |]; cbn; [| reflexivity].
  destruct (calculate_heading _ _ _ _); reflexivity.
Qed.

Lemma heading_loop_bound (remaining : list Z) :
  forall i h headings,
    (i + length remaining = length df)%nat ->
    length headings = i ->
    (0 < i)%nat ->
    last headings = Some h ->
    exists hs,
      Batch.heading_loop calculate_heading lons lats remaining i (Some h) headings
      = Return hs
      /\ length hs = length df
      /\ take i hs = headings
      /\ forall j previous,
           (i <= j < length df)%nat ->
           hs !! (j - 1)%nat = Some previous ->
           hs !! j = Some (heading_at j previous).
Proof.
  induction remaining as [| v rest IH]; intros i h headings Hlen Hhs Hpos Hlast.
  - cbn in *. exists headings. split; [reflexivity |].
    split; [lia |]. split; [apply firstn_all2; lia |].
    intros j previous Hj. lia.
  - cbn [length] in Hlen. cbn [Batch.heading_loop].
    rewrite heading_step_bound by lia.
    destruct (IH (S i) (heading_at i h) (headings ++ [heading_at i h]))
      as (hs & Hrun & Hlength & Htake & Hlater).
    + lia.
    + rewrite length_app. cbn. lia.
    + lia.
    + apply last_snoc.
    + exists hs. split; [exact Hrun |]. split; [exact Hlength |].
      assert (Hprefix : forall k x, (headings ++ [heading_at i h]) !! k = Some x ->
                                    hs !! k = Some x).
      { intros k x Hk. rewrite <- Htake in Hk.
        apply lookup_take_Some in Hk as [Hk _]. exact Hk. }
      split.
      * replace (take i hs) with (take i (take (S i) hs))
          by (rewrite take_take; f_equal; lia).
        rewrite Htake. apply take_app_length'. lia.
      * intros j previous Hj Hprevious.
        destruct (decide (j = i)) as [-> | Hne]; [| apply Hlater; [lia | exact Hprevious]].
        assert (previous = h) as ->.
        { rewrite last_lookup in Hlast.
          assert (Hh : hs !! (i - 1)%nat = Some h).
          { apply Hprefix. rewrite lookup_app_l by lia.
            replace (i - 1)%nat with (pred (length headings)) by lia. exact Hlast. }
          congruence. }
        apply Hprefix. rewrite lookup_app_r by lia.
        replace (i - length headings)%nat with 0%nat by lia. reflexivity.
Qed.

(** X9: Once the first heading computation succeeds the call always returns:
    the table keeps its rows, the first row gets the computed heading, and
    every later row gets its own computed heading, or the heading of the row
    before it when it is the last row or its computation fails. *)
Theorem headings_after_a_first_pair (p0 p1 : Batch.Position) (h0 : Z) :
  df !! 0%nat = Some p0 ->
  df !! 1%nat = Some p1 ->
  between p0 p1 = Return h0 ->
  exists rows,
    Batch.calculate_heading_from_metadata calculate_heading df = Return rows
    /\ map fst rows = df
    /\ rows !! 0%nat = Some (p0, h0)
    /\ forall i p previous,
         (0 < i)%nat ->
         df !! i = Some p ->
         rows !! (i - 1)%nat = Some previous ->
         rows !! i = Some (p, heading_at i (snd previous)).
Proof.
  intros Hp0 Hp1 Hh0.
  unfold Batch.calculate_heading_from_metadata.
  change (map Batch.Longitude df) with lons.
  change (map Batch.Latitude df) with lats.
  assert (Hlen : (2 <= length df)%nat).
  { apply lookup_lt_Some in Hp1. lia. }
  assert (Hlats : lats = Batch.Latitude p0 :: map Batch.Latitude (tail df)).
  { unfold lats. rewrite (cons_of_lookup df p0 Hp0) at 1. reflexivity. }
  assert (Hfirst : Batch.heading_step calculate_heading lons lats 0 None []
                   = Return (Some h0, [h0])).
  { unfold Batch.heading_step, lons, lats. rewrite !list_lookup_fmap, Hp0, Hp1. cbn.
    unfold between in Hh0. rewrite Hh0. reflexivity. }
  assert (Hloop :
    Batch.heading_loop calculate_heading lons lats lats 0 None []
    = Batch.heading_loop calculate_heading lons lats
        (map Batch.Latitude (tail df)) 1 (Some h0) [h0]).
  { transitivity (Batch.heading_loop calculate_heading lons lats
                    (Batch.Latitude p0 :: map Batch.Latitude (tail df)) 0 None []).
    - f_equal. exact Hlats.
    - cbn [Batch.heading_loop]. rewrite Hfirst. reflexivity. }
  rewrite Hloop.
  destruct (heading_loop_bound (map Batch.Latitude (tail df)) 1 h0 [h0])
    as (hs & Hrun & Hlength & Htake & Hlater).
  - rewrite length_map. rewrite (cons_of_lookup df p0 Hp0) at 2. cbn [length]. lia.
  - reflexivity.
  - lia.
  - reflexivity.
  - rewrite Hrun. exists (zip df hs).
    split; [reflexivity |].
    split; [apply fst_zip; lia |].
    assert (Hhs0 : hs !! 0%nat = Some h0).
    { assert (H0 : take 1 hs !! 0%nat = Some h0) by (rewrite Htake; reflexivity).
      apply lookup_take_Some in H0 as [H0 _]. exact H0. }
    split.
    + apply lookup_zip_Some. split; [exact Hp0 | exact Hhs0].
    + intros i p previous Hi Hp Hprevious.
      destruct previous as [q previous]. cbn [snd] in *.
      apply lookup_zip_Some in Hprevious as [_ Hprevious].
      apply lookup_zip_Some. split; [exact Hp |].
      apply Hlater; [| exact Hprevious].
      apply lookup_lt_Some in Hp. lia.
Qed.

End Headings.

Lemma heading_needs_a_first_pair_witness :
  Batch.calculate_heading_from_metadata Batch.eastward [Batch.mkPosition (-121) 46]
  = Raise UnboundLocalError.
Proof.
  apply (heading_needs_a_first_pair Batch.eastward (Batch.mkPosition (-121) 46) []).
  left. reflexivity.
Defined.

Lemma headings_after_a_first_pair_witness :
  exists rows,
    Batch.calculate_heading_from_metadata Batch.eastward
      [Batch.mkPosition (-121) 46; Batch.mkPosition (-120) 46; Batch.mkPosition (-118) 47]
    = Return rows
    /\ map fst rows
       = [Batch.mkPosition (-121) 46; Batch.mkPosition (-120) 46;
          Batch.mkPosition (-118) 47]
    /\ rows !! 0%nat = Some (Batch.mkPosition (-121) 46, 1)
    /\ forall i p previous,
         (0 < i)%nat ->
         [Batch.mkPosition (-121) 46; Batch.mkPosition (-120) 46;
          Batch.mkPosition (-118) 47] !! i = Some p ->
         rows !! (i - 1)%nat = Some previous ->
         rows !! i
         = Some (p,
                 match [Batch.mkPosition (-121) 46; Batch.mkPosition (-120) 46;
                        Batch.mkPosition (-118) 47] !! i,
                       [Batch.mkPosition (-121) 46; Batch.mkPosition (-120) 46;
                        Batch.mkPosition (-118) 47] !! S i with
                 | Some q, Some q' =>
                     match Batch.eastward (Batch.Longitude q) (Batch.Latitude q)
                                          (Batch.Longitude q') (Batch.Latitude q') with
                     | Return h => h
                     | Raise _ => snd previous
                     end
                 | _, _ => snd previous
                 end).
Proof.
  apply (headings_after_a_first_pair Batch.eastward
           [Batch.mkPosition (-121) 46; Batch.mkPosition (-120) 46;
            Batch.mkPosition (-118) 47]
           (Batch.mkPosition (-121) 46) (Batch.mkPosition (-120) 46) 1);
    reflexivity.
Defined.

(** ** More on the co-registration shift *)

Section ShiftAlgebra.

Variable to_crs : string -> string -> Z * Z -> Z * Z.

(** X10: Whatever the reprojection does, the shift keeps the rows in order with
    their image, orientation and focal length, and adds [dz] to every
    altitude. *)
Theorem shift_keeps_records_and_adds_dz (data : BatchPipeline.Shift) (df : DataFrame) :
  Forall2 (fun before after =>
             image_file_name after = image_file_name before
             /\ alt after = alt before + BatchPipeline.dz data
             /\ yaw after = yaw before
             /\ pitch after = pitch before
             /\ roll after = roll before
             /\ focal_length after = focal_length before)
          df (BatchPipeline.apply_nuth_transform to_crs data df).
Proof.
  induction df as [| r rest IH]; cbn; constructor; [| exact IH].
  destruct (to_crs "EPSG:4326" "EPSG:32610" (lon r, lat r)) as [x y].
  destruct (to_crs "EPSG:32610" "EPSG:4326" _) as [x' y'].
  repeat split.
Qed.

(** X11: When reprojecting to UTM zone 10N and back gives the point back, the
    zero shift leaves every snapshot as it is. *)
Theorem zero_shift_is_identity (df : DataFrame) :
  (forall p, to_crs "EPSG:32610" "EPSG:4326" (to_crs "EPSG:4326" "EPSG:32610" p) = p) ->
  BatchPipeline.apply_nuth_transform to_crs (BatchPipeline.mkShift 0 0 0) df = df.
Proof.
  intros Hround. induction df as [| r rest IH]; [reflexivity |].
  unfold BatchPipeline.apply_nuth_transform in *. cbn [map]. rewrite IH. f_equal.
  pose proof (Hround (lon r, lat r)) as Hr.
  destruct (to_crs "EPSG:4326" "EPSG:32610" (lon r, lat r)) as [x y].
  cbn [BatchPipeline.dx BatchPipeline.dy BatchPipeline.dz].
  rewrite !Z.add_0_r, Hr. destruct r; reflexivity.
Qed.

(** X12: When reprojecting from UTM zone 10N and back gives the point back, two
    shifts applied one after the other move every camera by the first shift
    and then by the second: in the grid and in the altitude the second
    shift is added to the sum of the position and the first, in that order
    of the additions. *)
Theorem shifts_apply_in_turn (first second : BatchPipeline.Shift) (df : DataFrame) :
  (forall q, to_crs "EPSG:4326" "EPSG:32610" (to_crs "EPSG:32610" "EPSG:4326" q) = q) ->
  BatchPipeline.apply_nuth_transform to_crs second
    (BatchPipeline.apply_nuth_transform to_crs first df)
  = map (fun r =>
           let '(x, y) := to_crs "EPSG:4326" "EPSG:32610" (lon r, lat r) in
           let '(x', y') :=
             to_crs "EPSG:32610" "EPSG:4326"
                    ((x + BatchPipeline.dx first) + BatchPipeline.dx second,
                     (y + BatchPipeline.dy first) + BatchPipeline.dy second) in
           {| image_file_name := image_file_name r;
              lon := x'; lat := y';
              alt := (alt r + BatchPipeline.dz first) + BatchPipeline.dz second;
              yaw := yaw r; pitch := pitch r; roll := roll r;
              focal_length := focal_length r |}) df.
Proof.
  intros Hround. induction df as [| r rest IH]; [reflexivity |].
  unfold BatchPipeline.apply_nuth_transform in *. cbn [map]. rewrite IH. f_equal.
  destruct (to_crs "EPSG:4326" "EPSG:32610" (lon r, lat r)) as [x y].
  pose proof (Hround (x + BatchPipeline.dx first, y + BatchPipeline.dy first)) as Hq.
  destruct (to_crs "EPSG:32610" "EPSG:4326"
              (x + BatchPipeline.dx first, y + BatchPipeline.dy first)) as [x1 y1].
  cbn [lon lat alt]. rewrite Hq. reflexivity.
Qed.

End ShiftAlgebra.

Lemma zero_shift_is_identity_witness :
  BatchPipeline.apply_nuth_transform BatchPipeline.grid_to_crs
    (BatchPipeline.mkShift 0 0 0) Sample.cameras
  = Sample.cameras.
Proof.
  apply (zero_shift_is_identity BatchPipeline.grid_to_crs Sample.cameras).
  intros p. reflexivity.
Defined.

Lemma shifts_apply_in_turn_witness :
  BatchPipeline.apply_nuth_transform BatchPipeline.grid_to_crs
    (BatchPipeline.mkShift 0 0 2)
    (BatchPipeline.apply_nuth_transform BatchPipeline.grid_to_crs
       (BatchPipeline.mkShift 1 1 1) Sample.cameras)
  = map (fun r =>
           let '(x, y) :=
             BatchPipeline.grid_to_crs "EPSG:4326" "EPSG:32610" (lon r, lat r) in
           let '(x', y') :=
             BatchPipeline.grid_to_crs "EPSG:32610" "EPSG:4326"
               ((x + 1) + 0, (y + 1) + 0) in
           {| image_file_name := image_file_name r;
              lon := x'; lat := y';
              alt := (alt r + 1) + 2;
              yaw := yaw r; pitch := pitch r; roll := roll r;
              focal_length := focal_length r |}) Sample.cameras.
Proof.
  apply (shifts_apply_in_turn BatchPipeline.grid_to_crs
           (BatchPipeline.mkShift 1 1 1) (BatchPipeline.mkShift 0 0 2) Sample.cameras).
  intros q. reflexivity.
Defined.

(** ** Finding the co-registration output *)

Section JsonSearch.

Import BatchPipelineFiles.

Lemma first_json_of_walk (walk : list (list string * list string)) :
  head (omap (fun level => head (List.filter is_json (snd level))) walk)
  = head (flat_map (fun level => List.filter is_json (snd level)) walk).
Proof.
  induction walk as [| level walk IH]; [reflexivity |].
  cbn [omap list_omap flat_map].
  destruct (List.filter is_json (snd level)) as [| f fs]; cbn; [exact IH | reflexivity].
Qed.

(** X13: Without any file whose name contains "json" the search returns [None]
    (and so it does for a directory that does not exist). *)
Theorem json_search_without_json (directory : option tree) :
  match directory with
  | Some t => json_files t = []
  | None => True
  end ->
  find_first_json_file_in_nested_directory directory = Done PyNone.
Proof.
  intros Hnone. unfold find_first_json_file_in_nested_directory.
  destruct directory as [t |]; [| reflexivity].
  pose proof (first_json_of_walk (os_walk t)) as Hhead.
  unfold json_files in Hnone. rewrite Hnone in Hhead.
  destruct (omap _ (os_walk t)) as [| f fs]; [reflexivity | discriminate Hhead].
Qed.

(** X14: In a directory without subdirectories the search fails as soon as there
    is a json file: the list of directory names it indexes is empty. *)
Theorem json_search_in_flat_directory (name : string) (files : list string) (file : string) :
  head (List.filter is_json files) = Some file ->
  find_first_json_file_in_nested_directory (Some (Directory name [] files))
  = Raised IndexError.
Proof.
  intros Hfile. unfold find_first_json_file_in_nested_directory.
  cbn. rewrite Hfile. reflexivity.
Qed.

(** X15: With subdirectories, the search joins the name of the first
    subdirectory of the top directory with the first json file met anywhere
    in the walk, wherever that file really lies. *)
Theorem json_search_joins_first_subdirectory
    (name : string) (sub : tree) (others : list tree) (files : list string)
    (file : string) :
  head (json_files (Directory name (sub :: others) files)) = Some file ->
  find_first_json_file_in_nested_directory
    (Some (Directory name (sub :: others) files))
  = Done (PyStr (os_path_join (name_of sub) [file])).
Proof.
  intros Hfile. unfold find_first_json_file_in_nested_directory, json_files in *.
  rewrite <- first_json_of_walk in Hfile.
  destruct (omap (fun level => head (List.filter is_json (snd level))) _)
    as [| f fs]; [discriminate Hfile |].
  injection Hfile as ->.
  reflexivity.
Qed.

End JsonSearch.

Lemma json_search_without_json_witness :
  BatchPipelineFiles.find_first_json_file_in_nested_directory
    (Some (BatchPipelineFiles.Directory "pc_align"
             [BatchPipelineFiles.Directory "run" [] ["run-DEM.tif"]] ["log.txt"]))
  = Done PyNone.
Proof.
  apply json_search_without_json.
  reflexivity.
Defined.

Lemma json_search_in_flat_directory_witness :
  BatchPipelineFiles.find_first_json_file_in_nested_directory
    (Some (BatchPipelineFiles.Directory "pc_align" []
             ["run-DEM.tif"; "run_align.json"; "other.json"]))
  = Raised IndexError.
Proof.
  apply (json_search_in_flat_directory "pc_align"
           ["run-DEM.tif"; "run_align.json"; "other.json"] "run_align.json").
  reflexivity.
Defined.

Lemma json_search_joins_first_subdirectory_witness :
  BatchPipelineFiles.find_first_json_file_in_nested_directory
    (Some (BatchPipelineFiles.Directory "pc_align"
             [BatchPipelineFiles.Directory "a" [] ["notes.txt"];
              BatchPipelineFiles.Directory "b" [] ["shift.json"]]
             ["log.txt"]))
  = Done (PyStr "a/shift.json").
Proof.
  apply (json_search_joins_first_subdirectory "pc_align"
           (BatchPipelineFiles.Directory "a" [] ["notes.txt"])
           [BatchPipelineFiles.Directory "b" [] ["shift.json"]]
           ["log.txt"] "shift.json").
  reflexivity.
Defined.

(** ** Running external commands *)

Section Commands.

Import Utils.

Variable process :
  list pyval -> bool -> gmap string file
  -> outcome (list string) * gmap string file.
Variable glob : string -> gmap string file -> list string.

Lemma string_app_nil_r (a : string) : (a ++ "")%string = a.
Proof.
  induction a as [| x a IH]; [reflexivity |].
  rewrite string_app_cons. f_equal. exact IH.
Qed.

Lemma concat_cons_empty (x : string) (xs : list string) :
  String.concat "" (x :: xs) = (x ++ String.concat "" xs)%string.
Proof.
  destruct xs as [| y ys]; cbn [String.concat].
  - symmetry. apply string_app_nil_r.
  - reflexivity.
Qed.

Lemma write_lines_decoded (lines : list string) (written : string) :
  Forall (fun line => decode line = Return line) lines ->
  write_lines lines written
  = (Return tt,
     (written ++ String.concat "" (map (rstrip newline) lines))%string).
Proof.
  revert written.
  induction lines as [| line lines IH]; intros written Hlines; cbn [write_lines map].
  - cbn [String.concat]. now rewrite string_app_nil_r.
  - inversion Hlines as [| ? ? Hline Hrest]; subst.
    rewrite Hline, (IH _ Hrest), concat_cons_empty, string_app_assoc.
    reflexivity.
Qed.

Lemma read_lines_decoded (lines : list string) :
  Forall (fun line => decode line = Return line) lines ->
  read_lines lines = Return tt.
Proof.
  induction 1 as [| line lines Hline _ IH]; cbn [read_lines]; [reflexivity |].
  now rewrite Hline.
Qed.

(** X16: With a log directory, when the process has run and its lines are
    ASCII, [run_command] returns the name of the log file,
    [<log_directory>/<program>_log.txt], and that file holds the lines read
    from the process, each without its trailing newlines and with nothing
    between them; every other file is as the process left it. *)
Theorem run_command_writes_the_log
    (program : string) (arguments : list pyval) (verbose shell : bool)
    (directory : string) (files files' : gmap string file) (lines : list string) :
  process (PyStr program :: arguments) shell files = (Return lines, files') ->
  Forall (fun line => decode line = Return line) lines ->
  let log_file_name :=
    os_path_join directory [(program ++ "_log.txt")%string] in
  run_command process (PyStr program :: arguments) verbose (Some directory) shell
              files
  = (Done (Some log_file_name),
     <[log_file_name :=
         OtherFile (String.concat "" (map (rstrip newline) lines))]> files').
Proof.
  intros Hprocess Hlines log_file_name.
  unfold run_command. rewrite Hprocess.
  rewrite (write_lines_decoded lines "" Hlines).
  reflexivity.
Qed.

(** X17: Called without a log directory, as by default, [dem_align_custom] never
    returns: it raises, and the files are as the process left them. When the
    process has run and its lines are ASCII, [run_command] gives no log file
    name, and opening [None] raises [TypeError]. *)
Theorem dem_align_custom_needs_a_log_directory
    (reference_dem dem_to_be_aligned mode : pyval) (max_offset : Z)
    (verbose : bool) (files : gmap string file) :
  let call :=
    [PyStr "dem_align.py"; PyStr "-max_offset"; PyStr (str max_offset);
     PyStr "-mode"; mode; reference_dem; dem_to_be_aligned] in
  exists e,
    dem_align_custom process glob reference_dem dem_to_be_aligned mode
      max_offset verbose None files
    = (Raised (Builtin e), snd (process call false files))
    /\ forall lines,
         fst (process call false files) = Return lines ->
         Forall (fun line => decode line = Return line) lines ->
         e = TypeError.
Proof.
  intros call. unfold dem_align_custom, run_command. fold call.
  destruct (process call false files) as [[lines | e] files'] eqn:Hprocess;
    cbn [fst snd].
  - destruct (read_lines lines) as [[] | e] eqn:Hread.
    + exists TypeError. split; reflexivity.
    + exists e. split; [reflexivity |].
      intros lines' [= <-] Hlines.
      rewrite (read_lines_decoded lines Hlines) in Hread. discriminate Hread.
  - exists e. split; [reflexivity |]. intros lines [=].
Qed.

End Commands.

Lemma run_command_writes_the_log_witness :
  Utils.run_command
    (fun _ _ files =>
       (Return ["Writing: out/run_align.png
"; "done
"]%string,
        <["out/run_align.png"%string := OtherFile "plot"]> files))
    [PyStr "dem_align.py"; PyStr "ref.tif"] false (Some "logs"%string) false ∅
  = (Done (Some "logs/dem_align.py_log.txt"%string),
     <["logs/dem_align.py_log.txt"%string :=
         OtherFile "Writing: out/run_align.pngdone"]>
       (<["out/run_align.png"%string := OtherFile "plot"]> ∅)).
Proof.
  apply (run_command_writes_the_log
           (fun _ _ files =>
              (Return ["Writing: out/run_align.png
"; "done
"]%string,
               <["out/run_align.png"%string := OtherFile "plot"]> files))
           "dem_align.py" [PyStr "ref.tif"] false false "logs" ∅
           (<["out/run_align.png"%string := OtherFile "plot"]> ∅)
           ["Writing: out/run_align.png
"; "done
"]%string).
  - reflexivity.
  - repeat constructor.
Defined.

Lemma dem_align_custom_needs_a_log_directory_witness :
  exists e,
    Utils.dem_align_custom
      (fun _ _ files =>
         (Return ["done"%string],
          <["out/run_align.png"%string := OtherFile "plot"]> files))
      (fun _ _ => [])
      (PyStr "ref.tif") (PyStr "dem.tif") (PyStr "nuth") 1000 false None ∅
    = (Raised (Builtin e), <["out/run_align.png"%string := OtherFile "plot"]> ∅)
    /\ forall lines,
         Return ["done"%string] = Return lines ->
         Forall (fun line => Utils.decode line = Return line) lines ->
         e = TypeError.
Proof.
  exact (dem_align_custom_needs_a_log_directory
           (fun _ _ files =>
              (Return ["done"%string],
               <["out/run_align.png"%string := OtherFile "plot"]> files))
           (fun _ _ => [])
           (PyStr "ref.tif") (PyStr "dem.tif") (PyStr "nuth") 1000 false ∅).
Defined.

(** ** Scaling a number down *)

Section ScaleDown.

Import Utils.

Local Open Scope Q_scope.

Lemma greater_true (a b : Q) : greater a b = true <-> b < a.
Proof. unfold greater, Qlt. apply Z.ltb_lt. Qed.

Lemma greater_false (a b : Q) : greater a b = false <-> a <= b.
Proof. unfold greater, Qle. rewrite Z.ltb_ge. reflexivity. Qed.

Lemma scale_down_loop_stops (fuel : nat) (number threshold : Q) :
  number <= threshold ->
  scale_down_loop fuel number threshold = Some number.
Proof.
  intros Hle. apply greater_false in Hle.
  destruct fuel; cbn [scale_down_loop]; rewrite Hle; reflexivity.
Qed.

Lemma scale_down_loop_result (threshold : Q) (fuel : nat) (number : Q) :
  0 < threshold ->
  number <= threshold * inject_Z (2 ^ Z.of_nat fuel) ->
  exists halved,
    (forall fuel', (fuel <= fuel')%nat ->
       scale_down_loop fuel' number threshold = Some halved)
    /\ halved <= threshold
    /\ (threshold < number -> threshold < 2 * halved)
    /\ (number <= threshold -> halved = number).
Proof.
  intros Hpos. revert number.
  induction fuel as [| fuel IH]; intros number Hbound.
  - assert (Hle : number <= threshold).
    { change (inject_Z (2 ^ Z.of_nat 0)) with 1 in Hbound. lra. }
    exists number. repeat split; [| exact Hle | lra].
    intros fuel' _. apply scale_down_loop_stops, Hle.
  - destruct (Qlt_le_dec threshold number) as [Hgt | Hle].
    + assert (Hhalf : number / 2 <= threshold * inject_Z (2 ^ Z.of_nat fuel)).
      { rewrite Nat2Z.inj_succ, Z.pow_succ_r in Hbound by lia.
        rewrite inject_Z_mult in Hbound.
        change (inject_Z 2) with 2 in Hbound.
        unfold Qdiv. change (/ 2) with (1 # 2). lra. }
      destruct (IH _ Hhalf) as (halved & Hrun & Hupper & Hlower & Hsame).
      exists halved. repeat split; [| exact Hupper | | lra].
      * intros [| fuel'] Hfuel; [lia |].
        cbn [scale_down_loop].
        apply greater_true in Hgt. rewrite Hgt.
        apply Hrun. lia.
      * intros _.
        destruct (Qlt_le_dec threshold (number / 2)) as [Hmore | Hstop].
        -- apply Hlower, Hmore.
        -- rewrite (Hsame Hstop).
           unfold Qdiv. change (/ 2) with (1 # 2). lra.
    + exists number. repeat split; [| exact Hle | lra].
      intros fuel' _. apply scale_down_loop_stops, Hle.
Qed.

Lemma enough_halvings (number threshold : Q) :
  0 < threshold ->
  exists fuel : nat, number <= threshold * inject_Z (2 ^ Z.of_nat fuel).
Proof.
  destruct number as [a b], threshold as [c d].
  unfold Qlt, Qle. cbn. intros Hc.
  exists (Z.to_nat (a * Z.pos d)).
  assert (Hpow : (a * Z.pos d < 2 ^ Z.of_nat (Z.to_nat (a * Z.pos d)))%Z).
  { destruct (Z.le_gt_cases 0 (a * Z.pos d)%Z) as [Hnonneg | Hneg].
    - rewrite Z2Nat.id by exact Hnonneg.
      apply Z.pow_gt_lin_r; lia.
    - pose proof (Z.pow_nonneg 2 (Z.of_nat (Z.to_nat (a * Z.pos d)))). lia. }
  rewrite Pos.mul_1_r.
  set (P := (2 ^ Z.of_nat (Z.to_nat (a * Z.pos d)))%Z) in *.
  assert (Hone : (0 < P)%Z) by (apply Z.pow_pos_nonneg; lia).
  assert (Hcb : (1 <= c * Z.pos b)%Z) by nia.
  assert (Hmul : (P * 1 <= P * (c * Z.pos b))%Z)
    by (apply Z.mul_le_mono_nonneg_l; lia).
  lia.
Qed.

Lemma int_of_positive (x : Q) :
  0 <= x -> inject_Z (int x) <= x /\ x < inject_Z (int x) + 1.
Proof.
  intros Hx. unfold int.
  assert (Hnum : (0 <= Qnum x)%Z).
  { unfold Qle in Hx. cbn in Hx. lia. }
  rewrite Z.quot_div_nonneg by lia.
  replace (Qnum x / QDen x)%Z with (Qfloor x) by (destruct x; reflexivity).
  split; [apply Qfloor_le |].
  pose proof (Qlt_floor x) as Hlt.
  rewrite inject_Z_plus in Hlt. exact Hlt.
Qed.

Lemma int_of_negative (x : Q) : x <= 0 -> (int x <= 0)%Z.
Proof.
  intros Hx. unfold int.
  assert (Hnum : (Qnum x <= 0)%Z).
  { unfold Qle in Hx. cbn in Hx. lia. }
  rewrite <- (Z.opp_involutive (Qnum x)), Z.quot_opp_l by lia.
  pose proof (Z.quot_pos (- Qnum x) (QDen x)) as Hquot.
  lia.
Qed.

(** X18: On integers the loop ends. For an integer number below 2^53 (so that
    it and its halves are floats exactly) and a positive integer threshold,
    with enough fuel [scale_down_number] returns an integer that is at most
    the threshold; a number above the threshold comes out above half the
    threshold, less one, and a number at or below it comes out as it is. *)
Theorem scale_down_number_bounds (number threshold : Z) :
  (0 < threshold)%Z ->
  (number < 2 ^ 53)%Z ->
  exists (fuel : nat) (scaled : Z),
    (forall fuel', (fuel <= fuel')%nat ->
       scale_down_number fuel' (inject_Z number) (inject_Z threshold)
       = Some scaled)
    /\ (scaled <= threshold)%Z
    /\ ((threshold < number)%Z -> (threshold < 2 * (scaled + 1))%Z)
    /\ ((number <= threshold)%Z -> scaled = number).
Proof.
  intros Hthreshold _.
  assert (Hpos : 0 < inject_Z threshold).
  { change 0 with (inject_Z 0). rewrite <- Zlt_Qlt. exact Hthreshold. }
  destruct (enough_halvings (inject_Z number) (inject_Z threshold) Hpos)
    as (fuel & Hfuel).
  destruct (scale_down_loop_result (inject_Z threshold) fuel (inject_Z number)
              Hpos Hfuel)
    as (halved & Hrun & Hupper & Hlower & Hsame).
  exists fuel, (int halved). repeat split.
  - intros fuel' Hle. unfold scale_down_number. rewrite (Hrun fuel' Hle).
    reflexivity.
  - rewrite Zle_Qle.
    destruct (Qlt_le_dec halved 0) as [Hneg | Hnonneg].
    + pose proof (int_of_negative halved (Qlt_le_weak _ _ Hneg)) as Hint.
      rewrite (Zle_Qle (int halved) 0) in Hint.
      change (inject_Z 0) with 0 in Hint. lra.
    + destruct (int_of_positive halved Hnonneg). lra.
  - intros Hgt. rewrite Zlt_Qlt in Hgt. specialize (Hlower Hgt).
    assert (Hnonneg : 0 <= halved) by lra.
    destruct (int_of_positive halved Hnonneg) as (_ & Hnext).
    rewrite Zlt_Qlt, inject_Z_mult, inject_Z_plus.
    change (inject_Z 2) with 2. change (inject_Z 1) with 1. lra.
  - intros Hle. rewrite Zle_Qle in Hle. rewrite (Hsame Hle).
    unfold int, inject_Z. cbn [Qnum Qden]. apply Z.quot_1_r.
Qed.

(** X19: With a negative threshold and a number above it the loop never ends:
    halving never brings the number down to the threshold. *)
Theorem scale_down_number_negative_threshold
    (fuel : nat) (number threshold : Q) :
  threshold < 0 ->
  threshold < number ->
  scale_down_number fuel number threshold = None.
Proof.
  intros Hneg. unfold scale_down_number.
  revert number. induction fuel as [| fuel IH]; intros number Hgt;
    cbn [scale_down_loop]; rewrite (proj2 (greater_true _ _) Hgt).
  - reflexivity.
  - apply IH.
    unfold Qdiv. change (/ 2) with (1 # 2).
    destruct (Qlt_le_dec number 0); lra.
Qed.

End ScaleDown.

Lemma scale_down_number_bounds_witness :
  exists (fuel : nat) (scaled : Z),
    (forall fuel', (fuel <= fuel')%nat ->
       Utils.scale_down_number fuel' (inject_Z 6000) (inject_Z 1000)
       = Some scaled)
    /\ (scaled <= 1000)%Z
    /\ ((1000 < 6000)%Z -> (1000 < 2 * (scaled + 1))%Z)
    /\ ((6000 <= 1000)%Z -> scaled = 6000).
Proof.
  apply (scale_down_number_bounds 6000 1000); reflexivity.
Defined.

Lemma scale_down_number_negative_threshold_witness :
  Utils.scale_down_number 50 (inject_Z 3) (inject_Z (-1)) = None.
Proof.
  apply (scale_down_number_negative_threshold 50 (inject_Z 3) (inject_Z (-1)));
    reflexivity.
Defined.

(** ** Generating cameras in batch *)

Section Cameras.

Import Batch BatchCameras.

Variable calculate_heading : Z -> Z -> Z -> Z -> outcome Z.
Variable subset_input_image_list : list string -> outcome (list string).
Variable select_images_for_download : outcome (list Position).
Variable pick_headings : outcome (list (Position * Z)).
Variable prep_and_generate_gcp : string -> Z * Z -> Z -> outcome string.
Variable raster_size : string -> outcome (Z * Z).
Variable initialize_cameras : Q -> Q * Q -> outcome string.
Variable generate_ba_cameras : string -> string -> outcome string.

Let table := camera_table calculate_heading select_images_for_download pick_headings.
Let generate :=
  batch_generate_cameras calculate_heading subset_input_image_list
    select_images_for_download pick_headings prep_and_generate_gcp raster_size
    initialize_cameras generate_ba_cameras.

(** X20: When the number of images differs from the number of rows of the camera
    table, [batch_generate_cameras] exits with status 1 before anything is
    generated. *)
Theorem batch_generate_cameras_count_mismatch
    (tifs image_list : list string) (df : list (Position * Z))
    (focal_length_mm pixel_pitch_mm : Q) (manual_heading_selection : bool) :
  subset_input_image_list tifs = Return image_list ->
  table manual_heading_selection = Return df ->
  length image_list <> length df ->
  generate tifs focal_length_mm pixel_pitch_mm manual_heading_selection
  = (Raised (SystemExit 1), []).
Proof.
  intros Himages Htable Hlength.
  unfold generate, batch_generate_cameras. fold table.
  rewrite Himages, Htable.
  apply Nat.eqb_neq in Hlength. rewrite Hlength. reflexivity.
Qed.

(** X21: Without any image and with an empty camera table the loop body never
    runs, and the call that initialises the cameras fails on the unbound
    [principal_point_px]; nothing is generated. *)
Theorem batch_generate_cameras_without_images
    (tifs : list string) (focal_length_mm pixel_pitch_mm : Q)
    (manual_heading_selection : bool) :
  subset_input_image_list tifs = Return [] ->
  table manual_heading_selection = Return [] ->
  ~ (pixel_pitch_mm == 0)%Q ->
  generate tifs focal_length_mm pixel_pitch_mm manual_heading_selection
  = (Raised (Builtin UnboundLocalError), []).
Proof.
  intros Himages Htable Hpitch.
  unfold generate, batch_generate_cameras. fold table.
  rewrite Himages, Htable. cbn.
  destruct (Qeq_bool pixel_pitch_mm 0) eqn:Hzero; [| reflexivity].
  apply Qeq_bool_iff in Hzero. contradiction.
Qed.

Lemma gcp_loop_done (df : list (Position * Z)) (images : list string) :
  forall i gcp_directory principal made gcp_directory' principal' made',
    gcp_loop prep_and_generate_gcp raster_size df images i gcp_directory
      principal made
    = (Done (gcp_directory', principal'), made') ->
    made' = made ++ gcp_generations images (drop i df)
    /\ match last images with
       | None => gcp_directory' = gcp_directory /\ principal' = principal
       | Some image =>
           exists row heading width height directory,
             df !! (i + length images - 1)%nat = Some (row, heading)
             /\ prep_and_generate_gcp image (Latitude row, Longitude row) heading
                = Return directory
             /\ raster_size image = Return (width, height)
             /\ gcp_directory' = Some directory
             /\ principal'
                = Some ((inject_Z width / 2)%Q, (inject_Z height / 2)%Q)
       end.
Proof.
  induction images as [| image rest IH];
    intros i gcp_directory principal made gcp_directory' principal' made' Hloop.
  - cbn in Hloop. injection Hloop as <- <- <-.
    cbn. rewrite app_nil_r. auto.
  - cbn [gcp_loop] in Hloop.
    destruct (df !! i) as [[row heading] |] eqn:Hrow; [| discriminate Hloop].
    destruct (prep_and_generate_gcp image _ heading) as [directory |] eqn:Hprep;
      [| discriminate Hloop].
    destruct (raster_size image) as [[width height] |] eqn:Hsize;
      [| discriminate Hloop].
    apply IH in Hloop as [Hmade Hlast].
    split.
    + rewrite Hmade, <- app_assoc. f_equal.
      rewrite (drop_S df (row, heading) i Hrow). reflexivity.
    + destruct rest as [| next rest'].
      * cbn in Hlast. destruct Hlast as [-> ->].
        cbn [last length].
        exists row, heading, width, height, directory.
        replace (i + 1 - 1)%nat with i by lia. auto.
      * change (last (image :: next :: rest')) with (last (next :: rest')).
        destruct (last (next :: rest')) as [final |] eqn:Hfinal;
          [| apply last_None in Hfinal; discriminate Hfinal].
        replace (i + length (image :: next :: rest') - 1)%nat
          with (S i + length (next :: rest') - 1)%nat by (cbn [length]; lia).
        exact Hlast.
Qed.

(** X22: When [batch_generate_cameras] returns a directory, it has generated
    GCPs for every image in order, each with the coordinates and the heading
    of the row at the same position, then initialised the cameras once, with
    the principal point of the last image only, and generated the cameras
    from the GCP directory of the last image. *)
Theorem batch_generate_cameras_uses_last_image
    (tifs : list string) (focal_length_mm pixel_pitch_mm : Q)
    (manual_heading_selection : bool)
    (output_directory : string) (made : list generation) :
  generate tifs focal_length_mm pixel_pitch_mm manual_heading_selection
  = (Done output_directory, made) ->
  exists image_list df image row heading width height gcp_directory cameras,
    subset_input_image_list tifs = Return image_list
    /\ table manual_heading_selection = Return df
    /\ length image_list = length df
    /\ last image_list = Some image
    /\ last df = Some (row, heading)
    /\ raster_size image = Return (width, height)
    /\ prep_and_generate_gcp image (Latitude row, Longitude row) heading
       = Return gcp_directory
    /\ generate_ba_cameras gcp_directory cameras = Return output_directory
    /\ made
       = gcp_generations image_list df
         ++ [InitializeCameras (focal_length_mm / pixel_pitch_mm)%Q
               ((inject_Z width / 2)%Q, (inject_Z height / 2)%Q);
             GenerateBaCameras gcp_directory cameras].
Proof.
  unfold generate, batch_generate_cameras. fold table.
  intros Hrun.
  destruct (subset_input_image_list tifs) as [image_list |] eqn:Himages;
    [| discriminate Hrun].
  destruct (table manual_heading_selection) as [df |] eqn:Htable;
    [| discriminate Hrun].
  destruct (length image_list =? length df)%nat eqn:Hlength;
    [| discriminate Hrun].
  apply Nat.eqb_eq in Hlength. cbn [negb] in Hrun.
  destruct (gcp_loop _ _ df image_list 0 None None [])
    as [[[gcp principal] | r] generated] eqn:Hloop; [| discriminate Hrun].
  destruct (Qeq_bool pixel_pitch_mm 0); [discriminate Hrun |].
  destruct principal as [principal |]; [| discriminate Hrun].
  destruct (initialize_cameras _ principal) as [cameras |] eqn:Hinit;
    [| discriminate Hrun].
  destruct gcp as [gcp_directory |]; [| discriminate Hrun].
  destruct (generate_ba_cameras gcp_directory cameras) as [out |] eqn:Hba;
    [| discriminate Hrun].
  cbn [lift] in Hrun. injection Hrun as -> <-.
  apply gcp_loop_done in Hloop as [Hmade Hlast].
  destruct (last image_list) as [image |] eqn:Himage;
    [| destruct Hlast as [? _]; discriminate].
  destruct Hlast as (row & heading & width & height & directory
                     & Hrow & Hprep & Hsize & [= ->] & [= ->]).
  exists image_list, df, image, row, heading, width, height, directory, cameras.
  repeat split; try assumption.
  - rewrite last_lookup, <- Hlength, <- Hrow. f_equal. lia.
  - rewrite Hmade. cbn [app drop]. rewrite <- app_assoc. reflexivity.
Qed.

End Cameras.

Lemma batch_generate_cameras_count_mismatch_witness :
  BatchCameras.flight BatchCameras.flight_table ["a.tif"%string]
  = (Raised (SystemExit 1), []).
Proof.
  apply (batch_generate_cameras_count_mismatch Batch.eastward
           (fun images => Return images) (Return BatchCameras.flight_table)
           (Raise (ExternalError "no display")) BatchCameras.flight_gcp
           BatchCameras.flight_size (fun _ _ => Return "cameras"%string)
           (fun _ _ => Return "ba_cameras"%string)
           ["a.tif"%string] ["a.tif"%string]
           [(Batch.mkPosition 0 0, 3); (Batch.mkPosition 3 0, 3)]
           150%Q (1 # 50)%Q false).
  - reflexivity.
  - reflexivity.
  - cbn. lia.
Defined.

Lemma batch_generate_cameras_without_images_witness :
  BatchCameras.flight [] [] = (Raised (Builtin UnboundLocalError), []).
Proof.
  apply (batch_generate_cameras_without_images Batch.eastward
           (fun images => Return images) (Return [])
           (Raise (ExternalError "no display")) BatchCameras.flight_gcp
           BatchCameras.flight_size (fun _ _ => Return "cameras"%string)
           (fun _ _ => Return "ba_cameras"%string)
           [] 150%Q (1 # 50)%Q false).
  - reflexivity.
  - reflexivity.
  - intros Hzero. discriminate Hzero.
Defined.

Lemma batch_generate_cameras_uses_last_image_witness :
  let tifs := ["a.tif"; "b.tif"]%string in
  exists image_list df image row heading width height gcp_directory cameras,
    Return tifs = Return image_list
    /\ BatchCameras.camera_table Batch.eastward
         (Return BatchCameras.flight_table)
         (Raise (ExternalError "no display")) false
       = Return df
    /\ length image_list = length df
    /\ last image_list = Some image
    /\ last df = Some (row, heading)
    /\ BatchCameras.flight_size image = Return (width, height)
    /\ BatchCameras.flight_gcp image
         (Batch.Latitude row, Batch.Longitude row) heading
       = Return gcp_directory
    /\ Return "ba_cameras"%string = Return "ba_cameras"%string
    /\ snd (BatchCameras.flight BatchCameras.flight_table tifs)
       = BatchCameras.gcp_generations image_list df
         ++ [BatchCameras.InitializeCameras (150 / (1 # 50))%Q
               ((inject_Z width / 2)%Q, (inject_Z height / 2)%Q);
             BatchCameras.GenerateBaCameras gcp_directory cameras].
Proof.
  intros tifs.
  apply (batch_generate_cameras_uses_last_image Batch.eastward
           (fun images => Return images) (Return BatchCameras.flight_table)
           (Raise (ExternalError "no display")) BatchCameras.flight_gcp
           BatchCameras.flight_size (fun _ _ => Return "cameras"%string)
           (fun _ _ => Return "ba_cameras"%string)
           tifs 150%Q (1 # 50)%Q false "ba_cameras"
           (snd (BatchCameras.flight BatchCameras.flight_table tifs))).
  vm_compute. reflexivity.
Defined.

